(** * Study Navigator add-on: hierarchical tag aggregation and export

    A shallow embedding of
    - [services/hierarchical_tag_counter.py] (class HierarchicalTagCounter),
    - [services/base_export_service.py] (class BaseExportService),
    - [services/export_service_factory.py] and
      [services/all_tags_export_service.py],
    - [unified_card_exporter.py] (class UnifiedCardExporter),
    together with the properties of these functions.

    Python [str] values are modelled as [string] (sequences of 8-bit
    characters), Python [set]s as [gset], the counter's [defaultdict]s as
    [gmap]s, and the insertion-ordered [dict] handed to the counter as the
    list of its items. *)

From Stdlib Require Import ZArith String Ascii List.
From stdpp Require Import base gmap sets list strings sorting.

Local Open Scope string_scope.
Local Open Scope Z_scope.
Local Open Scope list_scope.
Set Warnings "-clear-no-such-hyp,-register-all".

(** ** Python string primitives used by the source *)

Module PyStr.

(** [s.split('::')]: leftmost, non-overlapping occurrences of the
    delimiter cut the string; the result is never empty. *)
Fixpoint split (s : string) : list string :=
  match s with
  | EmptyString => [EmptyString]
  | String c rest =>
      match c, rest with
      | ":"%char, String ":"%char rest' => EmptyString :: split rest'
      | _, _ =>
          match split rest with
          | p :: ps => String c p :: ps
          | [] => [String c EmptyString]
          end
      end
  end.

(** ['::'.join(parts)] *)
Fixpoint join (parts : list string) : string :=
  match parts with
  | [] => EmptyString
  | [p] => p
  | p :: ps => p +:+ "::" +:+ join ps
  end.

(** [s.count('::')]: number of non-overlapping occurrences, scanning from
    the left. *)
Fixpoint count (s : string) : nat :=
  match s with
  | EmptyString => 0%nat
  | String c rest =>
      match c, rest with
      | ":"%char, String ":"%char rest' => S (count rest')
      | _, _ => count rest
      end
  end.

(** [needle in hay] (substring test). *)
Fixpoint starts_with (needle hay : string) : bool :=
  match needle, hay with
  | EmptyString, _ => true
  | String a n', String b h' => if Ascii.eqb a b then starts_with n' h' else false
  | String _ _, EmptyString => false
  end.

Fixpoint contains (needle hay : string) : bool :=
  starts_with needle hay
  || match hay with
     | EmptyString => false
     | String _ h' => contains needle h'
     end.

(** [c.lower()] on one character and [s.lower()]; lower-casing acts on the
    letters A to Z. *)
Definition lower_char (c : ascii) : ascii :=
  let n := nat_of_ascii c in
  if (Nat.leb 65 n && Nat.leb n 90)%bool then ascii_of_nat (n + 32) else c.

Fixpoint lower (s : string) : string :=
  match s with
  | EmptyString => EmptyString
  | String c rest => String (lower_char c) (lower rest)
  end.

End PyStr.


(** ** services/hierarchical_tag_counter.py *)

(** A card record as built by [_load_all_data_optimized], with the keys the
    export reads.  The counter reads the identifier with [card.get('id')]
    and guards on its truth value, so [id] is optional: [None] stands for a
    missing key or a [None] value.  The other keys are always set by the
    loader, so [c.get(key, default)] is the field. *)
Record Card := mkCard {
  id : option Z;
  nid : Z;
  deck : string;
  queue : Z;
  due : Z;
  ivl : Z;
  factor : Z;
  reps : Z;
  lapses : Z;
  suspended : bool;
  tags : list string
}.

(** The insertion-ordered [Dict[str, List[Dict]]] given to the counter, as
    the list of its items.  A dict has each key once: [NoDup (dict_keys d)]. *)
Definition CardsByTag : Type := list (string * list Card).

Definition dict_keys {V} (d : list (string * V)) : list string := d.*1.

(** [d.get(key, default)] on the item list. *)
Fixpoint dict_get {V} (d : list (string * V)) (key : string) (dflt : V) : V :=
  match d with
  | [] => dflt
  | (k, v) :: d' => if String.eqb k key then v else dict_get d' key dflt
  end.

Module HierarchicalTagCounter.

(** Instance attributes set by [__init__]. *)
Record t := mk {
  tag_hierarchy : gmap string (gset string);
  card_to_tags : gmap Z (gset string);
  tag_to_cards : gmap string (gset Z);
  unique_card_ids : gset Z;
  _hierarchy_built : bool
}.

Definition __init__ : t := mk ∅ ∅ ∅ ∅ false.

(** Per-node result of [calculate_hierarchical_counts]. *)
Record TagInfo := mkInfo {
  direct_cards : gset Z;
  all_unique_cards : gset Z;
  direct_count : Z;
  hierarchical_count : Z;
  children_count : Z;
  children_tags : list string;
  parent_tags : list string
}.

(** [len(s)] of a set. *)
Definition len_set `{Countable A} (s : gset A) : Z := Z.of_nat (size s).

(** [self.tag_hierarchy[parent].add(child)] on a [defaultdict(set)]. *)
Definition add_edge (self : t) (parent child : string) : t :=
  mk (<[parent := default ∅ (tag_hierarchy self !! parent) ∪ {[child]}]> (tag_hierarchy self))
     (card_to_tags self) (tag_to_cards self) (unique_card_ids self)
     (_hierarchy_built self).

Definition _build_tag_hierarchy_fast (self : t) (tag_name : string) : t :=
  if negb (PyStr.contains "::" tag_name) then self
  else
    let tag_parts := PyStr.split tag_name in
    foldl (fun self i =>
             let parent := PyStr.join (take (i + 1) tag_parts) in
             let child := PyStr.join (take (i + 2) tag_parts) in
             add_edge self parent child)
          self (seq 0 (length tag_parts - 1)).

(** Body of the inner loop [for card in cards] of
    [build_hierarchy_from_cards]; the state is [(card_ids, self)]. *)
Definition add_card (tag : string) (acc : gset Z * t) (card : Card) : gset Z * t :=
  let '(card_ids, self) := acc in
  match id card with
  | Some card_id =>
      if Z.eqb card_id 0 then acc
      else
        (card_ids ∪ {[card_id]},
         mk (tag_hierarchy self)
            (<[card_id := default ∅ (card_to_tags self !! card_id) ∪ {[tag]}]>
               (card_to_tags self))
            (tag_to_cards self)
            (unique_card_ids self ∪ {[card_id]})
            (_hierarchy_built self))
  | None => acc
  end.

(** Body of the outer loop [for tag, cards in cards_by_tag.items()]. *)
Definition add_tag (self : t) (item : string * list Card) : t :=
  let '(tag, cards) := item in
  let '(card_ids, self) := foldl (add_card tag) (∅, self) cards in
  let self := mk (tag_hierarchy self) (card_to_tags self)
                 (<[tag := card_ids]> (tag_to_cards self))
                 (unique_card_ids self) (_hierarchy_built self) in
  _build_tag_hierarchy_fast self tag.

Definition build_hierarchy_from_cards (self : t) (cards_by_tag : CardsByTag) : t :=
  if _hierarchy_built self then self
  else
    let self := foldl add_tag self cards_by_tag in
    mk (tag_hierarchy self) (card_to_tags self) (tag_to_cards self)
       (unique_card_ids self) true.

Definition _get_parent_tags_fast (tag_name : string) : list string :=
  if negb (PyStr.contains "::" tag_name) then []
  else
    let parts := PyStr.split tag_name in
    (fun i => PyStr.join (take i parts)) <$> seq 1 (length parts - 1).

(** [sorted(all_tags, key=lambda x: -x.count('::'))].  The iteration order
    of a Python set is not specified; [elements] fixes one enumeration. *)
Definition deeper_first (a b : string) : Prop := (PyStr.count b ≤ PyStr.count a)%nat.

#[global] Instance deeper_first_dec : RelDecision deeper_first.
Proof. intros a b. unfold deeper_first. apply _. Defined.

#[global] Instance deeper_first_total : Total deeper_first.
Proof. intros a b. unfold deeper_first. lia. Qed.

#[global] Instance deeper_first_trans : Transitive deeper_first.
Proof. intros a b c. unfold deeper_first. lia. Qed.

Definition all_tags (self : t) : gset string :=
  dom (tag_to_cards self) ∪ dom (tag_hierarchy self).

Definition sorted_tags (self : t) : list string :=
  merge_sort deeper_first (elements (all_tags self)).

(** The set unioned into [all_cards] for one child: the memoised
    rolled-up set, else the fall-back to the child's direct cards. *)
Definition child_cards (self : t) (hierarchical_data : gmap string TagInfo)
    (child : string) : gset Z :=
  match hierarchical_data !! child with
  | Some info => all_unique_cards info
  | None => default ∅ (tag_to_cards self !! child)
  end.

(** Body of the loop [for tag in sorted_tags]. *)
Definition process_tag (self : t) (hierarchical_data : gmap string TagInfo)
    (tag : string) : gmap string TagInfo :=
  let direct_cards := default ∅ (tag_to_cards self !! tag) in
  let direct_count := len_set direct_cards in
  let children := default ∅ (tag_hierarchy self !! tag) in
  let all_cards :=
    foldl (fun all_cards child => all_cards ∪ child_cards self hierarchical_data child)
          direct_cards (elements children) in
  let hierarchical_count := len_set all_cards in
  let children_count := hierarchical_count - direct_count in
  <[tag := mkInfo direct_cards all_cards direct_count hierarchical_count
                  children_count (elements children)
                  (_get_parent_tags_fast tag)]> hierarchical_data.

Definition calculate_hierarchical_counts (self : t) : gmap string TagInfo :=
  foldl (process_tag self) ∅ (sorted_tags self).

Definition get_unique_card_count (self : t) : Z := len_set (unique_card_ids self).

End HierarchicalTagCounter.

(** ** services/base_export_service.py *)

(** A review-log entry as built by [_load_revlog_data_optimized]; the export
    reads its [ease] and [time] keys. *)
Record RevLog := mkRevLog {
  log_id : Z;
  cid : Z;
  ease : Z;
  time : Z
}.

(** Python numbers met in an export record: an [int], or the [float] that
    true division [num / den] of two ints yields. *)
Inductive PyNum :=
| PyInt (n : Z)
| PyFloat (num den : Z).

(** [a / b] on ints; [None] is ZeroDivisionError. *)
Definition truediv (a b : Z) : option PyNum :=
  if Z.eqb b 0 then None else Some (PyFloat a b).

(** [len(l)], [sum(1 for x in l if p x)] and [sum(f x for x in l)]. *)
Definition len {A} (l : list A) : Z := Z.of_nat (length l).
Definition count_if {A} (p : A → bool) (l : list A) : Z := len (filter p l).
Definition sum_of {A} (f : A → Z) (l : list A) : Z := foldl (fun acc x => acc + f x) 0 l.

Module BaseExportService.

Module HTC := HierarchicalTagCounter.

Record t := mk {
  cards_by_id : gmap Z Card;
  revlog_by_card : gmap Z (list RevLog);
  service_name : string
}.

Definition _is_high_yield_tag (tag : string) : bool :=
  let tag_lower := PyStr.lower tag in
  (PyStr.contains "high" tag_lower && PyStr.contains "yield" tag_lower)
  || PyStr.contains "highyield" tag_lower
  || PyStr.contains "lowyield" tag_lower
  || PyStr.contains "loweryield" tag_lower.

(** [re.match(r'^([1-5])[-_]', s)], returning [int(match.group(1))]. *)
Definition match_level (s : string) : option Z :=
  match s with
  | String d (String sep _) =>
      if (Ascii.eqb sep "-" || Ascii.eqb sep "_")%bool then
        if Ascii.eqb d "1" then Some 1
        else if Ascii.eqb d "2" then Some 2
        else if Ascii.eqb d "3" then Some 3
        else if Ascii.eqb d "4" then Some 4
        else if Ascii.eqb d "5" then Some 5
        else None
      else None
  | _ => None
  end.

(** The loop [for part in parts] with its early [return]. *)
Fixpoint first_level (parts : list string) : Z :=
  match parts with
  | [] => 0
  | part :: parts' =>
      match match_level part with
      | Some n => n
      | None => first_level parts'
      end
  end.

Definition _get_yield_level (tag : string) : Z :=
  if negb (_is_high_yield_tag tag) then 0
  else
    match match_level tag with
    | Some n => n
    | None => first_level (PyStr.split tag)
    end.

Definition _get_cards_by_yield_level (cards : list Card) (yield_level : Z) : list Card :=
  filter (fun card => existsb (fun tag => Z.eqb (_get_yield_level tag) yield_level) (tags card))
         cards.

(** One entry of [yield_stats]. *)
Record YieldStat := mkYS { total : Z; new : Z; review : Z }.

#[global] Instance YieldStat_inhabited : Inhabited YieldStat := populate (mkYS 0 0 0).

Definition yield_stats_init : gmap Z YieldStat :=
  foldl (fun ys level => <[level := mkYS 0 0 0]> ys) ∅ [1; 2; 3; 4; 5].

(** The card's yield level: first tag with a positive level, else 0. *)
Fixpoint card_yield_level (card_tags : list string) : Z :=
  match card_tags with
  | [] => 0
  | t0 :: rest =>
      let level := _get_yield_level t0 in
      if Z.ltb 0 level then level else card_yield_level rest
  end.

Definition is_new (c : Card) : bool := Z.eqb (reps c) 0.
Definition is_review (c : Card) : bool := Z.eqb (queue c) 2.
Definition is_learning (c : Card) : bool := Z.eqb (queue c) 1.
Definition is_due (c : Card) : bool := Z.leb 0 (due c) && negb (suspended c).
Definition is_mature (c : Card) : bool := Z.ltb 21 (ivl c).
Definition b2z (b : bool) : Z := if b then 1 else 0.

(** Body of the parent-tag loop over [all_cards_in_hierarchy] that fills
    [yield_stats]. *)
Definition yield_add (self : t) (ys : gmap Z YieldStat) (card_id : Z) : gmap Z YieldStat :=
  match cards_by_id self !! card_id with
  | Some card =>
      let lvl := card_yield_level (tags card) in
      if Z.ltb 0 lvl then
        let s := ys !!! lvl in
        <[lvl := mkYS (total s + 1) (new s + b2z (is_new card))
                      (review s + b2z (is_review card))]> ys
      else ys
  | None => ys
  end.

(** The cards of [all_unique_cards] found in [self.cards_by_id], in the
    iteration order of the set. *)
Definition resolve (self : t) (ids : gset Z) : list Card :=
  omap (fun card_id => cards_by_id self !! card_id) (elements ids).

(** [self.revlog_by_card.get(cid, [])] for [cid = c.get("id")]. *)
Definition revlogs_of (self : t) (cid : option Z) : list RevLog :=
  match cid with
  | Some i => default [] (revlog_by_card self !! i)
  | None => []
  end.

Record ReviewData := mkRD {
  total_reviews : Z;
  total_time_ms : Z;
  avg_time_ms : PyNum;
  again_count : Z;
  hard_count : Z;
  good_count : Z;
  easy_count : Z
}.

Record CardDetail := mkCD {
  cd_card_id : option Z;
  cd_note_id : Z;
  cd_deck : string;
  cd_queue : Z;
  cd_due : Z;
  cd_suspended : bool
}.

(** One output record; the key [timestamp] (wall clock) is left out. *)
Record ExportRecord := mkRec {
  tag_name : string;
  rec_service_name : string;
  total_cards : Z;
  unique_notes : Z;
  due_cards : Z;
  new_cards : Z;
  learning_cards : Z;
  review_cards : Z;
  mature_cards : Z;
  suspended_cards : Z;
  unstudied_cards : Z;
  high_yield_total_cards : Z;
  high_yield_new_cards : Z;
  high_yield_review_cards : Z;
  yield_level_stats : list YieldStat;
  hierarchical_total_cards : Z;
  children_cards : Z;
  children_tags : list string;
  parent_tags : list string;
  avg_ease : PyNum;
  avg_interval : PyNum;
  total_lapses : Z;
  review_data : ReviewData;
  unstudied_card_details : list CardDetail;
  export_type : string
}.

(** [hierarchical_info and hierarchical_info.get('hierarchical_count', 0) > 0];
    [hierarchical_info] is [hierarchical_data.get(tag, {})], an empty dict
    (falsy) when the tag has no entry. *)
Definition has_hierarchy (hierarchical_info : option HTC.TagInfo) : bool :=
  match hierarchical_info with
  | Some info => Z.ltb 0 (HTC.hierarchical_count info)
  | None => false
  end.

(** [hierarchical_info.get('all_unique_cards', set())] *)
Definition hierarchy_cards (hierarchical_info : option HTC.TagInfo) : gset Z :=
  match hierarchical_info with
  | Some info => HTC.all_unique_cards info
  | None => ∅
  end.

Definition levels : list Z := [1; 2; 3; 4; 5].

(** Yield statistics of one tag: [(yield_stats, high_yield_total,
    high_yield_new, high_yield_review)]. *)
Definition yield_counts (self : t) (tag : string) (cards : list Card)
    (hierarchical_info : option HTC.TagInfo)
    : gmap Z YieldStat * Z * Z * Z :=
  let total_cards := len cards in
  let tag_yield_level := _get_yield_level tag in
  if Z.ltb 0 tag_yield_level then
    let n := count_if is_new cards in
    let r := count_if is_review cards in
    (<[tag_yield_level := mkYS total_cards n r]> yield_stats_init, total_cards, n, r)
  else
    let yield_stats :=
      if has_hierarchy hierarchical_info && Z.eqb total_cards 0 then
        foldl (yield_add self) yield_stats_init (elements (hierarchy_cards hierarchical_info))
      else
        foldl (fun ys level =>
                 let level_cards := _get_cards_by_yield_level cards level in
                 <[level := mkYS (len level_cards) (count_if is_new level_cards)
                                 (count_if is_review level_cards)]> ys)
              yield_stats_init levels in
    (yield_stats,
     sum_of (fun level => total (yield_stats !!! level)) levels,
     sum_of (fun level => new (yield_stats !!! level)) levels,
     sum_of (fun level => review (yield_stats !!! level)) levels).

(** The card list the state counts range over: direct cards, the resolved
    rolled-up cards of a parent tag, or nothing. *)
Definition metric_cards (self : t) (cards : list Card)
    (hierarchical_info : option HTC.TagInfo) : list Card :=
  if Z.eqb (len cards) 0 then
    if has_hierarchy hierarchical_info
    then resolve self (hierarchy_cards hierarchical_info)
    else []
  else cards.

(** [len(set(c.get("nid") for c in cards if c.get("nid")))] *)
Definition count_notes (cards : list Card) : Z :=
  HTC.len_set (list_to_set (C := gset Z) (filter (fun n => negb (Z.eqb n 0)) (nid <$> cards))).

(** [(total_lapses, avg_ease, avg_interval, unique_notes)] *)
Definition averages (self : t) (cards : list Card)
    (hierarchical_info : option HTC.TagInfo) : option (Z * PyNum * PyNum * Z) :=
  let total_cards := len cards in
  if Z.ltb 0 total_cards then
    let total_factor := sum_of factor cards in
    let total_interval := sum_of ivl cards in
    let total_lapses := sum_of lapses cards in
    avg_ease ← truediv total_factor total_cards;
    avg_interval ← truediv total_interval total_cards;
    Some (total_lapses, avg_ease, avg_interval, count_notes cards)
  else if has_hierarchy hierarchical_info then
    let found := resolve self (hierarchy_cards hierarchical_info) in
    let count_cards := len found in
    let total_factor := sum_of factor found in
    let total_interval := sum_of ivl found in
    let total_lapses := sum_of lapses found in
    avg_ease ← (if Z.eqb count_cards 0 then Some (PyInt 0)
                else truediv total_factor count_cards);
    avg_interval ← (if Z.eqb count_cards 0 then Some (PyInt 0)
                    else truediv total_interval count_cards);
    Some (total_lapses, avg_ease, avg_interval, count_notes found)
  else Some (0, PyInt 0, PyInt 0, 0).

Definition review_stats (all_revlogs : list RevLog) : option ReviewData :=
  let total_reviews := len all_revlogs in
  let total_time_ms := sum_of time all_revlogs in
  avg_time_ms ← (if Z.eqb total_reviews 0 then Some (PyInt 0)
                 else truediv total_time_ms total_reviews);
  Some (mkRD total_reviews total_time_ms avg_time_ms
             (count_if (fun log => Z.eqb (ease log) 1) all_revlogs)
             (count_if (fun log => Z.eqb (ease log) 2) all_revlogs)
             (count_if (fun log => Z.eqb (ease log) 3) all_revlogs)
             (count_if (fun log => Z.eqb (ease log) 4) all_revlogs)).

(** [card_ids] of the review block: the identifiers whose review logs are
    gathered, those of the direct cards for a tag that has some, else those
    of the rolled-up set. *)
Definition review_card_ids (cards : list Card)
    (hierarchical_info : option HTC.TagInfo) : list (option Z) :=
  if Z.ltb 0 (len cards) then id <$> cards
  else if has_hierarchy hierarchical_info
  then Some <$> elements (hierarchy_cards hierarchical_info)
  else [].

(** The review-log entries gathered for one tag. *)
Definition gather_revlogs (self : t) (cards : list Card)
    (hierarchical_info : option HTC.TagInfo) : option (list RevLog) :=
  if Z.ltb 0 (len cards) then
    Some (concat (revlogs_of self <$> (id <$> cards)))
  else if has_hierarchy hierarchical_info then
    Some (concat (revlogs_of self <$> (Some <$> elements (hierarchy_cards hierarchical_info))))
  else None.

Definition review_data_of (self : t) (cards : list Card)
    (hierarchical_info : option HTC.TagInfo) : option ReviewData :=
  match gather_revlogs self cards hierarchical_info with
  | Some all_revlogs => review_stats all_revlogs
  | None => Some (mkRD 0 0 (PyInt 0) 0 0 0 0)
  end.

(** [self.cards_by_id.get(card_id, {}).get("reps", 0) == 0] *)
Definition unstudied_id (self : t) (card_id : Z) : bool :=
  match cards_by_id self !! card_id with
  | Some c => Z.eqb (reps c) 0
  | None => true
  end.

Definition unstudied_count (self : t) (cards : list Card)
    (hierarchical_info : option HTC.TagInfo) : Z :=
  if has_hierarchy hierarchical_info then
    count_if (unstudied_id self) (elements (hierarchy_cards hierarchical_info))
  else count_if is_new cards.

Definition card_detail (c : Card) : CardDetail :=
  mkCD (id c) (nid c) (deck c) (queue c) (due c) (suspended c).

(** Body of the loop [for tag in all_tags], after its first two
    assignments; [None] when an exception escapes. *)
Definition tag_record (self : t) (tag : string) (cards : list Card)
    (hierarchical_info : option HTC.TagInfo) : option ExportRecord :=
  let total_cards := len cards in
  let '(yield_stats, high_yield_total, high_yield_new, high_yield_review) :=
    yield_counts self tag cards hierarchical_info in
  let counted := metric_cards self cards hierarchical_info in
  '(total_lapses, avg_ease, avg_interval, unique_notes) ←
    averages self cards hierarchical_info;
  review ← review_data_of self cards hierarchical_info;
  let card_details :=
    if Z.ltb 0 total_cards then card_detail <$> filter is_new cards else [] in
  Some (mkRec tag (service_name self) total_cards unique_notes
          (count_if is_due counted) (count_if is_new counted)
          (count_if is_learning counted) (count_if is_review counted)
          (count_if is_mature counted) (count_if suspended counted)
          (unstudied_count self cards hierarchical_info)
          high_yield_total high_yield_new high_yield_review
          ((fun level => yield_stats !!! level) <$> levels)
          (from_option HTC.hierarchical_count total_cards hierarchical_info)
          (from_option HTC.children_count 0 hierarchical_info)
          (from_option HTC.children_tags [] hierarchical_info)
          (from_option HTC.parent_tags [] hierarchical_info)
          avg_ease avg_interval total_lapses review card_details
          "hierarchical_microservice").

Definition export_record (self : t) (cards_by_tag : CardsByTag)
    (hierarchical_data : gmap string HTC.TagInfo) (tag : string) : option ExportRecord :=
  let cards := dict_get cards_by_tag tag [] in
  let hierarchical_info := hierarchical_data !! tag in
  tag_record self tag cards hierarchical_info.

Definition _create_export_data_fast (self : t) (cards_by_tag : CardsByTag)
    (hierarchical_data : gmap string HTC.TagInfo) : option (list ExportRecord) :=
  let all_tags : gset string :=
    list_to_set (dict_keys cards_by_tag) ∪ dom hierarchical_data in
  mapM (export_record self cards_by_tag hierarchical_data) (elements all_tags).

(** Steps 3 and 4 of [export_data] on a fresh counter. *)
Definition export_pipeline (self : t) (filtered_cards_by_tag : CardsByTag)
    : option (list ExportRecord) :=
  let tag_counter := HTC.build_hierarchy_from_cards HTC.__init__ filtered_cards_by_tag in
  let hierarchical_data := HTC.calculate_hierarchical_counts tag_counter in
  _create_export_data_fast self filtered_cards_by_tag hierarchical_data.

End BaseExportService.

(** ** The record dicts and the gzip writer of [base_export_service.py] *)

(** Values a record handed to [json.dumps] may hold. *)
Inductive PyVal :=
| VNone
| VBool (b : bool)
| VInt (n : Z)
| VFloat (num den : Z)
| VStr (s : string)
| VList (l : list PyVal)
| VDict (d : list (string * PyVal))
| VSet (l : list PyVal).

(** A record of the export, [Dict[str, Any]], as the list of its items. *)
Definition Item : Type := list (string * PyVal).

(** The exceptions of the modelled code, and the outcome of a call that
    may raise past its caller. *)
Inductive Exc := OSError | TypeError | KeyError | ValueError | IndexError | AttributeError.

Inductive Outcome (A : Type) :=
| Returned (a : A)
| Raised (e : Exc).
Arguments Returned {A} a.
Arguments Raised {A} e.

(** The dict [tag_data] that [_create_export_data_fast] appends for each
    tag. *)
Module TagData.
Import BaseExportService.

Definition number (x : PyNum) : PyVal :=
  match x with
  | PyInt n => VInt n
  | PyFloat num den => VFloat num den
  end.

(** [c.get("id")]: an integer or [None]. *)
Definition optional_int (x : option Z) : PyVal := from_option VInt VNone x.

(** One entry of [card_details]. *)
Definition card_detail_dict (d : CardDetail) : PyVal :=
  VDict [("card_id", optional_int (cd_card_id d));
         ("note_id", VInt (cd_note_id d));
         ("deck", VStr (cd_deck d));
         ("queue", VInt (cd_queue d));
         ("due", VInt (cd_due d));
         ("suspended", VBool (cd_suspended d))].

Definition review_data_dict (rd : ReviewData) : PyVal :=
  VDict [("total_reviews", VInt (total_reviews rd));
         ("total_time_ms", VInt (total_time_ms rd));
         ("avg_time_ms", number (avg_time_ms rd));
         ("again_count", VInt (again_count rd));
         ("hard_count", VInt (hard_count rd));
         ("good_count", VInt (good_count rd));
         ("easy_count", VInt (easy_count rd))].

(** [tag_data]; [timestamp] is [datetime.utcnow().isoformat()], and
    [yield_stats[level]] is entry [level - 1] of [yield_level_stats]. *)
Definition tag_data (timestamp : string) (r : ExportRecord) : Item :=
  let yield_stats (level : nat) : YieldStat := yield_level_stats r !!! Nat.pred level in
  [("tag_name", VStr (tag_name r));
   ("service_name", VStr (rec_service_name r));
   ("total_cards", VInt (total_cards r));
   ("unique_notes", VInt (unique_notes r));
   ("due_cards", VInt (due_cards r));
   ("new_cards", VInt (new_cards r));
   ("learning_cards", VInt (learning_cards r));
   ("review_cards", VInt (review_cards r));
   ("mature_cards", VInt (mature_cards r));
   ("suspended_cards", VInt (suspended_cards r));
   ("unstudied_cards", VInt (unstudied_cards r));
   ("high_yield_total_cards", VInt (high_yield_total_cards r));
   ("high_yield_new_cards", VInt (high_yield_new_cards r));
   ("high_yield_review_cards", VInt (high_yield_review_cards r));
   ("yield_1_total_cards", VInt (total (yield_stats 1%nat)));
   ("yield_1_new_cards", VInt (new (yield_stats 1%nat)));
   ("yield_1_review_cards", VInt (review (yield_stats 1%nat)));
   ("yield_2_total_cards", VInt (total (yield_stats 2%nat)));
   ("yield_2_new_cards", VInt (new (yield_stats 2%nat)));
   ("yield_2_review_cards", VInt (review (yield_stats 2%nat)));
   ("yield_3_total_cards", VInt (total (yield_stats 3%nat)));
   ("yield_3_new_cards", VInt (new (yield_stats 3%nat)));
   ("yield_3_review_cards", VInt (review (yield_stats 3%nat)));
   ("yield_4_total_cards", VInt (total (yield_stats 4%nat)));
   ("yield_4_new_cards", VInt (new (yield_stats 4%nat)));
   ("yield_4_review_cards", VInt (review (yield_stats 4%nat)));
   ("yield_5_total_cards", VInt (total (yield_stats 5%nat)));
   ("yield_5_new_cards", VInt (new (yield_stats 5%nat)));
   ("yield_5_review_cards", VInt (review (yield_stats 5%nat)));
   ("hierarchical_total_cards", VInt (hierarchical_total_cards r));
   ("children_cards", VInt (children_cards r));
   ("children_tags", VList (VStr <$> children_tags r));
   ("parent_tags", VList (VStr <$> parent_tags r));
   ("avg_ease", number (avg_ease r));
   ("avg_interval", number (avg_interval r));
   ("total_lapses", VInt (total_lapses r));
   ("review_data", review_data_dict (review_data r));
   ("unstudied_card_details", VList (card_detail_dict <$> unstudied_card_details r));
   ("timestamp", VStr timestamp);
   ("export_type", VStr (export_type r))].

End TagData.

Module Sink.

(** [json.dumps] raises TypeError on a value that is not JSON
    serializable, here a [set]. *)
Fixpoint serializable (v : PyVal) : bool :=
  match v with
  | VSet _ => false
  | VList l => forallb serializable l
  | VDict d => forallb (fun kv => serializable kv.2) d
  | _ => true
  end.

(** [json.dumps(item) + '\n']; a written line is represented by the
    record it encodes, [None] is the raised exception. *)
Definition json_dumps (item : Item) : option Item :=
  if forallb (fun kv => serializable kv.2) item then Some item else None.

(** The file system as the writers see it: the regular files, each with
    the lines written to it (the gzip layer is left out), the directories
    that exist, and the paths at which nothing can be created or opened for
    writing.  Paths are compared as strings. *)
Record FileSystem := mkFS {
  files : gmap string (list Item);
  dirs : gset string;
  unwritable : gset string
}.

(** [os.makedirs(path, exist_ok=True)] and [Path.mkdir(exist_ok=True)]:
    nothing to do when the directory exists; [None] is the OSError raised
    when [path] is a regular file or cannot be created. *)
Definition mkdir (fs : FileSystem) (path : string) : option FileSystem :=
  if decide (path ∈ dirs fs) then Some fs
  else if decide (path ∈ unwritable fs ∨ is_Some (files fs !! path)) then None
  else Some (mkFS (files fs) ({[path]} ∪ dirs fs) (unwritable fs)).

(** [gzip.open(file_path, 'wb')] and [gzip.open(file_path, 'wt')]: creates
    or truncates the file; [None] when the open raises. *)
Definition gzip_open (fs : FileSystem) (file_path : string) : option FileSystem :=
  if decide (file_path ∈ unwritable fs ∨ file_path ∈ dirs fs) then None
  else Some (mkFS (<[file_path := []]> (files fs)) (dirs fs) (unwritable fs)).

(** [f.write(line)] *)
Definition write (fs : FileSystem) (file_path : string) (line : Item) : FileSystem :=
  mkFS (alter (fun written => written ++ [line]) file_path (files fs))
       (dirs fs) (unwritable fs).

(** The loop [for item in data] inside the [with] block; the flag is
    [false] when [json.dumps] raised (the [with] block closes the file). *)
Fixpoint write_all (fs : FileSystem) (file_path : string) (data : list Item)
    : FileSystem * bool :=
  match data with
  | [] => (fs, true)
  | item :: rest =>
      match json_dumps item with
      | Some line => write_all (write fs file_path line) file_path rest
      | None => (fs, false)
      end
  end.

(** [path.endswith('/')] *)
Fixpoint ends_with_sep (path : string) : bool :=
  match path with
  | EmptyString => false
  | String c rest =>
      match rest with
      | EmptyString => Ascii.eqb c "/"
      | String _ _ => ends_with_sep rest
      end
  end.

(** [os.path.join(a, b)] (posixpath), also [a / b] of [pathlib]. *)
Definition path_join (a b : string) : string :=
  if PyStr.starts_with "/" b then b
  else if (String.eqb a "" || ends_with_sep a)%bool then a +:+ b
  else a +:+ "/" +:+ b.




(** An empty disk, one on which the exports directory cannot be created,
    and one on which it exists but the output file cannot be opened. *)
Definition empty_fs : FileSystem := mkFS ∅ ∅ ∅.

End Sink.

(** ** The remaining methods of [HierarchicalTagCounter] *)

Module CounterQueries.
Import HierarchicalTagCounter.

(** The dict returned by [get_tag_statistics]. *)
Record TagStatistics := mkStats {
  total_unique_cards : Z;
  total_tags : Z;
  hierarchical_tags : Z;
  max_depth : Z;
  hierarchical_data : gmap string TagInfo
}.

(** [max((tag.count('::') for tag in keys), default=0)] *)
Definition max_count (keys : list string) : Z :=
  match keys with
  | [] => 0
  | key :: keys' =>
      foldl (fun m tag => Z.max m (Z.of_nat (PyStr.count tag)))
            (Z.of_nat (PyStr.count key)) keys'
  end.

(** [len(d)] of a dict. *)
Definition len_dict {V} (d : gmap string V) : Z := Z.of_nat (size d).

Definition get_tag_statistics (self : t) : TagStatistics :=
  let hierarchical_data := calculate_hierarchical_counts self in
  mkStats (len_set (unique_card_ids self))
          (len_dict (tag_to_cards self))
          (len_dict (tag_hierarchy self))
          (max_count (elements (dom (tag_to_cards self))))
          hierarchical_data.

(** [reset]: every container is cleared and the flag lowered. *)
Definition reset (self : t) : t := mk ∅ ∅ ∅ ∅ false.

(** [self.card_to_tags[card_id]], read without creating the entry. *)
Definition tags_of (self : t) (card_id : Z) : gset string :=
  default ∅ (card_to_tags self !! card_id).

End CounterQueries.

(** ** Notions used to state the properties *)

(** [s] starts with the delimiter. *)
Definition sep_head (s : string) : Prop := ∃ r, s = String ":" (String ":" r).

(** The identifier [build_hierarchy_from_cards] keeps for a card, if any:
    [card.get('id')] when it is truthy. *)
Definition kept_id (card : Card) : option Z :=
  match id card with
  | Some card_id => if Z.eqb card_id 0 then None else Some card_id
  | None => None
  end.

Definition kept_ids (cards : list Card) : gset Z := list_to_set (omap kept_id cards).

(** The input with every card record of falsy identifier removed. *)
Definition without_falsy_ids (cards_by_tag : CardsByTag) : CardsByTag :=
  (fun item => (item.1, filter (fun card => is_Some (kept_id card)) item.2)) <$> cards_by_tag.

Module Forest.
Import HierarchicalTagCounter.

(** Children and direct cards of a node, as the aggregation loop reads
    them ([.get(tag, set())]). *)
Definition children_of (self : t) (tag : string) : gset string :=
  default ∅ (tag_hierarchy self !! tag).

Definition direct_of (self : t) (tag : string) : gset Z :=
  default ∅ (tag_to_cards self !! tag).

(** [child] is registered as a child of [parent]. *)
Definition edge (self : t) (parent child : string) : Prop :=
  child ∈ children_of self parent.

(** [d] is a descendant of [a]: a child, a child of a child, ... *)
Definition descendant (self : t) : relation string := tc (edge self).

(** The parent/child pairs [_build_tag_hierarchy_fast] registers for a
    tag, in the order of its loop. *)
Definition path_edges (tag_name : string) : list (string * string) :=
  let tag_parts := PyStr.split tag_name in
  (fun i => (PyStr.join (take (i + 1) tag_parts), PyStr.join (take (i + 2) tag_parts)))
    <$> seq 0 (length tag_parts - 1).

Definition add_edges (self : t) (l : list (string * string)) : t :=
  foldl (fun self pc => add_edge self pc.1 pc.2) self l.

(** The rolled-up set the loop body computes for [tag] from the entries
    already in [hierarchical_data]. *)
Definition rolled_up (self : t) (hierarchical_data : gmap string TagInfo)
    (tag : string) : gset Z :=
  direct_of self tag
  ∪ ⋃ (child_cards self hierarchical_data <$> elements (children_of self tag)).

(** The counts of an entry agree with its two sets. *)
Definition counts_ok (info : TagInfo) : Prop :=
  direct_count info = len_set (direct_cards info)
  ∧ hierarchical_count info = len_set (all_unique_cards info)
  ∧ children_count info = hierarchical_count info - direct_count info
  ∧ direct_cards info ⊆ all_unique_cards info.

(** What an entry of [hierarchical_data] must be, given the entries of
    the children. *)
Record node_ok (self : t) (hierarchical_data : gmap string TagInfo)
    (tag : string) (info : TagInfo) : Prop := {
  ok_direct : direct_cards info = direct_of self tag;
  ok_rolled : all_unique_cards info = rolled_up self hierarchical_data tag;
  ok_direct_count : direct_count info = len_set (direct_cards info);
  ok_hier_count : hierarchical_count info = len_set (all_unique_cards info);
  ok_children_count : children_count info = hierarchical_count info - direct_count info;
  ok_children_tags : children_tags info = elements (children_of self tag);
  ok_parent_tags : parent_tags info = _get_parent_tags_fast tag;
  ok_children : ∀ child, edge self tag child → is_Some (hierarchical_data !! child)
}.
End Forest.

(** The yield-level convention in the words of the specification. *)
Module YieldSpec.

(** [needle] occurs in [hay]. *)
Definition substring (needle hay : string) : Prop :=
  ∃ pre post, hay = pre +:+ needle +:+ post.

(** A yield marker: the lower-cased label contains both "high" and "yield",
    or one of the fixed tokens. *)
Definition is_yield_marker (tag : string) : Prop :=
  (substring "high" (PyStr.lower tag) ∧ substring "yield" (PyStr.lower tag))
  ∨ substring "highyield" (PyStr.lower tag)
  ∨ substring "lowyield" (PyStr.lower tag)
  ∨ substring "loweryield" (PyStr.lower tag).

Definition level_digit (d : ascii) : option Z :=
  if Ascii.eqb d "1" then Some 1
  else if Ascii.eqb d "2" then Some 2
  else if Ascii.eqb d "3" then Some 3
  else if Ascii.eqb d "4" then Some 4
  else if Ascii.eqb d "5" then Some 5
  else None.

(** [s] starts with the digit of level [n] (1 to 5) immediately followed
    by ['-'] or ['_']. *)
Definition digit_prefixed (s : string) (n : Z) : Prop :=
  ∃ d sep rest,
    s = String d (String sep rest)
    ∧ level_digit d = Some n
    ∧ (sep = "-"%char ∨ sep = "_"%char).

Definition has_digit_prefix (s : string) : Prop := ∃ n, digit_prefixed s n.

End YieldSpec.

(** ** Tag filtering of [BaseExportService] and the all-tags service *)

Module ExportFilter.
Import BaseExportService.

(** The dict returned by [get_filter_criteria]. *)
Record Criteria := mkCriteria {
  include_patterns : list string;
  exclude_patterns : list string
}.

(** [AllTagsExportService.get_filter_criteria] *)
Definition all_tags_criteria : Criteria := mkCriteria [] [].

(** [any(pattern in tag for pattern in patterns)] *)
Definition any_pattern_in (patterns : list string) (tag : string) : bool :=
  existsb (fun pattern => PyStr.contains pattern tag) patterns.

Definition _matches_criteria_fast (tag : string) (criteria : Criteria) : bool :=
  let include_patterns := include_patterns criteria in
  let exclude_patterns := exclude_patterns criteria in
  if match exclude_patterns with [] => false | _ => any_pattern_in exclude_patterns tag end
  then false
  else if match include_patterns with
          | [] => false
          | _ => negb (any_pattern_in include_patterns tag)
          end
  then false
  else true.

(** [cards_by_tag[tag].append(card_info)] on a [defaultdict(list)]: a new
    key goes last. *)
Fixpoint dict_append (cards_by_tag : CardsByTag) (tag : string) (card_info : Card)
    : CardsByTag :=
  match cards_by_tag with
  | [] => [(tag, [card_info])]
  | (k, v) :: rest =>
      if String.eqb k tag then (k, v ++ [card_info]) :: rest
      else (k, v) :: dict_append rest tag card_info
  end.

(** The inner loop [for tag in card_info.get("tags", [])]. *)
Definition add_card_tags (criteria : Criteria) (cards_by_tag : CardsByTag) (card_info : Card)
    : CardsByTag :=
  foldl (fun cards_by_tag tag =>
           if _matches_criteria_fast tag criteria
           then dict_append cards_by_tag tag card_info
           else cards_by_tag)
        cards_by_tag (tags card_info).

(** [self.cards_by_id.values()], in the enumeration order of the map. *)
Definition card_values (self : t) : list Card := (map_to_list (cards_by_id self)).*2.

(** [_filter_cards_by_tag_fast], the criteria being those of the service. *)
Definition _filter_cards_by_tag_fast (self : t) (criteria : Criteria) : CardsByTag :=
  foldl (add_card_tags criteria) [] (card_values self).

(** [_get_high_yield_cards] *)
Definition _get_high_yield_cards (cards : list Card) : list Card :=
  filter (fun card => existsb (fun tag => Z.ltb 0 (_get_yield_level tag)) (tags card)) cards.

(** The cards carrying [tag], each repeated as often as its tag list
    repeats the tag. *)
Definition carriers (tag : string) (cards : list Card) : list Card :=
  concat ((fun card => (fun _ => card) <$> filter (fun t => t = tag) (tags card)) <$> cards).

(** Steps 2 to 4 of [export_data]. *)
Definition export_steps (self : t) (criteria : Criteria) : option (list ExportRecord) :=
  let filtered_cards_by_tag := _filter_cards_by_tag_fast self criteria in
  export_pipeline self filtered_cards_by_tag.

(** The card store as [_load_all_data_optimized] fills it: each card is
    stored under its own identifier, and identifiers are not 0. *)
Definition store_ok (self : t) : Prop :=
  ∀ i card, cards_by_id self !! i = Some card → id card = Some i ∧ i ≠ 0.

(** No card lists a tag twice. *)
Definition tags_unique (self : t) : Prop :=
  ∀ i card, cards_by_id self !! i = Some card → NoDup (tags card).

(** What the criteria mean: no exclude pattern occurs in the tag, and, when
    there are include patterns, one of them does. *)
Definition admitted (criteria : Criteria) (tag : string) : Prop :=
  (∀ pattern, pattern ∈ exclude_patterns criteria → ¬ YieldSpec.substring pattern tag)
  ∧ (include_patterns criteria = []
     ∨ ∃ pattern, pattern ∈ include_patterns criteria ∧ YieldSpec.substring pattern tag).

End ExportFilter.

(** ** [export_service_factory.py] and [all_tags_export_service.py] *)

Module ExportServiceFactory.
Import ExportFilter.

(** A concrete service class: its two abstract methods. *)
Record ServiceClass := mkClass {
  get_service_name : string;
  get_filter_criteria : Criteria
}.

Definition AllTagsExportService : ServiceClass :=
  mkClass "All Tags Export" all_tags_criteria.

(** A service object: its class and the attributes
    [BaseExportService.__init__] sets. *)
Record Service := mkService {
  class : ServiceClass;
  state : BaseExportService.t;
  tag_counter : HierarchicalTagCounter.t
}.

(** [cls()] *)
Definition instantiate (cls : ServiceClass) : Service :=
  mkService cls (BaseExportService.mk ∅ ∅ (get_service_name cls))
            HierarchicalTagCounter.__init__.

Definition _services : list (string * ServiceClass) :=
  [("all_tags", AllTagsExportService)].

(** [key in d] and [d[key]] on an item list. *)
Fixpoint dict_find {V} (d : list (string * V)) (key : string) : option V :=
  match d with
  | [] => None
  | (k, v) :: d' => if String.eqb k key then Some v else dict_find d' key
  end.

Definition create_service (service_type : string) : Outcome Service :=
  match dict_find _services service_type with
  | None => Raised ValueError
  | Some cls => Returned (instantiate cls)
  end.

End ExportServiceFactory.

(** ** [unified_card_exporter.py] *)

(** What an export run reads from outside the program: the card and
    review-log stores that [_load_all_data_optimized] fills from the Anki
    collection, or the exception it raises (no collection, a failing
    query), and the clock. *)
Record World := mkWorld {
  collection : Outcome (gmap Z Card * gmap Z (list RevLog));
  (** [datetime.utcnow().isoformat()] when record [i] is built *)
  utcnow : nat → string;
  (** [datetime.now().strftime("%Y%m%d_%H%M%S")] *)
  now : string
}.

Module UnifiedCardExporter.
Import ExportFilter ExportServiceFactory TagData Sink.

Module BES := BaseExportService.
Module HTC := HierarchicalTagCounter.

(** The exporter object: [self.exports_dir]. *)
Record t := mk { exports_dir : string }.

(** [UnifiedCardExporter.__init__]; [addon_dir] is [Path(__file__).parent].
    The OSError of [mkdir] is not caught. *)
Definition __init__ (addon_dir : string) (fs : FileSystem) : Outcome t * FileSystem :=
  let exports_dir := path_join addon_dir "exports" in
  match mkdir fs exports_dir with
  | Some fs => (Returned (mk exports_dir), fs)
  | None => (Raised OSError, fs)
  end.

(** [service._load_all_data_optimized()] *)
Definition _load_all_data_optimized (w : World) (service : Service) : Outcome Service :=
  match collection w with
  | Returned (cards_by_id, revlog_by_card) =>
      Returned (mkService (class service)
                  (BES.mk cards_by_id revlog_by_card (BES.service_name (state service)))
                  (tag_counter service))
  | Raised e => Raised e
  end.

(** [record.get('total_cards', 0) == 0 and
    record.get('hierarchical_total_cards', 0) > 0], read off the record the
    dict was built from. *)
Definition parent_only (r : BES.ExportRecord) : bool :=
  Z.eqb (BES.total_cards r) 0 && Z.ltb 0 (BES.hierarchical_total_cards r).

(** A record of [export_data] after the loop that sets
    [record['source_step']] and [record['unified_export']]. *)
Definition unified_record (timestamp step_name : string) (r : BES.ExportRecord) : Item :=
  tag_data timestamp r ++ [("source_step", VStr step_name); ("unified_export", VBool true)].

(** [_get_hierarchical_export_data]: every exception is caught and gives
    the empty list, also the IndexError of [step_name[-1]] in the message
    about parent-only tags. *)
Definition _get_hierarchical_export_data (w : World) (service : Service)
    (step_name : string) : list Item :=
  match _load_all_data_optimized w service with
  | Raised _ => []
  | Returned service =>
      let filtered_cards_by_tag :=
        _filter_cards_by_tag_fast (state service) (get_filter_criteria (class service)) in
      let tag_counter :=
        HTC.build_hierarchy_from_cards (tag_counter service) filtered_cards_by_tag in
      let hierarchical_data := HTC.calculate_hierarchical_counts tag_counter in
      match BES._create_export_data_fast (state service) filtered_cards_by_tag
              hierarchical_data with
      | None => []
      | Some records =>
          let export_data :=
            imap (fun i r => unified_record (utcnow w i) step_name r) records in
          let parent_only_count := count_if parent_only records in
          if Z.ltb 0 parent_only_count
          then if String.eqb step_name "" then [] else export_data
          else export_data
      end
  end.

(** A hashable value as a set element: [True == 1], and a float with an
    integral value equals that integer. *)
Inductive Key := KNone | KInt (n : Z) | KFrac (num den : Z) | KStr (s : string).

#[global] Instance Key_eq_dec : EqDecision Key.
Proof. solve_decision. Defined.

#[global] Instance Key_countable : Countable Key.
Proof.
  refine (inj_countable'
            (fun k => match k with
                      | KNone => inl ()
                      | KInt n => inr (inl n)
                      | KFrac num den => inr (inr (inl (num, den)))
                      | KStr s => inr (inr (inr s))
                      end)
            (fun x => match x with
                      | inl () => KNone
                      | inr (inl n) => KInt n
                      | inr (inr (inl (num, den))) => KFrac num den
                      | inr (inr (inr s)) => KStr s
                      end) _).
  by intros [].
Defined.

(** [hash(v)]: [None] is the TypeError of an unhashable value. *)
Definition hash_key (v : PyVal) : option Key :=
  match v with
  | VNone => Some KNone
  | VBool b => Some (KInt (if b then 1 else 0))
  | VInt n => Some (KInt n)
  | VFloat num den =>
      let g := Z.gcd num den * Z.sgn den in
      Some (if Z.eqb (den / g) 1 then KInt (num / g) else KFrac (num / g) (den / g))
  | VStr s => Some (KStr s)
  | VList _ | VDict _ | VSet _ => None
  end.

(** [for card in v]: the elements of a list or set, the keys of a dict,
    the characters of a string; [None] is the TypeError of a value that is
    not iterable. *)
Definition iterate (v : PyVal) : option (list PyVal) :=
  match v with
  | VList l | VSet l => Some l
  | VDict d => Some (VStr <$> d.*1)
  | VStr s => Some ((fun c => VStr (String c "")) <$> list_ascii_of_string s)
  | VNone | VBool _ | VInt _ | VFloat _ _ => None
  end.

(** [card['card_id']]: [None] is the KeyError of a dict without the key or
    the TypeError of a value that is not a dict. *)
Definition card_id_of (card : PyVal) : option PyVal :=
  match card with
  | VDict d => dict_find d "card_id"
  | _ => None
  end.

(** [[card['card_id'] for card in record[key]]] if [key in record], else
    nothing. *)
Definition detail_ids (record : Item) (key : string) : option (list PyVal) :=
  match dict_find record key with
  | None => Some []
  | Some details => cards ← iterate details; mapM card_id_of cards
  end.

(** Body of the loop [for record in all_tags_data] of lines 109 to 118. *)
Definition add_record_cards (all_unique_cards : gset Key) (record : Item)
    : option (gset Key) :=
  unstudied ← detail_ids record "unstudied_card_details";
  all_cards ← detail_ids record "all_card_details";
  let record_cards := unstudied ++ all_cards in
  keys ← mapM hash_key record_cards;
  Some (all_unique_cards ∪ list_to_set keys).

Fixpoint count_unique_cards (all_unique_cards : gset Key) (all_tags_data : list Item)
    : option (gset Key) :=
  match all_tags_data with
  | [] => Some all_unique_cards
  | record :: rest =>
      all_unique_cards ← add_record_cards all_unique_cards record;
      count_unique_cards all_unique_cards rest
  end.

(** The result dict of [_create_direct_unified_export] (without the
    message under [error]). *)
Record UnifiedResult := mkResult {
  result_file_path : string;
  record_count : Z;
  unique_cards : Z;
  overlap_removed : Z;
  success : bool
}.

(** The dict returned by the [except] branch. *)
Definition failed : UnifiedResult := mkResult "" 0 0 0 false.

(** [f"unified_export_{timestamp}.ndjson.gz"] *)
Definition unified_filename (w : World) : string :=
  "unified_export_" +:+ now w +:+ ".ndjson.gz".

(** [_create_direct_unified_export]: the whole body is inside [try], so
    every exception ends in the [except] branch. *)
Definition _create_direct_unified_export (self : t) (w : World) (fs : FileSystem)
    : UnifiedResult * FileSystem :=
  match create_service "all_tags" with
  | Raised _ => (failed, fs)
  | Returned all_tags_service =>
      let all_tags_data := _get_hierarchical_export_data w all_tags_service "AllTags" in
      match count_unique_cards ∅ all_tags_data with
      | None => (failed, fs)
      | Some all_unique_cards =>
          let filename := unified_filename w in
          let file_path := path_join (exports_dir self) filename in
          match gzip_open fs file_path with
          | None => (failed, fs)
          | Some fs =>
              let '(fs, ok) := write_all fs file_path all_tags_data in
              if ok
              then (mkResult file_path (len all_tags_data)
                             (HTC.len_set all_unique_cards) 0 true, fs)
              else (failed, fs)
          end
      end
  end.

End UnifiedCardExporter.

(** The unstudied cards of a store that carry at least one tag. *)
Definition unstudied_tagged (cards_by_id : gmap Z Card) : gmap Z Card :=
  filter (fun entry => reps entry.2 = 0 ∧ tags entry.2 ≠ []) cards_by_id.


(** ** Sample data: the three-card example of the specification *)

Module Sample.
Definition card1 : Card := mkCard (Some 1) 11 "Default" 0 0 0 2500 0 0 false ["A::B::1-HighYield"].
Definition card2 : Card := mkCard (Some 2) 12 "Default" 2 5 30 2300 4 1 false ["A::B"].
Definition card3 : Card := mkCard (Some 3) 13 "Default" 1 0 1 2100 2 0 false ["A::C"].

Definition cards_by_tag : CardsByTag :=
  [("A::B::1-HighYield", [card1]); ("A::B", [card2]); ("A::C", [card3])].

Definition service : BaseExportService.t :=
  BaseExportService.mk (list_to_map [(1, card1); (2, card2); (3, card3)])
                       (list_to_map [(2, [mkRevLog 1700000000000 2 3 4000])])
                       "All Tags Export".

Definition counter : HierarchicalTagCounter.t :=
  HierarchicalTagCounter.build_hierarchy_from_cards
    HierarchicalTagCounter.__init__ cards_by_tag.
End Sample.

(** A tag with a direct card (already studied) and a child tag with an
    unstudied card. *)
Module Mixed.
Definition parent_card : Card := mkCard (Some 1) 11 "Default" 2 5 30 2300 5 0 false ["A"].
Definition child_card : Card := mkCard (Some 2) 12 "Default" 0 0 0 2500 0 0 false ["A::B"].

Definition cards_by_tag : CardsByTag := [("A", [parent_card]); ("A::B", [child_card])].

Definition service : BaseExportService.t :=
  BaseExportService.mk (list_to_map [(1, parent_card); (2, child_card)]) ∅ "All Tags Export".
End Mixed.

(** A tag whose only card record carries the identifier 0. *)
Module ZeroId.
Definition card0 : Card := mkCard (Some 0) 11 "Default" 0 0 0 2500 0 0 false ["A::B"].

Definition cards_by_tag : CardsByTag := [("A::B", [card0])].

Definition service : BaseExportService.t :=
  BaseExportService.mk (list_to_map [(0, card0)]) ∅ "All Tags Export".
End ZeroId.

(** Two orderings of one tag-to-cards mapping: the tags and the cards of
    ["A"] are listed in opposite orders. *)
Module Reordered.
Definition card_a : Card := mkCard (Some 1) 11 "Default" 0 0 0 2500 0 0 false ["A"].
Definition card_b : Card := mkCard (Some 2) 12 "Default" 0 0 0 2300 0 0 false ["A"].
Definition card_c : Card := mkCard (Some 3) 13 "Default" 2 5 30 2100 3 1 false ["A::B"].

Definition first_order : CardsByTag := [("A", [card_a; card_b]); ("A::B", [card_c])].
Definition second_order : CardsByTag := [("A::B", [card_c]); ("A", [card_b; card_a])].

Definition service : BaseExportService.t :=
  BaseExportService.mk (list_to_map [(1, card_a); (2, card_b); (3, card_c)])
                       (list_to_map [(3, [mkRevLog 1700000000000 3 3 4000])])
                       "All Tags Export".
End Reordered.

(** An export run over the three sample cards by the exporter of the add-on
    directory ["/addon"], and a disk on which its output file cannot be
    opened. *)
Module UnifiedSample.
Import Sink.

Definition world : World :=
  mkWorld (Returned (BaseExportService.cards_by_id Sample.service,
                     BaseExportService.revlog_by_card Sample.service))
          (fun _ => "2024-01-01T00:00:00") "20240101_000000".

Definition exporter : UnifiedCardExporter.t := UnifiedCardExporter.mk "/addon/exports".


End UnifiedSample.

(** Comparing two runs of the export. *)
Module TwoRuns.
Import BaseExportService.

(** The fields of a record that are numbers, strings or the ancestor
    list. *)
Definition scalar_fields (r : ExportRecord) :=
  (tag_name r, rec_service_name r, total_cards r, unique_notes r,
   (due_cards r, new_cards r, learning_cards r, review_cards r, mature_cards r,
    suspended_cards r, unstudied_cards r),
   (high_yield_total_cards r, high_yield_new_cards r, high_yield_review_cards r,
    yield_level_stats r),
   (hierarchical_total_cards r, children_cards r, parent_tags r),
   (avg_ease r, avg_interval r, total_lapses r, review_data r, export_type r)).

(** Equal records up to the order of [children_tags] and of
    [unstudied_card_details]. *)
Definition same_up_to_order (r1 r2 : ExportRecord) : Prop :=
  scalar_fields r1 = scalar_fields r2
  ∧ children_tags r1 ≡ₚ children_tags r2
  ∧ unstudied_card_details r1 ≡ₚ unstudied_card_details r2.

(** Two item lists of the same mapping: the same tags, and for each tag
    card lists that are permutations of each other. *)
Definition same_mapping (cbt1 cbt2 : CardsByTag) : Prop :=
  NoDup (dict_keys cbt1) ∧ NoDup (dict_keys cbt2)
  ∧ dict_keys cbt1 ≡ₚ dict_keys cbt2
  ∧ ∀ tag, dict_get cbt1 tag [] ≡ₚ dict_get cbt2 tag [].

End TwoRuns.

(** * Properties *)

(** ** Strings: [split], [join] and [count] on the delimiter ["::"] *)

Section PyStrFacts.
Import PyStr.

Lemma sep_head_dec s : {r | s = String ":" (String ":" r)} + {¬ sep_head s}.
Proof.
  destruct s as [|c [|c' r]]; try (right; intros [? ?]; discriminate).
  destruct (decide (c = ":"%char)) as [->|Hc];
    [destruct (decide (c' = ":"%char)) as [->|Hc']|].
  - left. by exists r.
  - right. intros [? ?]. congruence.
  - right. intros [? ?]. congruence.
Qed.

Lemma split_sep r : split (String ":" (String ":" r)) = EmptyString :: split r.
Proof. reflexivity. Qed.

Lemma count_sep r : count (String ":" (String ":" r)) = S (count r).
Proof. reflexivity. Qed.

Lemma split_char c rest :
  ¬ sep_head (String c rest) →
  split (String c rest) =
    match split rest with
    | p :: ps => String c p :: ps
    | [] => [String c EmptyString]
    end.
Proof.
  intros Hn. cbn [split].
  destruct c as [[] [] [] [] [] [] [] []]; try reflexivity.
  destruct rest as [|c' r]; [reflexivity|].
  destruct c' as [[] [] [] [] [] [] [] []]; try reflexivity.
  exfalso. apply Hn. by exists r.
Qed.

Lemma count_char c rest :
  ¬ sep_head (String c rest) → count (String c rest) = count rest.
Proof.
  intros Hn. cbn [count].
  destruct c as [[] [] [] [] [] [] [] []]; try reflexivity.
  destruct rest as [|c' r]; [reflexivity|].
  destruct c' as [[] [] [] [] [] [] [] []]; try reflexivity.
  exfalso. apply Hn. by exists r.
Qed.

(** Induction along the scan of the delimiter. *)
Lemma sep_ind (P : string → Prop) :
  P EmptyString →
  (∀ r, P r → P (String ":" (String ":" r))) →
  (∀ c rest, ¬ sep_head (String c rest) → P rest → P (String c rest)) →
  ∀ s, P s.
Proof.
  intros H0 Hsep Hchar s.
  cut (P s ∧ ∀ c, P (String c s)); [tauto|].
  induction s as [|c' s' [IH1 IH2]].
  - split; [done|]. intros c. apply Hchar; [|done]. intros [? ?]; discriminate.
  - split; [apply IH2|]. intros c.
    destruct (sep_head_dec (String c (String c' s'))) as [[r Hr]|Hn].
    + injection Hr as -> -> ->. by apply Hsep.
    + apply Hchar; [done|apply IH2].
Qed.

Lemma split_nonempty s : split s ≠ [].
Proof.
  induction s as [| r IH | c rest Hn IH] using sep_ind; [done|done|].
  rewrite split_char by done. by destruct (split rest).
Qed.

Lemma split_length_pos s : (1 ≤ length (split s))%nat.
Proof. pose proof (split_nonempty s). destruct (split s); [done|simpl; lia]. Qed.

Lemma count_split s : count s = (length (split s) - 1)%nat.
Proof.
  induction s as [| r IH | c rest Hn IH] using sep_ind; [done| |].
  - rewrite split_sep, count_sep, IH. pose proof (split_length_pos r). simpl. lia.
  - rewrite split_char, count_char, IH by done.
    pose proof (split_nonempty rest). by destruct (split rest).
Qed.

Lemma join_cons_char c p l : join (String c p :: l) = String c (join (p :: l)).
Proof. by destruct l. Qed.

Lemma join_cons_nonempty p l : l ≠ [] → join (p :: l) = p +:+ "::" +:+ join l.
Proof. by destruct l. Qed.

Lemma join_split s : join (split s) = s.
Proof.
  induction s as [| r IH | c rest Hn IH] using sep_ind; [done| |].
  - rewrite split_sep, join_cons_nonempty by apply split_nonempty.
    by rewrite IH.
  - rewrite split_char by done. pose proof (split_nonempty rest).
    destruct (split rest) as [|p ps]; [done|].
    by rewrite join_cons_char, IH.
Qed.

(** A joined prefix of the parts is a prefix of the string. *)
Lemma join_take_prefix s k :
  (1 ≤ k)%nat → ∃ t, s = join (take k (split s)) +:+ t.
Proof.
  revert k. induction s as [| r IH | c rest Hn IH] using sep_ind; intros k Hk.
  - exists EmptyString. by destruct k as [|[|k]].
  - rewrite split_sep. destruct k as [|[|k]]; [lia| |].
    + by exists (String ":" (String ":" r)).
    + destruct (IH (S k)) as [t Ht]; [lia|]. exists t.
      change (take (S (S k)) (EmptyString :: split r))
        with (EmptyString :: take (S k) (split r)).
      rewrite join_cons_nonempty.
      * remember (join (take (S k) (split r))) as x.
        change (String ":" (String ":" r) = String ":" (String ":" (x +:+ t))).
        congruence.
      * pose proof (split_nonempty r). by destruct (split r).
  - rewrite split_char by done. pose proof (split_nonempty rest).
    destruct (IH k Hk) as [t Ht]. exists t.
    destruct (split rest) as [|p ps]; [done|].
    destruct k as [|k]; [lia|]. simpl take in *.
    rewrite join_cons_char.
    remember (join (p :: take k ps)) as x.
    change (String c rest = String c (x +:+ t)). congruence.
Qed.

(** The [k]-segment prefix of a path has [k - 1] delimiters. *)
Lemma count_join_take s k :
  (1 ≤ k ≤ length (split s))%nat → count (join (take k (split s))) = (k - 1)%nat.
Proof.
  revert k. induction s as [| r IH | c rest Hn IH] using sep_ind; intros k Hk.
  - destruct k as [|[|k]]; simpl in *; [lia|done|lia].
  - rewrite split_sep in *. destruct k as [|[|k]]; [lia|done|].
    change (take (S (S k)) (EmptyString :: split r))
      with (EmptyString :: take (S k) (split r)).
    rewrite join_cons_nonempty.
    + simpl in Hk. change (EmptyString +:+ "::" +:+ ?x) with (String ":" (String ":" x)).
      rewrite count_sep, IH by lia. lia.
    + pose proof (split_nonempty r). by destruct (split r).
  - rewrite split_char in * by done. pose proof (split_nonempty rest).
    destruct (join_take_prefix rest k) as [t Ht]; [lia|].
    specialize (IH k).
    destruct (split rest) as [|p ps]; [done|].
    destruct k as [|k]; [lia|]. simpl take in *.
    rewrite join_cons_char, count_char; [apply IH; simpl in *; lia|].
    intros [r Hr]. apply Hn. injection Hr as -> Hr.
    change (join (p :: take k ps) = String ":" r) in Hr.
    rewrite Hr in Ht. rewrite Ht. by exists (r +:+ t).
Qed.

Lemma contains_sep_head s : sep_head s → contains "::" s = true.
Proof. intros [r ->]. reflexivity. Qed.

Lemma contains_sep s : contains "::" s = true ↔ (2 ≤ length (split s))%nat.
Proof.
  induction s as [| r IH | c rest Hn IH] using sep_ind.
  - simpl. split; [done|lia].
  - rewrite split_sep. pose proof (split_length_pos r). simpl length. split; [lia|done].
  - rewrite split_char by done. pose proof (split_nonempty rest).
    assert (contains "::" (String c rest) = contains "::" rest) as ->.
    { cbn [contains]. destruct (starts_with "::" (String c rest)) eqn:Hs; [|done].
      exfalso. apply Hn. cbn [starts_with] in Hs.
      destruct (Ascii.eqb_spec ":" c) as [<-|]; [|done].
      destruct rest as [|c' r]; [done|].
      destruct (Ascii.eqb_spec ":" c') as [<-|]; [|done]. by eexists. }
    rewrite IH. by destruct (split rest).
Qed.

End PyStrFacts.

(** ** Building the hierarchy *)

Section BuildFacts.
Import HierarchicalTagCounter Forest.

Lemma children_add_edge self p c q :
  children_of (add_edge self p c) q =
    if decide (q = p) then children_of self p ∪ {[c]} else children_of self q.
Proof.
  unfold children_of, add_edge. simpl. case_decide as Hq.
  - subst. by rewrite lookup_insert_eq.
  - by rewrite lookup_insert_ne.
Qed.

Lemma edge_add_edge self p c p' c' :
  edge (add_edge self p c) p' c' ↔ edge self p' c' ∨ (p' = p ∧ c' = c).
Proof.
  unfold edge. rewrite children_add_edge. case_decide; set_solver.
Qed.

Lemma add_edges_spec self l :
  (∀ p c, edge (add_edges self l) p c ↔ edge self p c ∨ (p, c) ∈ l)
  ∧ dom (tag_hierarchy (add_edges self l)) = dom (tag_hierarchy self) ∪ list_to_set l.*1
  ∧ tag_to_cards (add_edges self l) = tag_to_cards self
  ∧ unique_card_ids (add_edges self l) = unique_card_ids self
  ∧ card_to_tags (add_edges self l) = card_to_tags self
  ∧ _hierarchy_built (add_edges self l) = _hierarchy_built self.
Proof.
  unfold add_edges. induction l as [|[p c] l IH] using rev_ind.
  - simpl. split_and!; try done; [|set_solver]. intros p c. set_solver.
  - rewrite foldl_snoc. destruct IH as (IHe & IHd & IHt & IHu & IHc & IHb).
    split_and!; try done.
    + intros p' c'. rewrite edge_add_edge, IHe, elem_of_app, list_elem_of_singleton.
      simpl. naive_solver.
    + simpl. rewrite dom_insert_L, IHd, fmap_app, list_to_set_app_L. simpl. set_solver.
Qed.

Lemma path_edges_short tag_name :
  PyStr.contains "::" tag_name = false → path_edges tag_name = [].
Proof.
  intros Hc. unfold path_edges.
  destruct (decide (2 ≤ length (PyStr.split tag_name))%nat) as [Hl|Hl].
  - apply contains_sep in Hl. congruence.
  - pose proof (split_length_pos tag_name).
    by replace (length (PyStr.split tag_name) - 1)%nat with 0%nat by lia.
Qed.

Lemma build_tag_hierarchy_edges self tag_name :
  _build_tag_hierarchy_fast self tag_name = add_edges self (path_edges tag_name).
Proof.
  unfold _build_tag_hierarchy_fast.
  destruct (PyStr.contains "::" tag_name) eqn:Hc; simpl.
  - unfold add_edges, path_edges. by rewrite foldl_fmap.
  - by rewrite path_edges_short.
Qed.

Lemma elem_of_path_edges tag_name p c :
  (p, c) ∈ path_edges tag_name ↔
  ∃ i, (i + 2 ≤ length (PyStr.split tag_name))%nat
       ∧ p = PyStr.join (take (i + 1) (PyStr.split tag_name))
       ∧ c = PyStr.join (take (i + 2) (PyStr.split tag_name)).
Proof.
  unfold path_edges. rewrite list_elem_of_fmap. split.
  - intros (i & [= -> ->] & Hi). apply elem_of_seq in Hi. exists i. split; [lia|done].
  - intros (i & Hi & -> & ->). exists i. split; [done|]. apply elem_of_seq. lia.
Qed.

(** The inner loop only collects truthy identifiers. *)
Lemma add_card_fold tag cards card_ids self :
  ∃ ctt,
    foldl (add_card tag) (card_ids, self) cards =
      (card_ids ∪ kept_ids cards,
       mk (tag_hierarchy self) ctt (tag_to_cards self)
          (unique_card_ids self ∪ kept_ids cards) (_hierarchy_built self)).
Proof.
  revert card_ids self. induction cards as [|card cards IH]; intros card_ids self.
  - exists (card_to_tags self). simpl. unfold kept_ids. simpl.
    rewrite !union_empty_r_L. by destruct self.
  - assert (kept_ids (card :: cards) =
            from_option singleton ∅ (kept_id card) ∪ kept_ids cards) as ->.
    { unfold kept_ids. simpl. destruct (kept_id card); simpl; set_solver. }
    simpl. unfold kept_id.
    destruct (id card) as [card_id|]; [destruct (Z.eqb card_id 0)|]; simpl.
    + rewrite union_empty_l_L. apply IH.
    + edestruct IH as [ctt ->]. exists ctt. simpl.
      f_equal; [set_solver|f_equal; set_solver].
    + rewrite union_empty_l_L. apply IH.
Qed.

Lemma add_tag_spec self tag cards :
  (∀ p c, edge (add_tag self (tag, cards)) p c ↔ edge self p c ∨ (p, c) ∈ path_edges tag)
  ∧ dom (tag_hierarchy (add_tag self (tag, cards))) =
      dom (tag_hierarchy self) ∪ list_to_set (path_edges tag).*1
  ∧ tag_to_cards (add_tag self (tag, cards)) = <[tag := kept_ids cards]> (tag_to_cards self)
  ∧ unique_card_ids (add_tag self (tag, cards)) = unique_card_ids self ∪ kept_ids cards
  ∧ _hierarchy_built (add_tag self (tag, cards)) = _hierarchy_built self.
Proof.
  unfold add_tag. destruct (add_card_fold tag cards ∅ self) as [ctt ->].
  rewrite build_tag_hierarchy_edges.
  match goal with |- context [add_edges ?s ?l] =>
    destruct (add_edges_spec s l) as (He & Hd & Ht & Hu & _ & Hb) end.
  rewrite Hd, Ht, Hu, Hb. simpl. rewrite union_empty_l_L. split_and!; try done.
Qed.

Lemma fold_add_tag_spec self (cbt : CardsByTag) :
  (∀ p c, edge (foldl add_tag self cbt) p c ↔
          edge self p c ∨ ∃ tag, tag ∈ dict_keys cbt ∧ (p, c) ∈ path_edges tag)
  ∧ (∀ q, q ∈ dom (tag_hierarchy (foldl add_tag self cbt)) ↔
          q ∈ dom (tag_hierarchy self)
          ∨ ∃ tag, tag ∈ dict_keys cbt ∧ q ∈ (path_edges tag).*1)
  ∧ dom (tag_to_cards (foldl add_tag self cbt)) =
      dom (tag_to_cards self) ∪ list_to_set (dict_keys cbt)
  ∧ unique_card_ids (foldl add_tag self cbt) =
      unique_card_ids self ∪ ⋃ ((fun item => kept_ids item.2) <$> cbt)
  ∧ _hierarchy_built (foldl add_tag self cbt) = _hierarchy_built self.
Proof.
  unfold dict_keys. induction cbt as [|[tag cards] cbt IH] using rev_ind.
  - simpl. split_and!; try done; set_solver.
  - rewrite foldl_snoc. destruct IH as (IHe & IHd & IHt & IHu & IHb).
    destruct (add_tag_spec (foldl add_tag self cbt) tag cards)
      as (He & Hd & Ht & Hu & Hb).
    rewrite Hd, Ht, Hu, Hb, !fmap_app. simpl. split_and!; try done.
    + intros p c. rewrite He, IHe. setoid_rewrite elem_of_app.
      setoid_rewrite list_elem_of_singleton. naive_solver.
    + intros q. rewrite elem_of_union, IHd, elem_of_list_to_set.
      setoid_rewrite elem_of_app. setoid_rewrite list_elem_of_singleton. naive_solver.
    + rewrite dom_insert_L, IHt, list_to_set_app_L. simpl. set_solver.
    + rewrite IHu, union_list_app_L. simpl. set_solver.
Qed.

(** Every entry of the Unique-Card Index is the set of truthy identifiers
    of one item's card list. *)
Lemma fold_add_tag_cards self (cbt : CardsByTag) tag ids :
  tag_to_cards (foldl add_tag self cbt) !! tag = Some ids →
  tag_to_cards self !! tag = Some ids
  ∨ ∃ cards, (tag, cards) ∈ cbt ∧ ids = kept_ids cards.
Proof.
  induction cbt as [|[tag' cards] cbt IH] using rev_ind; [by left|].
  rewrite foldl_snoc.
  destruct (add_tag_spec (foldl add_tag self cbt) tag' cards) as (_ & _ & -> & _).
  destruct (decide (tag' = tag)) as [->|Hne].
  - rewrite lookup_insert_eq. intros [= <-]. right. exists cards. set_solver.
  - rewrite lookup_insert_ne by done. intros H. destruct (IH H) as [?|(cs & ? & ?)].
    + by left.
    + right. exists cs. set_solver.
Qed.

Lemma fold_add_tag_lookup self (cbt : CardsByTag) tag cards :
  NoDup (dict_keys cbt) → (tag, cards) ∈ cbt →
  tag_to_cards (foldl add_tag self cbt) !! tag = Some (kept_ids cards).
Proof.
  unfold dict_keys. induction cbt as [|[tag' cards'] cbt IH] using rev_ind.
  - intros _ Hx. inversion Hx.
  - rewrite fmap_app, NoDup_app, foldl_snoc. intros (Hnd & Hfresh & _) Hin.
    destruct (add_tag_spec (foldl add_tag self cbt) tag' cards') as (_ & _ & -> & _).
    apply elem_of_app in Hin as [Hin|Hin].
    + rewrite lookup_insert_ne; [by apply IH|]. intros ->.
      apply (Hfresh tag); [|simpl; set_solver].
      apply list_elem_of_fmap. by exists (tag, cards).
    + apply list_elem_of_singleton in Hin as [= -> ->]. by rewrite lookup_insert_eq.
Qed.

Lemma dict_get_elem_of {V} (d : list (string * V)) key dflt :
  dict_get d key dflt = dflt ∧ key ∉ dict_keys d
  ∨ (key, dict_get d key dflt) ∈ d.
Proof.
  unfold dict_keys. induction d as [|[k v] d IH]; simpl.
  - left. split; [done|]. apply not_elem_of_nil.
  - destruct (String.eqb_spec k key) as [->|Hne].
    + right. left.
    + destruct IH as [[? ?]|?]; [left|right; by right].
      split; [done|]. rewrite not_elem_of_cons. done.
Qed.

Lemma dict_get_NoDup {V} (d : list (string * V)) key v dflt :
  NoDup (dict_keys d) → (key, v) ∈ d → dict_get d key dflt = v.
Proof.
  unfold dict_keys. induction d as [|[k v'] d IH]; simpl.
  - intros _ Hx. inversion Hx.
  - rewrite NoDup_cons. intros [Hk Hnd] Hin.
    apply elem_of_cons in Hin as [[= <- <-]|Hin].
    + by rewrite String.eqb_refl.
    + destruct (String.eqb_spec k key) as [->|Hne]; [|by apply IH].
      exfalso. apply Hk. apply list_elem_of_fmap. by exists (key, v).
Qed.

End BuildFacts.

(** ** The bottom-up aggregation loop *)

Section AggregateFacts.
Import HierarchicalTagCounter Forest.

Lemma foldl_union_list {A} (f : A → gset Z) (init : gset Z) (l : list A) :
  foldl (fun acc x => acc ∪ f x) init l = init ∪ ⋃ (f <$> l).
Proof.
  revert init. induction l as [|x l IH]; intros init; simpl.
  - by rewrite union_empty_r_L.
  - rewrite IH. set_solver.
Qed.

Lemma process_tag_unfold self hd tag :
  process_tag self hd tag =
    <[tag := mkInfo (direct_of self tag) (rolled_up self hd tag)
               (len_set (direct_of self tag)) (len_set (rolled_up self hd tag))
               (len_set (rolled_up self hd tag) - len_set (direct_of self tag))
               (elements (children_of self tag)) (_get_parent_tags_fast tag)]> hd.
Proof.
  unfold process_tag, rolled_up. fold (direct_of self tag) (children_of self tag).
  by rewrite foldl_union_list.
Qed.

Lemma dom_process_tags self hd l :
  dom (foldl (process_tag self) hd l) = dom hd ∪ list_to_set l.
Proof.
  revert hd. induction l as [|x l IH]; intros hd; simpl; [set_solver|].
  rewrite IH, process_tag_unfold, dom_insert_L. set_solver.
Qed.

Lemma child_cards_insert self hd tag info child :
  child ≠ tag → child_cards self (<[tag := info]> hd) child = child_cards self hd child.
Proof. intros Hne. unfold child_cards. by rewrite lookup_insert_ne. Qed.

Lemma rolled_up_insert self hd tag info t :
  (∀ child, edge self t child → child ≠ tag) →
  rolled_up self (<[tag := info]> hd) t = rolled_up self hd t.
Proof.
  intros Hne. unfold rolled_up. f_equal. f_equal.
  apply list_fmap_ext. intros i child Hi. apply child_cards_insert, Hne.
  unfold edge. apply elem_of_elements. by eapply list_elem_of_lookup_2.
Qed.

(** One step of the loop keeps every entry well-formed, provided the new
    tag is fresh and its children have their entries. *)
Lemma process_tag_ok self hd tag :
  hd !! tag = None →
  (∀ child, edge self tag child → is_Some (hd !! child)) →
  (∀ t info, hd !! t = Some info → node_ok self hd t info) →
  ∀ t info, process_tag self hd tag !! t = Some info →
            node_ok self (process_tag self hd tag) t info.
Proof.
  intros Hfresh Hch Hinv t info. rewrite process_tag_unfold.
  assert (∀ t', (∀ child, edge self t' child → is_Some (hd !! child)) →
                ∀ child, edge self t' child → child ≠ tag) as Hne.
  { intros t' Ht' child He ->. apply Ht' in He as [? ?]. congruence. }
  destruct (decide (t = tag)) as [->|Htag].
  - rewrite lookup_insert_eq. intros [= <-].
    split; simpl; try done.
    + by rewrite rolled_up_insert by by apply Hne.
    + intros child He. rewrite lookup_insert_ne; [by apply Hch|].
      intros <-. by eapply Hne.
  - rewrite lookup_insert_ne by done. intros Hl.
    destruct (Hinv t info Hl) as [? Hr ? ? ? ? ? Hc].
    split; try done.
    + by rewrite rolled_up_insert by by apply Hne.
    + intros child He. rewrite lookup_insert_ne; [by apply Hc|].
      intros <-. by eapply Hne.
Qed.

Section Ordered.
Variable self : t.
Variable order : list string.
Hypothesis order_NoDup : NoDup order.
Hypothesis order_sorted : StronglySorted deeper_first order.
Hypothesis edge_deeper :
  ∀ p c, edge self p c → PyStr.count c = S (PyStr.count p).
Hypothesis edge_closed : ∀ p c, edge self p c → c ∈ order.

(** Under the deepest-first order every child precedes its parent. *)
Lemma children_before pre tag post child :
  order = pre ++ tag :: post → edge self tag child → child ∈ pre.
Proof using order_sorted edge_deeper edge_closed.
  intros Ho He. pose proof (edge_closed _ _ He) as Hin.
  pose proof (edge_deeper _ _ He) as Hd.
  rewrite Ho in Hin, order_sorted.
  apply elem_of_app in Hin as [?|Hin]; [done|exfalso].
  apply StronglySorted_app_1_r, StronglySorted_cons in order_sorted as [Hall _].
  apply elem_of_cons in Hin as [->|Hin]; [lia|].
  rewrite Forall_forall in Hall. apply Hall in Hin. unfold deeper_first in Hin. lia.
Qed.

Lemma process_prefix_ok pre post :
  order = pre ++ post →
  ∀ t info, foldl (process_tag self) ∅ pre !! t = Some info →
            node_ok self (foldl (process_tag self) ∅ pre) t info.
Proof using All.
  revert post. induction pre as [|tag pre IH] using rev_ind; intros post Ho.
  - simpl. intros t info Hl. by rewrite lookup_empty in Hl.
  - rewrite foldl_snoc. rewrite <-app_assoc in Ho. simpl in Ho.
    apply process_tag_ok.
    + apply not_elem_of_dom. rewrite dom_process_tags.
      rewrite Ho in order_NoDup. apply NoDup_app in order_NoDup as (_ & Hd & _).
      intros Hin. apply elem_of_union in Hin as [Hin|Hin]; [set_solver|].
      apply elem_of_list_to_set in Hin. apply (Hd tag Hin). left.
    + intros child He. apply elem_of_dom. rewrite dom_process_tags.
      apply elem_of_union_r, elem_of_list_to_set. by eapply children_before.
    + by eapply IH.
Qed.

Lemma process_all_ok t info :
  foldl (process_tag self) ∅ order !! t = Some info →
  node_ok self (foldl (process_tag self) ∅ order) t info.
Proof using All. apply (process_prefix_ok order []). by rewrite app_nil_r. Qed.

End Ordered.

(** Consequences of well-formed entries. *)
Section WellFormed.
Variable self : t.
Variable hd : gmap string TagInfo.
Hypothesis hd_ok : ∀ t info, hd !! t = Some info → node_ok self hd t info.

Lemma rolled_up_elem tag x :
  (∀ child, edge self tag child → is_Some (hd !! child)) →
  x ∈ rolled_up self hd tag ↔
  x ∈ direct_of self tag
  ∨ ∃ child info, edge self tag child ∧ hd !! child = Some info
                  ∧ x ∈ all_unique_cards info.
Proof using Type.
  intros Hch. unfold rolled_up.
  rewrite elem_of_union, elem_of_union_list. split.
  - intros [?|(X & HX & Hx)]; [by left|right].
    apply list_elem_of_fmap in HX as (child & -> & Hc).
    apply elem_of_elements in Hc. destruct (Hch child Hc) as [info Hi].
    exists child, info. unfold child_cards in Hx. by rewrite Hi in Hx.
  - intros [?|(child & info & He & Hi & Hx)]; [by left|right].
    exists (all_unique_cards info). split; [|done].
    apply list_elem_of_fmap. exists child. split.
    + unfold child_cards. by rewrite Hi.
    + by apply elem_of_elements.
Qed.

Lemma descendant_entry a d :
  descendant self a d → is_Some (hd !! a) → is_Some (hd !! d).
Proof using hd_ok.
  induction 1 as [a d He|a b d He _ IH]; intros [info Hi].
  - by apply (ok_children _ _ _ _ (hd_ok _ _ Hi)).
  - by apply IH, (ok_children _ _ _ _ (hd_ok _ _ Hi)).
Qed.

Lemma child_subset a c ia ic :
  edge self a c → hd !! a = Some ia → hd !! c = Some ic →
  all_unique_cards ic ⊆ all_unique_cards ia.
Proof using hd_ok.
  intros He Ha Hc x Hx. pose proof (hd_ok _ _ Ha) as Hok.
  rewrite (ok_rolled _ _ _ _ Hok).
  apply rolled_up_elem; [apply (ok_children _ _ _ _ Hok)|].
  right. by exists c, ic.
Qed.

Lemma descendant_subset a d ia id :
  descendant self a d → hd !! a = Some ia → hd !! d = Some id →
  all_unique_cards id ⊆ all_unique_cards ia.
Proof using hd_ok.
  intros Hd. revert ia. induction Hd as [a d He|a b d He Hd IH]; intros ia Ha Hi.
  - by eapply child_subset.
  - destruct (ok_children _ _ _ _ (hd_ok _ _ Ha) b He) as [ib Hb].
    etrans; [by eapply IH|by eapply child_subset].
Qed.

Lemma direct_subset a ia :
  hd !! a = Some ia → direct_cards ia ⊆ all_unique_cards ia.
Proof using hd_ok.
  intros Ha. pose proof (hd_ok _ _ Ha) as Hok.
  rewrite (ok_direct _ _ _ _ Hok), (ok_rolled _ _ _ _ Hok).
  unfold rolled_up. set_solver.
Qed.


End WellFormed.

(** The state left by [build_hierarchy_from_cards] on a fresh counter. *)
Lemma build_spec (cbt : CardsByTag) :
  let self := build_hierarchy_from_cards __init__ cbt in
  (∀ p c, edge self p c ↔ ∃ tag, tag ∈ dict_keys cbt ∧ (p, c) ∈ path_edges tag)
  ∧ (∀ q, q ∈ dom (tag_hierarchy self) ↔
          ∃ tag, tag ∈ dict_keys cbt ∧ q ∈ (path_edges tag).*1)
  ∧ dom (tag_to_cards self) = list_to_set (dict_keys cbt)
  ∧ unique_card_ids self = ⋃ ((fun item => kept_ids item.2) <$> cbt)
  ∧ tag_to_cards self = tag_to_cards (foldl add_tag __init__ cbt).
Proof.
  unfold build_hierarchy_from_cards. simpl.
  destruct (fold_add_tag_spec __init__ cbt) as (He & Hd & Ht & Hu & _).
  split_and!; try done.
  - intros p c. unfold edge, children_of in *. simpl. rewrite He.
    change (tag_hierarchy __init__) with (∅ : gmap string (gset string)).
    rewrite lookup_empty. set_solver.
  - intros q. simpl. rewrite Hd.
    change (tag_hierarchy __init__) with (∅ : gmap string (gset string)). set_solver.
  - simpl. rewrite Ht.
    change (tag_to_cards __init__) with (∅ : gmap string (gset Z)). set_solver.
  - simpl. rewrite Hu.
    change (unique_card_ids __init__) with (∅ : gset Z). set_solver.
Qed.

Lemma built_edge_deeper cbt p c :
  edge (build_hierarchy_from_cards __init__ cbt) p c →
  PyStr.count c = S (PyStr.count p).
Proof.
  intros He. apply build_spec in He as (tag & _ & He).
  apply elem_of_path_edges in He as (i & Hi & -> & ->).
  rewrite !count_join_take by lia. lia.
Qed.

Lemma built_edge_closed cbt p c :
  edge (build_hierarchy_from_cards __init__ cbt) p c →
  c ∈ all_tags (build_hierarchy_from_cards __init__ cbt).
Proof.
  intros He. destruct (build_spec cbt) as (Hedge & Hdom & Hcards & _).
  apply Hedge in He as (tag & Htag & He).
  apply elem_of_path_edges in He as (i & Hi & -> & ->).
  unfold all_tags. apply elem_of_union.
  destruct (decide (i + 2 = length (PyStr.split tag))%nat) as [Heq|Hne].
  - left. rewrite Hcards, Heq, firstn_all, join_split. by apply elem_of_list_to_set.
  - right. apply Hdom. exists tag. split; [done|].
    apply list_elem_of_fmap.
    exists (PyStr.join (take (S i + 1) (PyStr.split tag)),
            PyStr.join (take (S i + 2) (PyStr.split tag))).
    split; [simpl; do 2 f_equal; lia|].
    apply elem_of_path_edges. exists (S i). split; [lia|done].
Qed.

Lemma sorted_tags_NoDup self : NoDup (sorted_tags self).
Proof.
  unfold sorted_tags. rewrite merge_sort_Permutation. apply NoDup_elements.
Qed.

Lemma sorted_tags_sorted self : StronglySorted deeper_first (sorted_tags self).
Proof. apply StronglySorted_merge_sort; apply _. Qed.

Lemma elem_of_sorted_tags self tag : tag ∈ sorted_tags self ↔ tag ∈ all_tags self.
Proof. unfold sorted_tags. by rewrite merge_sort_Permutation, elem_of_elements. Qed.

Lemma dom_calculate self :
  dom (calculate_hierarchical_counts self) = all_tags self.
Proof.
  unfold calculate_hierarchical_counts. rewrite dom_process_tags.
  apply set_eq. intros x.
  rewrite elem_of_union, elem_of_list_to_set, elem_of_sorted_tags. set_solver.
Qed.

(** Every entry computed for a built hierarchy is well-formed. *)
Lemma calculate_ok cbt t info :
  let self := build_hierarchy_from_cards __init__ cbt in
  calculate_hierarchical_counts self !! t = Some info →
  node_ok self (calculate_hierarchical_counts self) t info.
Proof.
  intros self. apply process_all_ok.
  - apply sorted_tags_NoDup.
  - apply sorted_tags_sorted.
  - apply built_edge_deeper.
  - intros p c He. apply elem_of_sorted_tags. by eapply built_edge_closed.
Qed.

End AggregateFacts.

(** ** The aggregator: rolled-up sets, counts and processing order *)

Section AggregatorProperties.
Import HierarchicalTagCounter Forest.



Lemma process_tags_counts self l hd :
  (∀ t info, hd !! t = Some info → counts_ok info) →
  ∀ t info, foldl (process_tag self) hd l !! t = Some info → counts_ok info.
Proof.
  revert hd. induction l as [|tag l IH]; intros hd Hhd; [done|].
  simpl. apply IH. intros t info. rewrite process_tag_unfold.
  destruct (decide (t = tag)) as [->|Hne].
  - rewrite lookup_insert_eq. intros [= <-]. unfold counts_ok, rolled_up. simpl.
    split_and!; try done. set_solver.
  - rewrite lookup_insert_ne by done. apply Hhd.
Qed.

(** C3. In every entry returned by [calculate_hierarchical_counts] (for
    any state of the counter), [hierarchical_count] is the cardinality of
    the rolled-up set, [children_count] is [hierarchical_count] minus
    [direct_count], [hierarchical_count >= direct_count] and
    [children_count >= 0]. *)
Theorem counts_consistent (self : t) (tag : string) (info : TagInfo) :
  calculate_hierarchical_counts self !! tag = Some info →
  hierarchical_count info = Z.of_nat (size (all_unique_cards info))
  ∧ direct_count info = Z.of_nat (size (direct_cards info))
  ∧ children_count info = hierarchical_count info - direct_count info
  ∧ direct_count info ≤ hierarchical_count info
  ∧ 0 ≤ children_count info.
Proof.
  intros Hi.
  destruct (process_tags_counts self (sorted_tags self) ∅) with (t := tag) (info := info)
    as (Hd & Hh & Hc & Hsub); [by intros ? ? ?|done|].
  apply subseteq_size in Hsub. unfold len_set in *. split_and!; try done; lia.
Qed.

Lemma counts_consistent_witness :
  ∃ info,
    calculate_hierarchical_counts Sample.counter !! "A::B" = Some info
    ∧ (hierarchical_count info = Z.of_nat (size (all_unique_cards info))
       ∧ direct_count info = Z.of_nat (size (direct_cards info))
       ∧ children_count info = hierarchical_count info - direct_count info
       ∧ direct_count info ≤ hierarchical_count info
       ∧ 0 ≤ children_count info).
Proof.
  eexists. split; [vm_compute; reflexivity|].
  apply (counts_consistent Sample.counter "A::B"). vm_compute. reflexivity.
Defined.

(** C5. Tags are processed deepest first, so when the loop reaches a tag
    (the tags before it in [sorted_tags] have been processed), every child
    of the tag has been processed and has its entry in
    [hierarchical_data]: the union takes the child's memoised rolled-up
    set and never the fall-back to the child's direct cards. *)
Theorem fallback_unreachable (cards_by_tag : CardsByTag)
    (pre : list string) (tag : string) (post : list string) (child : string) :
  sorted_tags (build_hierarchy_from_cards __init__ cards_by_tag) = pre ++ tag :: post →
  child ∈ default ∅ (tag_hierarchy (build_hierarchy_from_cards __init__ cards_by_tag) !! tag) →
  child ∈ pre
  ∧ ∃ info,
      foldl (process_tag (build_hierarchy_from_cards __init__ cards_by_tag)) ∅ pre !! child
        = Some info
      ∧ child_cards (build_hierarchy_from_cards __init__ cards_by_tag)
          (foldl (process_tag (build_hierarchy_from_cards __init__ cards_by_tag)) ∅ pre)
          child = all_unique_cards info.
Proof.
  intros Ho He.
  assert (child ∈ pre) as Hin.
  { eapply (children_before (build_hierarchy_from_cards __init__ cards_by_tag)
              (sorted_tags (build_hierarchy_from_cards __init__ cards_by_tag))); eauto.
    - apply sorted_tags_sorted.
    - apply built_edge_deeper.
    - intros p c Hpc. apply elem_of_sorted_tags. by eapply built_edge_closed. }
  split; [done|].
  assert (is_Some (foldl (process_tag (build_hierarchy_from_cards __init__ cards_by_tag))
                     ∅ pre !! child)) as [info Hinfo].
  { apply elem_of_dom. rewrite dom_process_tags. set_solver. }
  exists info. split; [done|]. unfold child_cards. by rewrite Hinfo.
Qed.

Lemma fallback_unreachable_witness :
  sorted_tags (build_hierarchy_from_cards __init__ Sample.cards_by_tag)
    = ["A::B::1-HighYield"; "A::C"; "A::B"] ++ "A" :: []
  ∧ "A::B" ∈ default ∅ (tag_hierarchy
                          (build_hierarchy_from_cards __init__ Sample.cards_by_tag) !! "A")
  ∧ "A::B" ∈ ["A::B::1-HighYield"; "A::C"; "A::B"].
Proof.
  assert (sorted_tags (build_hierarchy_from_cards __init__ Sample.cards_by_tag)
          = ["A::B::1-HighYield"; "A::C"; "A::B"] ++ "A" :: []) as Ho
    by (vm_compute; reflexivity).
  assert ("A::B" ∈ default ∅ (tag_hierarchy
            (build_hierarchy_from_cards __init__ Sample.cards_by_tag) !! "A")) as He
    by (apply (bool_decide_unpack _); vm_compute; reflexivity).
  split; [exact Ho|]. split; [exact He|].
  exact (proj1 (fallback_unreachable Sample.cards_by_tag _ "A" [] "A::B" Ho He)).
Defined.

End AggregatorProperties.

(** ** Yield markers and yield levels *)

Section YieldFacts.
Import BaseExportService YieldSpec.

Lemma append_cons c s t : String c s +:+ t = String c (s +:+ t).
Proof. reflexivity. Qed.

Lemma append_nil t : EmptyString +:+ t = t.
Proof. reflexivity. Qed.

Lemma starts_with_spec needle hay :
  PyStr.starts_with needle hay = true ↔ ∃ post, hay = needle +:+ post.
Proof.
  revert hay. induction needle as [|a needle IH]; intros hay; simpl.
  - split; [by exists hay|done].
  - destruct hay as [|b hay].
    + split; [done|]. by intros [? ?].
    + setoid_rewrite append_cons. destruct (Ascii.eqb_spec a b) as [->|Hne].
      * rewrite IH. split; intros [post Hp]; exists post; congruence.
      * split; [done|]. intros [post Hp]. congruence.
Qed.

Lemma contains_spec needle hay :
  PyStr.contains needle hay = true ↔ substring needle hay.
Proof.
  unfold substring. induction hay as [|b hay IH].
  - cbn [PyStr.contains]. rewrite orb_false_r, starts_with_spec. split.
    + intros [post Hp]. by exists EmptyString, post.
    + intros ([|? ?] & post & Hp); [by exists post|].
      rewrite append_cons in Hp. done.
  - cbn [PyStr.contains]. rewrite orb_true_iff, starts_with_spec, IH. split.
    + intros [[post Hp]|(pre & post & Hp)].
      * by exists EmptyString, post.
      * exists (String b pre), post. rewrite append_cons. congruence.
    + intros ([|c pre] & post & Hp).
      * left. by exists post.
      * right. exists pre, post. rewrite append_cons in Hp. congruence.
Qed.

Lemma is_high_yield_tag_spec tag :
  _is_high_yield_tag tag = true ↔ is_yield_marker tag.
Proof.
  unfold _is_high_yield_tag, is_yield_marker.
  rewrite !orb_true_iff, andb_true_iff, !contains_spec. tauto.
Qed.

Lemma match_level_spec s n :
  match_level s = Some n ↔ digit_prefixed s n.
Proof.
  unfold digit_prefixed, match_level. split.
  - destruct s as [|d [|sep rest]]; try done.
    destruct (Ascii.eqb sep "-" || Ascii.eqb sep "_")%bool eqn:Hsep; [|done].
    intros Hd. exists d, sep, rest. split_and!; [done|exact Hd|].
    apply orb_true_iff in Hsep as [H%Ascii.eqb_eq|H%Ascii.eqb_eq]; auto.
  - intros (d & sep & rest & -> & Hd & Hsep).
    assert ((Ascii.eqb sep "-" || Ascii.eqb sep "_")%bool = true) as ->; [|exact Hd].
    apply orb_true_iff. by destruct Hsep as [->| ->]; [left|right].
Qed.

Lemma match_level_none s : match_level s = None ↔ ¬ has_digit_prefix s.
Proof.
  unfold has_digit_prefix. split.
  - intros Hn [n Hd%match_level_spec]. congruence.
  - intros Hn. destruct (match_level s) as [n|] eqn:Hm; [|done].
    exfalso. apply Hn. exists n. by apply match_level_spec.
Qed.

Lemma match_level_range s n : match_level s = Some n → 1 ≤ n ≤ 5.
Proof.
  unfold match_level. destruct s as [|d [|sep rest]]; try done.
  repeat case_match; intros [= <-]; lia.
Qed.

Lemma first_level_range parts : 0 ≤ first_level parts ≤ 5.
Proof.
  induction parts as [|p parts IH]; simpl; [lia|].
  destruct (match_level p) eqn:Hm; [|done]. apply match_level_range in Hm. lia.
Qed.

(** The first segment with a digit prefix decides. *)
Lemma first_level_found parts i part n :
  parts !! i = Some part → digit_prefixed part n →
  (∀ j p, (j < i)%nat → parts !! j = Some p → ¬ has_digit_prefix p) →
  first_level parts = n.
Proof.
  revert i. induction parts as [|p parts IH]; intros i Hi Hd Hbefore; [done|].
  destruct i as [|i]; simpl in *.
  - injection Hi as ->. apply match_level_spec in Hd. by rewrite Hd.
  - assert (match_level p = None) as ->.
    { apply match_level_none. apply (Hbefore 0%nat); [lia|done]. }
    apply (IH i); [done..|]. intros j q Hj Hq. apply (Hbefore (S j)); [lia|done].
Qed.

Lemma first_level_none parts :
  (∀ part, part ∈ parts → ¬ has_digit_prefix part) → first_level parts = 0.
Proof.
  induction parts as [|p parts IH]; intros Hn; [done|]. simpl.
  assert (match_level p = None) as ->; [apply match_level_none, Hn; left|].
  apply IH. intros part Hp. apply Hn. by right.
Qed.

(** C7. [_get_yield_level] returns 0 unless the tag is a yield marker.
    For a marker it returns the level digit (1 to 5, followed by ['-'] or
    ['_']) that starts the whole label; failing that, the digit that starts
    the first (outermost) ['::']-segment having such a prefix; and 0 when no
    segment has one.  The result always lies between 0 and 5. *)
Theorem yield_level_spec (tag : string) :
  (¬ is_yield_marker tag → _get_yield_level tag = 0)
  ∧ (is_yield_marker tag →
     (∀ n, digit_prefixed tag n → _get_yield_level tag = n)
     ∧ (¬ has_digit_prefix tag →
        (∀ i part n,
            PyStr.split tag !! i = Some part → digit_prefixed part n →
            (∀ j p, (j < i)%nat → PyStr.split tag !! j = Some p → ¬ has_digit_prefix p) →
            _get_yield_level tag = n)
        ∧ ((∀ part, part ∈ PyStr.split tag → ¬ has_digit_prefix part) →
           _get_yield_level tag = 0)))
  ∧ 0 ≤ _get_yield_level tag ≤ 5.
Proof.
  unfold _get_yield_level. split_and!.
  - intros Hn. destruct (_is_high_yield_tag tag) eqn:Hm; [|done].
    exfalso. by apply Hn, is_high_yield_tag_spec.
  - intros Hm%is_high_yield_tag_spec. rewrite Hm. simpl. split.
    + intros n Hd%match_level_spec. by rewrite Hd.
    + intros Hn%match_level_none. rewrite Hn. split.
      * apply first_level_found.
      * apply first_level_none.
  - destruct (_is_high_yield_tag tag); simpl; [|lia].
    destruct (match_level tag) eqn:Hm; [apply match_level_range in Hm; lia|].
    apply first_level_range.
  - destruct (_is_high_yield_tag tag); simpl; [|lia].
    destruct (match_level tag) eqn:Hm; [apply match_level_range in Hm; lia|].
    apply first_level_range.
Qed.

Example yield_level_examples :
  _get_yield_level <$> ["1-HighYield"; "2-RelativelyHighYield"; "3-HighYield-temporary";
                        "4-LowerYield"; "5-LowYield"; "A::B::1-HighYield";
                        "HighYield"; "6-HighYield"; "1-Cardiology"; "1HighYield";
                        "2_high::5-yield"; "x::HIGH::3_a::YIELD::4-b"]
  = [1; 2; 3; 4; 5; 1; 0; 0; 0; 0; 2; 3].
Proof. reflexivity. Qed.

End YieldFacts.

(** ** The metrics computer: one record per tag, no failing division *)

Section ExportFacts.
Import BaseExportService.

Lemma truediv_nonzero a b : b ≠ 0 → truediv a b = Some (PyFloat a b).
Proof. intros Hb. unfold truediv. by destruct (Z.eqb_spec b 0). Qed.

Lemma len_nonneg {A} (l : list A) : 0 ≤ len l.
Proof. unfold len. lia. Qed.

Lemma len_zero {A} (l : list A) : len l = 0 ↔ l = [].
Proof. unfold len. destruct l; simpl; split; intros; try done; lia. Qed.

Lemma averages_total self cards hi : is_Some (averages self cards hi).
Proof.
  unfold averages. destruct (Z.ltb_spec 0 (len cards)).
  - rewrite !truediv_nonzero by lia. by eexists.
  - destruct (has_hierarchy hi); [|by eexists].
    destruct (Z.eqb_spec (len (resolve self (hierarchy_cards hi))) 0).
    + by eexists.
    + rewrite !truediv_nonzero by done. by eexists.
Qed.

Lemma review_stats_total all_revlogs : is_Some (review_stats all_revlogs).
Proof.
  unfold review_stats. destruct (Z.eqb_spec (len all_revlogs) 0).
  - by eexists.
  - rewrite truediv_nonzero by done. by eexists.
Qed.

Lemma review_data_total self cards hi : is_Some (review_data_of self cards hi).
Proof.
  unfold review_data_of. destruct (gather_revlogs self cards hi); [|by eexists].
  apply review_stats_total.
Qed.

(** The loop body never raises, and these are the fields it stores. *)
Lemma export_record_fields self (cbt : CardsByTag) hd tag :
  ∃ r, export_record self cbt hd tag = Some r
       ∧ tag_name r = tag
       ∧ total_cards r = len (dict_get cbt tag [])
       ∧ hierarchical_total_cards r =
           from_option HTC.hierarchical_count (len (dict_get cbt tag [])) (hd !! tag)
       ∧ unstudied_cards r = unstudied_count self (dict_get cbt tag []) (hd !! tag)
       ∧ averages self (dict_get cbt tag []) (hd !! tag) =
           Some (total_lapses r, avg_ease r, avg_interval r, unique_notes r)
       ∧ review_data_of self (dict_get cbt tag []) (hd !! tag) = Some (review_data r).
Proof.
  unfold export_record, tag_record.
  destruct (yield_counts self tag (dict_get cbt tag []) (hd !! tag)) as [[[ys yt] yn] yr].
  destruct (averages_total self (dict_get cbt tag []) (hd !! tag)) as [[[[tl ae] ai] un] ->].
  destruct (review_data_total self (dict_get cbt tag []) (hd !! tag)) as [rd ->].
  simpl. eexists. split; [reflexivity|]. simpl. done.
Qed.

Lemma create_export_data_total self (cbt : CardsByTag) hd :
  ∃ records,
    _create_export_data_fast self cbt hd = Some records
    ∧ Forall2 (fun tag r => export_record self cbt hd tag = Some r)
        (elements (list_to_set (dict_keys cbt) ∪ dom hd : gset string)) records.
Proof.
  unfold _create_export_data_fast.
  destruct (mapM_is_Some_2 (export_record self cbt hd)
              (elements (list_to_set (dict_keys cbt) ∪ dom hd : gset string)))
    as [records Hr].
  - apply Forall_forall. intros tag _.
    destruct (export_record_fields self cbt hd tag) as (r & Hr & _). by exists r.
  - exists records. split; [done|]. by apply mapM_Some_1.
Qed.

Lemma create_export_data_elem self (cbt : CardsByTag) hd records r :
  _create_export_data_fast self cbt hd = Some records → r ∈ records →
  export_record self cbt hd (tag_name r) = Some r
  ∧ (tag_name r ∈ dict_keys cbt ∨ is_Some (hd !! tag_name r)).
Proof.
  intros Hc Hr. apply mapM_Some_1 in Hc.
  apply list_elem_of_lookup in Hr as [i Hi].
  destruct (Forall2_lookup_r _ _ _ _ _ Hc Hi) as (tag & Htag & Hrec).
  destruct (export_record_fields self cbt hd tag) as (r' & Hr' & Hname & _).
  assert (r' = r) as -> by congruence. rewrite Hname. split; [done|].
  apply list_elem_of_lookup_2, elem_of_elements, elem_of_union in Htag as [Ht|Ht].
  - left. by apply elem_of_list_to_set in Ht.
  - right. by apply elem_of_dom.
Qed.

Lemma create_export_data_record self (cbt : CardsByTag) hd records tag :
  _create_export_data_fast self cbt hd = Some records →
  tag ∈ dict_keys cbt ∨ is_Some (hd !! tag) →
  ∃ r, r ∈ records ∧ export_record self cbt hd tag = Some r
       ∧ ∀ r', r' ∈ records → tag_name r' = tag → r' = r.
Proof.
  intros Hc Htag.
  assert (tag ∈ elements (list_to_set (dict_keys cbt) ∪ dom hd : gset string)) as Hin.
  { apply elem_of_elements, elem_of_union.
    destruct Htag; [left; by apply elem_of_list_to_set|right; by apply elem_of_dom]. }
  pose proof Hc as Hall. apply mapM_Some_1 in Hall.
  apply list_elem_of_lookup in Hin as [i Hi].
  destruct (Forall2_lookup_l _ _ _ _ _ Hall Hi) as (r & Hr & Hrec).
  exists r. split_and!; [by eapply list_elem_of_lookup_2|done|].
  intros r' Hr' Hname.
  destruct (create_export_data_elem _ _ _ _ _ Hc Hr') as [Hrec' _].
  rewrite Hname in Hrec'. congruence.
Qed.

Lemma concat_fmap_nil {A B} (f : A → list B) (l : list A) :
  (∀ x, x ∈ l → f x = []) → concat (f <$> l) = [].
Proof.
  induction l as [|x l IH]; intros Hf; [done|]. simpl.
  rewrite (Hf x) by left. apply IH. intros y Hy. apply Hf. by right.
Qed.

Lemma review_data_spec self cards hi rd :
  review_data_of self cards hi = Some rd →
  review_stats (concat (revlogs_of self <$> review_card_ids cards hi)) = Some rd.
Proof.
  unfold review_data_of, gather_revlogs, review_card_ids.
  destruct (Z.ltb 0 (len cards)); [done|].
  destruct (has_hierarchy hi); [done|]. by intros [= <-].
Qed.

Lemma review_stats_fields logs rd :
  review_stats logs = Some rd →
  total_reviews rd = len logs
  ∧ (total_reviews rd = 0 → avg_time_ms rd = PyInt 0).
Proof.
  unfold review_stats. destruct (Z.eqb_spec (len logs) 0) as [Hz|Hnz]; simpl.
  - by intros [= <-].
  - rewrite truediv_nonzero by done. simpl. intros [= <-]. simpl. by split.
Qed.

Lemma len_concat_zero {A} (ls : list (list A)) :
  len (concat ls) = 0 ↔ ∀ l, l ∈ ls → l = [].
Proof.
  rewrite len_zero. induction ls as [|l ls IH]; simpl.
  - split; [|done]. intros _ l Hl. by apply elem_of_nil in Hl.
  - split.
    + intros [-> Hls]%app_eq_nil l' [->|Hl']%elem_of_cons; [done|]. by apply IH.
    + intros Hall. rewrite (Hall l) by left. simpl. apply IH.
      intros l' Hl'. apply Hall. by right.
Qed.

(** C8. [_create_export_data_fast] never raises ZeroDivisionError: on every
    input it returns its records, every division being guarded.  In a
    record whose representative card list is empty, [avg_ease],
    [avg_interval], [unique_notes] (and [total_lapses]) are 0.
    [total_reviews] is 0 exactly when none of the cards whose logs the node
    reads (its direct cards if it has any, else its rolled-up set) has a
    review-log entry, and whenever [total_reviews] is 0, [avg_time_ms] is
    0. *)
Theorem averages_guarded (self : BaseExportService.t) (cards_by_tag : CardsByTag)
    (hierarchical_data : gmap string HTC.TagInfo) :
  ∃ records,
    _create_export_data_fast self cards_by_tag hierarchical_data = Some records
    ∧ ∀ r, r ∈ records →
        (metric_cards self (dict_get cards_by_tag (tag_name r) [])
                      (hierarchical_data !! tag_name r) = [] →
         avg_ease r = PyInt 0 ∧ avg_interval r = PyInt 0
         ∧ unique_notes r = 0 ∧ total_lapses r = 0)
        ∧ (total_reviews (review_data r) = 0 ↔
           ∀ cid, cid ∈ review_card_ids (dict_get cards_by_tag (tag_name r) [])
                                        (hierarchical_data !! tag_name r) →
                  revlogs_of self cid = [])
        ∧ (total_reviews (review_data r) = 0 → avg_time_ms (review_data r) = PyInt 0).
Proof.
  destruct (create_export_data_total self cards_by_tag hierarchical_data)
    as (records & Hrecords & _).
  exists records. split; [done|]. intros r Hr.
  destruct (create_export_data_elem _ _ _ _ _ Hrecords Hr) as [Hrec _].
  destruct (export_record_fields self cards_by_tag hierarchical_data (tag_name r))
    as (r' & Hr' & _ & _ & _ & _ & Hav & Hrd).
  assert (r' = r) as -> by congruence. clear Hr' Hrec.
  set (cards := dict_get cards_by_tag (tag_name r) []) in *.
  set (hi := hierarchical_data !! tag_name r) in *.
  apply review_data_spec, review_stats_fields in Hrd as [Htotal Havg].
  split; [|split; [|done]].
  - unfold metric_cards, averages in *. intros Hempty.
    destruct (Z.eqb_spec (len cards) 0) as [Hz|Hnz].
    + rewrite Hz in Hav. simpl in Hav.
      destruct (has_hierarchy hi); [|by injection Hav as <- <- <- <-].
      rewrite Hempty in Hav. simpl in Hav. by injection Hav as <- <- <- <-.
    + apply len_zero in Hempty. done.
  - rewrite Htotal, len_concat_zero. split.
    + intros Hall cid Hcid. apply Hall. by apply list_elem_of_fmap_2.
    + intros Hall l (cid & -> & Hcid)%list_elem_of_fmap. by apply Hall.
Qed.

(** The node ["A"] holds two cards without review logs and has a child whose
    card has one: the record of ["A"] reads the direct cards only. *)
Lemma averages_guarded_witness :
  ∃ records r,
    export_pipeline Reordered.service Reordered.first_order = Some records
    ∧ r ∈ records ∧ tag_name r = "A"
    ∧ revlogs_of Reordered.service (Some 3) ≠ []
    ∧ total_reviews (review_data r) = 0
    ∧ avg_time_ms (review_data r) = PyInt 0.
Proof.
  destruct (averages_guarded Reordered.service Reordered.first_order
              (HTC.calculate_hierarchical_counts
                 (HTC.build_hierarchy_from_cards HTC.__init__ Reordered.first_order)))
    as (records & Hrecords & Hall).
  assert (∃ r, r ∈ records ∧ tag_name r = "A"
               ∧ review_card_ids (dict_get Reordered.first_order (tag_name r) [])
                   (HTC.calculate_hierarchical_counts
                      (HTC.build_hierarchy_from_cards HTC.__init__ Reordered.first_order)
                    !! tag_name r) = [Some 1; Some 2]) as (r & Hr & Hname & Hids).
  { vm_compute in Hrecords. injection Hrecords as <-.
    eexists. split; [right; left|]. split; [reflexivity|]. vm_compute. reflexivity. }
  destruct (Hall r Hr) as (_ & Hzero & Havg).
  assert (total_reviews (review_data r) = 0) as Hnone.
  { apply Hzero. rewrite Hids. intros cid Hcid.
    apply elem_of_cons in Hcid as [->|Hcid]; [reflexivity|].
    apply elem_of_cons in Hcid as [->|Hcid]; [reflexivity|].
    exfalso. exact (proj1 (elem_of_nil cid) Hcid). }
  exists records, r. split; [exact Hrecords|]. split; [exact Hr|].
  split; [exact Hname|]. split; [vm_compute; discriminate|].
  split; [exact Hnone|exact (Havg Hnone)].
Defined.

Example sample_export_total :
  from_option (fun records => (fun r => (tag_name r, total_cards r, hierarchical_total_cards r,
                                         avg_ease r, avg_time_ms (review_data r)))
                              <$> records) []
    (export_pipeline Sample.service Sample.cards_by_tag)
  = [("A::C", 1, 1, PyFloat 2100 1, PyInt 0);
     ("A::B::1-HighYield", 1, 1, PyFloat 2500 1, PyInt 0);
     ("A::B", 1, 2, PyFloat 2300 1, PyFloat 4000 1);
     ("A", 0, 3, PyFloat 6900 3, PyFloat 4000 1)].
Proof. vm_compute. reflexivity. Qed.

End ExportFacts.

(** ** The export pipeline: parent-only nodes, unstudied cards, falsy identifiers *)

Section PipelineProperties.
Import HierarchicalTagCounter Forest.

(** Along the path of a tag, each prefix is an ancestor of every longer
    prefix in the built hierarchy. *)
Lemma prefix_chain (cbt : CardsByTag) tag i n :
  tag ∈ dict_keys cbt → (1 ≤ i)%nat → (1 ≤ n)%nat →
  (i + n ≤ length (PyStr.split tag))%nat →
  descendant (build_hierarchy_from_cards __init__ cbt)
    (PyStr.join (take i (PyStr.split tag))) (PyStr.join (take (i + n) (PyStr.split tag))).
Proof.
  intros Htag Hi Hn. destruct (build_spec cbt) as (Hedge & _).
  assert (∀ j, (1 ≤ j)%nat → (j + 1 ≤ length (PyStr.split tag))%nat →
               edge (build_hierarchy_from_cards __init__ cbt)
                 (PyStr.join (take j (PyStr.split tag)))
                 (PyStr.join (take (j + 1) (PyStr.split tag)))) as Hstep.
  { intros j Hj Hlen. apply Hedge. exists tag. split; [done|].
    apply elem_of_path_edges. exists (j - 1)%nat.
    split; [lia|]. split; do 2 f_equal; lia. }
  induction n as [|n IH]; [lia|]. intros Hlen.
  destruct (decide (n = 0)%nat) as [->|Hn0].
  - apply tc_once. apply Hstep; lia.
  - eapply tc_r; [apply IH; lia|].
    replace (i + S n)%nat with (i + n + 1)%nat by lia. apply Hstep; lia.
Qed.

Lemma parent_tags_descendant (cbt : CardsByTag) tag ancestor :
  tag ∈ dict_keys cbt → ancestor ∈ _get_parent_tags_fast tag →
  descendant (build_hierarchy_from_cards __init__ cbt) ancestor tag.
Proof.
  intros Htag. unfold _get_parent_tags_fast.
  destruct (PyStr.contains "::" tag); simpl; [|by intros ?%not_elem_of_nil].
  intros (i & -> & Hi%elem_of_seq)%list_elem_of_fmap.
  pose proof (prefix_chain cbt tag i (length (PyStr.split tag) - i) Htag) as Hc.
  replace (i + (length (PyStr.split tag) - i))%nat with (length (PyStr.split tag))
    in Hc by lia.
  rewrite firstn_all, join_split in Hc. apply Hc; lia.
Qed.

Lemma kept_ids_elem cards i :
  i ∈ kept_ids cards ↔ ∃ card, card ∈ cards ∧ kept_id card = Some i.
Proof.
  unfold kept_ids. rewrite elem_of_list_to_set, list_elem_of_omap. naive_solver.
Qed.

Lemma kept_id_nonzero card i : kept_id card = Some i → id card = Some i ∧ i ≠ 0.
Proof.
  unfold kept_id. destruct (id card) as [j|]; [|done].
  destruct (Z.eqb_spec j 0); [done|]. by intros [= ->].
Qed.

Lemma len_set_pos (s : gset Z) x : x ∈ s → 0 < len_set s.
Proof.
  intros Hx. unfold len_set.
  assert (size s ≠ 0%nat); [|lia].
  intros Hs%size_empty_inv. set_solver.
Qed.

Lemma edge_dom self p c : edge self p c → p ∈ dom (tag_hierarchy self).
Proof.
  unfold edge, children_of. intros Hc. apply elem_of_dom.
  destruct (tag_hierarchy self !! p); [by eexists|]. simpl in Hc. set_solver.
Qed.

Lemma descendant_dom self a d : descendant self a d → a ∈ dom (tag_hierarchy self).
Proof. intros Hd. apply tc_nsteps in Hd as (n & Hn & Hd). inversion Hd; subst; [lia|]. by eapply edge_dom. Qed.

Lemma built_direct_of (cbt : CardsByTag) tag cards :
  NoDup (dict_keys cbt) → (tag, cards) ∈ cbt →
  direct_of (build_hierarchy_from_cards __init__ cbt) tag = kept_ids cards.
Proof.
  intros Hnd Hin. destruct (build_spec cbt) as (_ & _ & _ & _ & Ht).
  unfold direct_of. rewrite Ht. by erewrite fold_add_tag_lookup.
Qed.

(** Amended C2. A tag path with no card of its own, one of whose
    descendants in the input carries at least one card with a truthy
    identifier, gets exactly one output record; that record has
    [total_cards = 0] and [hierarchical_total_cards > 0]. *)
Theorem parent_only_record (self : BaseExportService.t) (cards_by_tag : CardsByTag)
    (tag descendant_tag : string) (cards : list Card) (card : Card) :
  NoDup (dict_keys cards_by_tag) →
  dict_get cards_by_tag tag [] = [] →
  tag ∈ _get_parent_tags_fast descendant_tag →
  (descendant_tag, cards) ∈ cards_by_tag →
  card ∈ cards →
  is_Some (kept_id card) →
  ∃ records r,
    BaseExportService.export_pipeline self cards_by_tag = Some records
    ∧ r ∈ records
    ∧ BaseExportService.tag_name r = tag
    ∧ (∀ r', r' ∈ records → BaseExportService.tag_name r' = tag → r' = r)
    ∧ BaseExportService.total_cards r = 0
    ∧ 0 < BaseExportService.hierarchical_total_cards r.
Proof.
  intros Hnd Hempty Hanc Hin Hcard [i Hi]. unfold BaseExportService.export_pipeline.
  set (counter := build_hierarchy_from_cards __init__ cards_by_tag).
  set (hd := calculate_hierarchical_counts counter).
  assert (descendant_tag ∈ dict_keys cards_by_tag) as Hkey.
  { apply list_elem_of_fmap. by exists (descendant_tag, cards). }
  pose proof (parent_tags_descendant _ _ _ Hkey Hanc) as Hdesc. fold counter in Hdesc.
  pose proof (calculate_ok cards_by_tag) as Hok. simpl in Hok. fold counter hd in Hok.
  assert (is_Some (hd !! tag)) as [info Hinfo].
  { apply elem_of_dom. unfold hd. rewrite dom_calculate. unfold all_tags.
    apply elem_of_union_r. by eapply descendant_dom. }
  destruct (descendant_entry counter hd Hok _ _ Hdesc) as [info_d Hinfo_d]; [by eexists|].
  assert (i ∈ all_unique_cards info) as Hroll.
  { eapply (descendant_subset counter hd Hok); [done..|].
    eapply (direct_subset counter hd Hok); [done|].
    rewrite (ok_direct _ _ _ _ (Hok _ _ Hinfo_d)).
    unfold counter. erewrite built_direct_of by done.
    apply kept_ids_elem. by exists card. }
  destruct (create_export_data_total self cards_by_tag hd) as (records & Hrecords & _).
  destruct (create_export_data_record self cards_by_tag hd records tag Hrecords)
    as (r & Hr & Hrec & Huniq); [right; by eexists|].
  destruct (export_record_fields self cards_by_tag hd tag)
    as (r' & Hr' & Hname & Htotal & Hhier & _).
  assert (r' = r) as -> by congruence.
  exists records, r. split_and!; try done.
  - by rewrite Htotal, Hempty.
  - rewrite Hhier, Hinfo. simpl. rewrite (ok_hier_count _ _ _ _ (Hok _ _ Hinfo)).
    by eapply len_set_pos.
Qed.

Lemma parent_only_record_witness :
  NoDup (dict_keys Sample.cards_by_tag)
  ∧ ∃ records r,
      BaseExportService.export_pipeline Sample.service Sample.cards_by_tag = Some records
      ∧ r ∈ records
      ∧ BaseExportService.tag_name r = "A"
      ∧ (∀ r', r' ∈ records → BaseExportService.tag_name r' = "A" → r' = r)
      ∧ BaseExportService.total_cards r = 0
      ∧ 0 < BaseExportService.hierarchical_total_cards r.
Proof.
  assert (NoDup (dict_keys Sample.cards_by_tag)) as Hnd
    by (apply (bool_decide_unpack _); vm_compute; reflexivity).
  split; [exact Hnd|].
  apply (parent_only_record Sample.service Sample.cards_by_tag "A" "A::B::1-HighYield"
           [Sample.card1] Sample.card1 Hnd).
  - reflexivity.
  - apply (bool_decide_unpack _); vm_compute; reflexivity.
  - left.
  - left.
  - by eexists.
Defined.

(** C2 as stated fails: the tag ["A"] has no card of its own and its
    descendant ["A::B"] has one card record, yet the record of ["A"] has
    [hierarchical_total_cards = 0], because that card's identifier is 0. *)
Lemma parent_only_counterexample :
  dict_get ZeroId.cards_by_tag "A" [] = []
  ∧ "A" ∈ _get_parent_tags_fast "A::B"
  ∧ len (dict_get ZeroId.cards_by_tag "A::B" []) = 1
  ∧ ∃ records r,
      BaseExportService.export_pipeline ZeroId.service ZeroId.cards_by_tag = Some records
      ∧ r ∈ records
      ∧ BaseExportService.tag_name r = "A"
      ∧ BaseExportService.total_cards r = 0
      ∧ BaseExportService.hierarchical_total_cards r = 0
      ∧ Forall (fun r' => BaseExportService.tag_name r' = "A" →
                          ¬ (0 < BaseExportService.hierarchical_total_cards r')) records.
Proof.
  split_and!; [reflexivity|apply (bool_decide_unpack _); vm_compute; reflexivity|reflexivity|].
  eexists _, _. split; [vm_compute; reflexivity|].
  split; [right; left|]. split_and!; [reflexivity..|].
  repeat constructor; simpl; intros _; lia.
Qed.

Lemma pipeline_entry (self : BaseExportService.t) (cbt : CardsByTag) records r :
  BaseExportService.export_pipeline self cbt = Some records → r ∈ records →
  ∃ info,
    calculate_hierarchical_counts (build_hierarchy_from_cards __init__ cbt)
      !! BaseExportService.tag_name r = Some info
    ∧ BaseExportService.export_record self cbt
        (calculate_hierarchical_counts (build_hierarchy_from_cards __init__ cbt))
        (BaseExportService.tag_name r) = Some r.
Proof.
  unfold BaseExportService.export_pipeline. intros Hp Hr.
  destruct (create_export_data_elem _ _ _ _ _ Hp Hr) as [Hrec Hdom].
  assert (is_Some (calculate_hierarchical_counts (build_hierarchy_from_cards __init__ cbt)
                     !! BaseExportService.tag_name r)) as [info Hinfo].
  { destruct Hdom as [Hkey|?]; [|done].
    apply elem_of_dom. rewrite dom_calculate. unfold all_tags. apply elem_of_union_l.
    destruct (build_spec cbt) as (_ & _ & -> & _). by apply elem_of_list_to_set. }
  by exists info.
Qed.

(** What the unstudied block computes: it counts over the node's rolled-up
    card set as soon as the rolled-up count is positive, whatever the
    direct count (an identifier unknown to [cards_by_id] counts as
    unstudied), and over the direct cards otherwise. *)
Lemma unstudied_block_behaviour (self : BaseExportService.t) (cards_by_tag : CardsByTag)
    (records : list BaseExportService.ExportRecord) (r : BaseExportService.ExportRecord) :
  BaseExportService.export_pipeline self cards_by_tag = Some records →
  r ∈ records →
  ∃ info,
    calculate_hierarchical_counts (build_hierarchy_from_cards __init__ cards_by_tag)
      !! BaseExportService.tag_name r = Some info
    ∧ BaseExportService.hierarchical_total_cards r = hierarchical_count info
    ∧ (0 < BaseExportService.hierarchical_total_cards r →
       BaseExportService.unstudied_cards r =
         count_if (BaseExportService.unstudied_id self) (elements (all_unique_cards info)))
    ∧ (BaseExportService.hierarchical_total_cards r ≤ 0 →
       BaseExportService.unstudied_cards r =
         count_if BaseExportService.is_new
           (dict_get cards_by_tag (BaseExportService.tag_name r) [])).
Proof.
  intros Hp Hr. destruct (pipeline_entry _ _ _ _ Hp Hr) as (info & Hinfo & Hrec).
  exists info. split; [done|].
  destruct (export_record_fields self cards_by_tag
              (calculate_hierarchical_counts (build_hierarchy_from_cards __init__ cards_by_tag))
              (BaseExportService.tag_name r))
    as (r' & Hr' & _ & _ & Hhier & Hun & _).
  assert (r' = r) as -> by congruence.
  rewrite Hinfo in Hhier, Hun. simpl in Hhier.
  unfold BaseExportService.unstudied_count, BaseExportService.has_hierarchy in Hun.
  simpl in Hun. rewrite Hhier, Hun. split; [done|].
  split; intros Hc.
  - by destruct (Z.ltb_spec 0 (hierarchical_count info)); [|lia].
  - by destruct (Z.ltb_spec 0 (hierarchical_count info)); [lia|].
Qed.

(** C6, evaluated where the code departs from it.  The tag ["A"] has one
    direct card, which has been studied: counting over its direct cards
    gives 0, as [new_cards] (same test, direct cards) reports.  The unstudied
    block tests only the rolled-up count and omits the [total_cards == 0]
    test of the four other blocks, so the record has [unstudied_cards = 1],
    the unstudied card of the child ["A::B"]. *)
Lemma unstudied_counts_descendants_of_direct_node :
  ∃ records r info,
    BaseExportService.export_pipeline Mixed.service Mixed.cards_by_tag = Some records
    ∧ r ∈ records
    ∧ BaseExportService.tag_name r = "A"
    ∧ calculate_hierarchical_counts (build_hierarchy_from_cards __init__ Mixed.cards_by_tag)
        !! "A" = Some info
    ∧ direct_count info = 1
    ∧ BaseExportService.total_cards r = 1
    ∧ count_if BaseExportService.is_new (dict_get Mixed.cards_by_tag "A" []) = 0
    ∧ BaseExportService.new_cards r = 0
    ∧ BaseExportService.unstudied_cards r = 1.
Proof.
  eexists _, _, _. split; [vm_compute; reflexivity|]. split; [right; left|].
  split; [reflexivity|]. split; [vm_compute; reflexivity|].
  split_and!; reflexivity.
Qed.

Lemma add_card_falsy tag acc card : kept_id card = None → add_card tag acc card = acc.
Proof.
  unfold kept_id, add_card. destruct acc as [card_ids self].
  destruct (id card) as [i|]; [|done]. by destruct (Z.eqb i 0).
Qed.

Lemma fold_add_card_filter tag acc cards :
  foldl (add_card tag) acc cards =
  foldl (add_card tag) acc (filter (fun card => is_Some (kept_id card)) cards).
Proof.
  revert acc. induction cards as [|card cards IH]; intros acc; [done|].
  rewrite filter_cons. simpl. case_decide as Hk.
  - simpl. apply IH.
  - rewrite add_card_falsy; [apply IH|].
    destruct (kept_id card); [|done]. exfalso. apply Hk. by eexists.
Qed.

Lemma build_without_falsy_ids self (cbt : CardsByTag) :
  build_hierarchy_from_cards self cbt = build_hierarchy_from_cards self (without_falsy_ids cbt).
Proof.
  unfold build_hierarchy_from_cards. destruct (_hierarchy_built self); [done|].
  assert (foldl add_tag self cbt = foldl add_tag self (without_falsy_ids cbt)) as ->; [|done].
  revert self. induction cbt as [|[tag cards] cbt IH]; intros self; [done|].
  simpl. rewrite <-IH. f_equal. unfold add_tag. by rewrite fold_add_card_filter.
Qed.

Lemma built_unique_ids (cbt : CardsByTag) i :
  i ∈ unique_card_ids (build_hierarchy_from_cards __init__ cbt) ↔
  ∃ tag cards card, (tag, cards) ∈ cbt ∧ card ∈ cards ∧ kept_id card = Some i.
Proof.
  destruct (build_spec cbt) as (_ & _ & _ & -> & _).
  rewrite elem_of_union_list. split.
  - intros (X & HX & Hi). apply list_elem_of_fmap in HX as ([tag cards] & -> & Hin).
    apply kept_ids_elem in Hi as (card & ? & ?). by exists tag, cards, card.
  - intros (tag & cards & card & Hin & Hc & Hk). exists (kept_ids cards). split.
    + apply list_elem_of_fmap. by exists (tag, cards).
    + apply kept_ids_elem. by exists card.
Qed.

Lemma process_tags_bound self (U : gset Z) l hd :
  (∀ t ids, tag_to_cards self !! t = Some ids → ids ⊆ U) →
  (∀ t info, hd !! t = Some info → all_unique_cards info ⊆ U) →
  ∀ t info, foldl (process_tag self) hd l !! t = Some info → all_unique_cards info ⊆ U.
Proof.
  intros Hdirect. revert hd. induction l as [|tag l IH]; intros hd Hhd; [done|].
  simpl. apply IH. intros t info. rewrite process_tag_unfold.
  assert (∀ t', direct_of self t' ⊆ U) as Hd.
  { intros t'. unfold direct_of. destruct (tag_to_cards self !! t') eqn:Ht; simpl.
    - by eapply Hdirect.
    - set_solver. }
  destruct (decide (t = tag)) as [->|Hne].
  - rewrite lookup_insert_eq. intros [= <-]. simpl. unfold rolled_up.
    apply union_subseteq. split; [apply Hd|].
    intros x (X & (child & -> & _)%list_elem_of_fmap & Hx)%elem_of_union_list.
    revert x Hx. unfold child_cards.
    destruct (hd !! child) eqn:Hc; [by eapply Hhd|apply Hd].
  - rewrite lookup_insert_ne by done. apply Hhd.
Qed.

(** Every rolled-up set lies within the global set of unique cards. *)
Lemma rolled_up_within_unique (cbt : CardsByTag) t info :
  calculate_hierarchical_counts (build_hierarchy_from_cards __init__ cbt) !! t = Some info →
  all_unique_cards info ⊆ unique_card_ids (build_hierarchy_from_cards __init__ cbt).
Proof.
  apply process_tags_bound; [|by intros ? ? ?].
  intros tag ids Hids i Hi. destruct (build_spec cbt) as (_ & _ & _ & _ & Ht).
  rewrite Ht in Hids. apply fold_add_tag_cards in Hids as [Hids|(cards & Hin & ->)].
  - change (tag_to_cards __init__) with (∅ : gmap string (gset Z)) in Hids.
    by rewrite lookup_empty in Hids.
  - apply kept_ids_elem in Hi as (card & ? & ?).
    apply built_unique_ids. by exists tag, cards, card.
Qed.

Lemma size_list_to_set_le (l : list Z) : (size (list_to_set l : gset Z) ≤ length l)%nat.
Proof.
  induction l as [|x l IH]; simpl; [done|].
  rewrite size_union_alt, size_singleton.
  assert (size (list_to_set l ∖ {[x]} : gset Z) ≤ size (list_to_set l : gset Z))%nat
    by (apply subseteq_size; set_solver).
  lia.
Qed.

Lemma length_omap_le {A B} (f : A → option B) (l : list A) :
  (length (omap f l) ≤ length l)%nat.
Proof.
  induction l as [|x l IH]; simpl; [done|].
  change (list_omap A B f l) with (omap f l). destruct (f x); simpl; lia.
Qed.

Lemma length_omap_lt {A B} (f : A → option B) (l : list A) x :
  x ∈ l → f x = None → (length (omap f l) < length l)%nat.
Proof.
  induction 1 as [x l|x y l Hin IH]; intros Hx; simpl;
    change (list_omap A B f l) with (omap f l).
  - rewrite Hx. pose proof (length_omap_le f l). lia.
  - specialize (IH Hx). destruct (f y); simpl; lia.
Qed.

(** C10. A card record whose identifier is missing, [None] or 0 leaves the
    counter exactly as if the record were absent: its identifier enters
    neither the tag's direct set, nor the global unique-card set, nor any
    rolled-up set.  The record is still in the tag's card list and counted
    by [total_cards], so [direct_count] is strictly below [total_cards]
    for that tag. *)
Theorem falsy_id_excluded (self : BaseExportService.t) (cards_by_tag : CardsByTag)
    (tag : string) (cards : list Card) (card : Card) :
  NoDup (dict_keys cards_by_tag) →
  (tag, cards) ∈ cards_by_tag →
  card ∈ cards →
  kept_id card = None →
  build_hierarchy_from_cards __init__ cards_by_tag
    = build_hierarchy_from_cards __init__ (without_falsy_ids cards_by_tag)
  ∧ (∀ i, id card = Some i →
       (i ∉ direct_of (build_hierarchy_from_cards __init__ cards_by_tag) tag)
       ∧ (i ∉ unique_card_ids (build_hierarchy_from_cards __init__ cards_by_tag))
       ∧ ∀ t info,
           calculate_hierarchical_counts
             (build_hierarchy_from_cards __init__ cards_by_tag) !! t = Some info →
           i ∉ all_unique_cards info)
  ∧ card ∈ dict_get cards_by_tag tag []
  ∧ ∃ info records r,
      calculate_hierarchical_counts (build_hierarchy_from_cards __init__ cards_by_tag) !! tag
        = Some info
      ∧ BaseExportService.export_pipeline self cards_by_tag = Some records
      ∧ r ∈ records
      ∧ BaseExportService.tag_name r = tag
      ∧ direct_cards info = kept_ids cards
      ∧ BaseExportService.total_cards r = len cards
      ∧ direct_count info < BaseExportService.total_cards r.
Proof.
  intros Hnd Hin Hcard Hfalsy.
  set (counter := build_hierarchy_from_cards __init__ cards_by_tag).
  set (hd := calculate_hierarchical_counts counter).
  assert (tag ∈ dict_keys cards_by_tag) as Hkey.
  { apply list_elem_of_fmap. by exists (tag, cards). }
  split_and!.
  - apply build_without_falsy_ids.
  - intros i Hid.
    assert (i = 0) as ->.
    { unfold kept_id in Hfalsy. rewrite Hid in Hfalsy.
      by destruct (Z.eqb_spec i 0). }
    assert (0 ∉ unique_card_ids counter) as Hu.
    { intros (? & ? & c & _ & _ & Hk)%built_unique_ids.
      by apply kept_id_nonzero in Hk as [_ ?]. }
    split_and!; [|done|].
    + unfold counter. erewrite built_direct_of by done.
      intros (c & _ & Hk)%kept_ids_elem. by apply kept_id_nonzero in Hk as [_ ?].
    + intros t info Hinfo Hi. apply Hu. by eapply rolled_up_within_unique.
  - by erewrite dict_get_NoDup.
  - pose proof (calculate_ok cards_by_tag) as Hok. simpl in Hok. fold counter hd in Hok.
    assert (is_Some (hd !! tag)) as [info Hinfo].
    { apply elem_of_dom. unfold hd. rewrite dom_calculate. unfold all_tags, counter.
      apply elem_of_union_l. destruct (build_spec cards_by_tag) as (_ & _ & -> & _).
      by apply elem_of_list_to_set. }
    unfold BaseExportService.export_pipeline. fold counter hd.
    destruct (create_export_data_total self cards_by_tag hd) as (records & Hrecords & _).
    destruct (create_export_data_record self cards_by_tag hd records tag Hrecords)
      as (r & Hr & Hrec & _); [by left|].
    destruct (export_record_fields self cards_by_tag hd tag)
      as (r' & Hr' & Hname & Htotal & _).
    assert (r' = r) as -> by congruence.
    rewrite (dict_get_NoDup _ _ cards) in Htotal by done.
    assert (direct_cards info = kept_ids cards) as Hdirect.
    { rewrite (ok_direct _ _ _ _ (Hok _ _ Hinfo)). by apply built_direct_of. }
    exists info, records, r. split_and!; try done.
    rewrite Htotal, (ok_direct_count _ _ _ _ (Hok _ _ Hinfo)), Hdirect.
    unfold len_set, len, kept_ids.
    pose proof (size_list_to_set_le (omap kept_id cards)).
    pose proof (length_omap_lt kept_id cards card Hcard Hfalsy). lia.
Qed.

Lemma falsy_id_excluded_witness :
  NoDup (dict_keys ZeroId.cards_by_tag)
  ∧ kept_id ZeroId.card0 = None
  ∧ ∃ info records r,
      calculate_hierarchical_counts (build_hierarchy_from_cards __init__ ZeroId.cards_by_tag)
        !! "A::B" = Some info
      ∧ BaseExportService.export_pipeline ZeroId.service ZeroId.cards_by_tag = Some records
      ∧ r ∈ records
      ∧ BaseExportService.tag_name r = "A::B"
      ∧ direct_cards info = kept_ids [ZeroId.card0]
      ∧ BaseExportService.total_cards r = len [ZeroId.card0]
      ∧ direct_count info < BaseExportService.total_cards r.
Proof.
  assert (NoDup (dict_keys ZeroId.cards_by_tag)) as Hnd
    by (apply (bool_decide_unpack _); vm_compute; reflexivity).
  split; [exact Hnd|]. split; [reflexivity|].
  apply (falsy_id_excluded ZeroId.service ZeroId.cards_by_tag "A::B" [ZeroId.card0]
           ZeroId.card0 Hnd); [left|left|reflexivity].
Defined.

End PipelineProperties.

(** ** The gzip sink on failure *)

Section SinkFacts.
Import Sink TagData ExportServiceFactory UnifiedCardExporter.

Lemma write_all_split fs file_path data :
  match write_all fs file_path data with
  | (fs', true) =>
      Forall (fun item => json_dumps item = Some item) data
      ∧ fs' = foldl (fun fs item => write fs file_path item) fs data
  | (fs', false) =>
      ∃ pre item rest,
        data = pre ++ item :: rest
        ∧ Forall (fun item => json_dumps item = Some item) pre
        ∧ json_dumps item = None
        ∧ fs' = foldl (fun fs item => write fs file_path item) fs pre
  end.
Proof.
  revert fs. induction data as [|item data IH]; intros fs; simpl; [done|].
  destruct (json_dumps item) as [line|] eqn:Hj.
  - assert (line = item) as ->.
    { unfold json_dumps in Hj. destruct (forallb _ item); congruence. }
    specialize (IH (write fs file_path item)).
    destruct (write_all (write fs file_path item) file_path data) as [fs' []].
    + destruct IH as [? ?]. split; [by constructor|done].
    + destruct IH as (pre & bad & rest & -> & Hpre & Hbad & ->).
      exists (item :: pre), bad, rest. split_and!; try done. by constructor.
  - exists [], item, data. split_and!; done.
Qed.


Lemma unwritable_after_writes fs file_path (lines : list Item) :
  unwritable (foldl (fun fs item => write fs file_path item) fs lines) = unwritable fs.
Proof. revert fs. induction lines as [|line lines IH]; intros fs; simpl; [done|]. by rewrite IH. Qed.



(** The write loop on records that all serialize. *)
Lemma write_all_complete fs file_path data :
  Forall (fun item => json_dumps item = Some item) data →
  write_all fs file_path data
    = (foldl (fun fs item => write fs file_path item) fs data, true).
Proof.
  intros Hall. pose proof (write_all_split fs file_path data) as Hw.
  destruct (write_all fs file_path data) as [fs' []].
  - destruct Hw as [_ ->]. done.
  - destruct Hw as (pre & item & rest & -> & _ & Hitem & _).
    apply Forall_app in Hall as [_ Hall]. apply Forall_cons in Hall as [Hser _]. congruence.
Qed.

(** *** The records of the unified export serialize, and their card
    identifiers can be collected *)

Lemma serializable_strings (l : list string) : forallb serializable (VStr <$> l) = true.
Proof. by induction l. Qed.

Lemma serializable_details (l : list BaseExportService.CardDetail) :
  forallb serializable (card_detail_dict <$> l) = true.
Proof.
  induction l as [|d l IH]; [done|]. rewrite fmap_cons.
  change (forallb serializable (card_detail_dict d :: (card_detail_dict <$> l)))
    with (serializable (card_detail_dict d) && forallb serializable (card_detail_dict <$> l)).
  rewrite IH. by destruct d as [[?|] ? ? ? ? ?].
Qed.

Lemma serializable_number x : serializable (number x) = true.
Proof. by destruct x. Qed.

Lemma serializable_review_data rd : serializable (review_data_dict rd) = true.
Proof. destruct rd as [? ? [] ? ? ? ?]; reflexivity. Qed.

Lemma unified_record_serializable timestamp step_name r :
  json_dumps (unified_record timestamp step_name r)
  = Some (unified_record timestamp step_name r).
Proof.
  unfold json_dumps.
  assert (forallb (fun kv => serializable kv.2) (unified_record timestamp step_name r)
          = true) as ->; [|done].
  unfold unified_record, tag_data. cbn [app forallb snd].
  change (serializable (VList (VStr <$> BaseExportService.children_tags r)))
    with (forallb serializable (VStr <$> BaseExportService.children_tags r)).
  change (serializable (VList (VStr <$> BaseExportService.parent_tags r)))
    with (forallb serializable (VStr <$> BaseExportService.parent_tags r)).
  change (serializable
            (VList (card_detail_dict <$> BaseExportService.unstudied_card_details r)))
    with (forallb serializable
            (card_detail_dict <$> BaseExportService.unstudied_card_details r)).
  rewrite !serializable_strings, serializable_details, !serializable_number,
    serializable_review_data.
  reflexivity.
Qed.

Lemma card_ids_of_details (l : list BaseExportService.CardDetail) :
  mapM card_id_of (card_detail_dict <$> l)
  = Some ((fun d => optional_int (BaseExportService.cd_card_id d)) <$> l).
Proof.
  apply mapM_Some. induction l as [|d l IH]; simpl; constructor; [reflexivity|done].
Qed.

Lemma hash_optional_ints (l : list BaseExportService.CardDetail) :
  is_Some (mapM hash_key ((fun d => optional_int (BaseExportService.cd_card_id d)) <$> l)).
Proof.
  apply mapM_is_Some, Forall_fmap, Forall_forall. intros d _. simpl.
  destruct (BaseExportService.cd_card_id d); by eexists.
Qed.

Lemma unified_record_cards timestamp step_name r all_unique_cards :
  is_Some (add_record_cards all_unique_cards (unified_record timestamp step_name r)).
Proof.
  unfold add_record_cards, detail_ids.
  change (dict_find (unified_record timestamp step_name r) "unstudied_card_details")
    with (Some (VList (card_detail_dict <$> BaseExportService.unstudied_card_details r))).
  change (dict_find (unified_record timestamp step_name r) "all_card_details")
    with (@None PyVal).
  cbn [iterate mbind option_bind]. rewrite card_ids_of_details. cbn [mbind option_bind].
  rewrite app_nil_r.
  destruct (hash_optional_ints (BaseExportService.unstudied_card_details r)) as [keys ->].
  by eexists.
Qed.

Lemma count_unique_cards_total all_unique_cards (all_tags_data : list Item) :
  Forall (fun record => ∀ acc, is_Some (add_record_cards acc record)) all_tags_data →
  is_Some (count_unique_cards all_unique_cards all_tags_data).
Proof.
  intros Hall. revert all_unique_cards.
  induction Hall as [|record rest Hrecord _ IH]; intros acc; simpl; [by eexists|].
  destruct (Hrecord acc) as [acc' ->]. simpl. apply IH.
Qed.

(** What [_get_hierarchical_export_data] returns: records built from the
    export records of the service, or nothing. *)
Lemma hierarchical_export_data_records w service step_name :
  Forall (fun record => ∃ timestamp r, record = unified_record timestamp step_name r)
         (_get_hierarchical_export_data w service step_name).
Proof.
  unfold _get_hierarchical_export_data.
  destruct (_load_all_data_optimized w service) as [loaded|]; [|constructor].
  destruct (BaseExportService._create_export_data_fast _ _ _) as [records|]; [|constructor].
  assert (Forall (fun record => ∃ timestamp r, record = unified_record timestamp step_name r)
            (imap (fun i r => unified_record (utcnow w i) step_name r) records)) as Himap.
  { apply Forall_lookup. intros i record Hi. rewrite list_lookup_imap in Hi.
    destruct (records !! i) as [r|]; simplify_eq/=. by eexists _, _. }
  destruct (Z.ltb 0 _); [|exact Himap].
  destruct (String.eqb step_name ""); [constructor|exact Himap].
Qed.

Lemma hierarchical_export_data_ok w service step_name :
  Forall (fun item => json_dumps item = Some item)
         (_get_hierarchical_export_data w service step_name)
  ∧ ∀ acc, is_Some (count_unique_cards acc (_get_hierarchical_export_data w service step_name)).
Proof.
  pose proof (hierarchical_export_data_records w service step_name) as Hrecords. split.
  - eapply Forall_impl; [exact Hrecords|]. intros record (timestamp & r & ->).
    apply unified_record_serializable.
  - intros acc. apply count_unique_cards_total.
    eapply Forall_impl; [exact Hrecords|]. intros record (timestamp & r & ->) acc'.
    apply unified_record_cards.
Qed.




End SinkFacts.

(** ** Two runs on reordered inputs *)

Section OrderFacts.
Import HierarchicalTagCounter Forest TwoRuns.

Lemma len_perm {A} (l l' : list A) : l ≡ₚ l' → len l = len l'.
Proof. intros Hp. unfold len. by rewrite Hp. Qed.

Lemma count_if_perm {A} (p : A → bool) (l l' : list A) :
  l ≡ₚ l' → count_if p l = count_if p l'.
Proof. intros Hp. unfold count_if. apply len_perm. by rewrite Hp. Qed.

Lemma sum_of_from {A} (f : A → Z) (l : list A) a :
  foldl (fun acc x => acc + f x) a l = a + sum_of f l.
Proof.
  unfold sum_of. revert a. induction l as [|x l IH]; intros a; simpl; [lia|].
  rewrite IH, (IH (0 + f x)). lia.
Qed.

Lemma sum_of_cons {A} (f : A → Z) x (l : list A) : sum_of f (x :: l) = f x + sum_of f l.
Proof. unfold sum_of at 1. simpl. by rewrite sum_of_from. Qed.

Lemma sum_of_perm {A} (f : A → Z) (l l' : list A) : l ≡ₚ l' → sum_of f l = sum_of f l'.
Proof.
  induction 1 as [|x l l' _ IH|x y l|l l' l'' _ IH1 _ IH2]; [done|..].
  - by rewrite !sum_of_cons, IH.
  - rewrite !sum_of_cons. lia.
  - congruence.
Qed.

Lemma concat_fmap_perm {A B} (f : A → list B) (l l' : list A) :
  l ≡ₚ l' → concat (f <$> l) ≡ₚ concat (f <$> l').
Proof.
  induction 1 as [|x l l' _ IH|x y l|l l' l'' _ IH1 _ IH2]; simpl; [done|..].
  - by rewrite IH.
  - rewrite !app_assoc. f_equiv. apply Permutation_app_comm.
  - by etrans.
Qed.

Lemma kept_ids_perm cards cards' : cards ≡ₚ cards' → kept_ids cards = kept_ids cards'.
Proof. intros Hp. unfold kept_ids. by rewrite Hp. Qed.

Lemma count_notes_perm cards cards' :
  cards ≡ₚ cards' → BaseExportService.count_notes cards = BaseExportService.count_notes cards'.
Proof. intros Hp. unfold BaseExportService.count_notes. by rewrite Hp. Qed.

Lemma cards_by_yield_level_perm cards cards' level :
  cards ≡ₚ cards' →
  BaseExportService._get_cards_by_yield_level cards level
  ≡ₚ BaseExportService._get_cards_by_yield_level cards' level.
Proof. intros Hp. unfold BaseExportService._get_cards_by_yield_level. by rewrite Hp. Qed.

Lemma yield_counts_perm self tag cards cards' hi :
  cards ≡ₚ cards' →
  BaseExportService.yield_counts self tag cards hi
  = BaseExportService.yield_counts self tag cards' hi.
Proof.
  intros Hp. unfold BaseExportService.yield_counts.
  rewrite (len_perm _ _ Hp), !(count_if_perm _ _ _ Hp).
  destruct (Z.ltb 0 (BaseExportService._get_yield_level tag)); [done|].
  destruct (BaseExportService.has_hierarchy hi && Z.eqb (len cards') 0); [done|].
  unfold BaseExportService.levels. simpl.
  by rewrite !(len_perm _ _ (cards_by_yield_level_perm _ _ _ Hp)),
             !(count_if_perm _ _ _ (cards_by_yield_level_perm _ _ _ Hp)).
Qed.

Lemma metric_cards_perm self cards cards' hi :
  cards ≡ₚ cards' →
  BaseExportService.metric_cards self cards hi
  ≡ₚ BaseExportService.metric_cards self cards' hi.
Proof.
  intros Hp. unfold BaseExportService.metric_cards. rewrite (len_perm _ _ Hp).
  by destruct (Z.eqb (len cards') 0).
Qed.

Lemma averages_perm self cards cards' hi :
  cards ≡ₚ cards' →
  BaseExportService.averages self cards hi = BaseExportService.averages self cards' hi.
Proof.
  intros Hp. unfold BaseExportService.averages.
  by rewrite (len_perm _ _ Hp), !(sum_of_perm _ _ _ Hp), (count_notes_perm _ _ Hp).
Qed.

Lemma review_stats_perm logs logs' :
  logs ≡ₚ logs' → BaseExportService.review_stats logs = BaseExportService.review_stats logs'.
Proof.
  intros Hp. unfold BaseExportService.review_stats.
  by rewrite (len_perm _ _ Hp), (sum_of_perm _ _ _ Hp), !(count_if_perm _ _ _ Hp).
Qed.

Lemma review_data_perm self cards cards' hi :
  cards ≡ₚ cards' →
  BaseExportService.review_data_of self cards hi
  = BaseExportService.review_data_of self cards' hi.
Proof.
  intros Hp. unfold BaseExportService.review_data_of, BaseExportService.gather_revlogs.
  rewrite (len_perm _ _ Hp). destruct (Z.ltb 0 (len cards')); [|done].
  apply review_stats_perm. rewrite <-!list_fmap_compose. by apply concat_fmap_perm.
Qed.

Lemma unstudied_count_perm self cards cards' hi :
  cards ≡ₚ cards' →
  BaseExportService.unstudied_count self cards hi
  = BaseExportService.unstudied_count self cards' hi.
Proof.
  intros Hp. unfold BaseExportService.unstudied_count.
  by rewrite (count_if_perm _ _ _ Hp).
Qed.

(** The record of a tag depends on the order of its card list only
    through the order of [unstudied_card_details]. *)
Lemma tag_record_perm self tag cards cards' hi r r' :
  cards ≡ₚ cards' →
  BaseExportService.tag_record self tag cards hi = Some r →
  BaseExportService.tag_record self tag cards' hi = Some r' →
  same_up_to_order r r'.
Proof.
  intros Hp. unfold BaseExportService.tag_record.
  rewrite <-(yield_counts_perm self tag cards cards' hi Hp),
          <-(averages_perm self cards cards' hi Hp),
          <-(review_data_perm self cards cards' hi Hp),
          <-(unstudied_count_perm self cards cards' hi Hp),
          <-!(count_if_perm _ _ _ (metric_cards_perm self cards cards' hi Hp)),
          <-(len_perm _ _ Hp).
  destruct (BaseExportService.yield_counts self tag cards hi) as [[[ys yt] yn] yr].
  destruct (BaseExportService.averages self cards hi) as [[[[tl ae] ai] un]|]; [|done].
  destruct (BaseExportService.review_data_of self cards hi) as [rd|]; [|done].
  simpl. intros [= <-] [= <-]. unfold same_up_to_order, scalar_fields. simpl.
  split_and!; [done..|].
  destruct (Z.ltb 0 (len cards)); [|done]. by rewrite Hp.
Qed.

Lemma built_lookup_cards (cbt : CardsByTag) tag :
  NoDup (dict_keys cbt) →
  tag_to_cards (build_hierarchy_from_cards __init__ cbt) !! tag =
    if decide (tag ∈ dict_keys cbt) then Some (kept_ids (dict_get cbt tag [])) else None.
Proof.
  intros Hnd. destruct (build_spec cbt) as (_ & _ & Hdom & _ & Ht). case_decide as Hin.
  - destruct (dict_get_elem_of cbt tag []) as [[_ ?]|Hel]; [done|].
    rewrite Ht. by apply fold_add_tag_lookup.
  - apply not_elem_of_dom. rewrite Hdom. by rewrite elem_of_list_to_set.
Qed.

Lemma hierarchy_ext self1 self2 :
  (∀ q, q ∈ dom (tag_hierarchy self1) ↔ q ∈ dom (tag_hierarchy self2)) →
  (∀ p c, edge self1 p c ↔ edge self2 p c) →
  tag_hierarchy self1 = tag_hierarchy self2.
Proof.
  intros Hdom Hedge. apply map_eq. intros p.
  specialize (Hdom p). rewrite !elem_of_dom in Hdom.
  pose proof (Hedge p) as Hp. unfold edge, children_of in Hp.
  destruct (tag_hierarchy self1 !! p) as [cs1|], (tag_hierarchy self2 !! p) as [cs2|];
    simpl in *.
  - f_equal. apply set_eq. done.
  - destruct Hdom as [[? ?] _]; [by eexists|done].
  - destruct Hdom as [_ [? ?]]; [by eexists|done].
  - done.
Qed.

Lemma process_tags_ext self1 self2 l hd :
  tag_hierarchy self1 = tag_hierarchy self2 →
  tag_to_cards self1 = tag_to_cards self2 →
  foldl (process_tag self1) hd l = foldl (process_tag self2) hd l.
Proof.
  intros Hh Ht. revert hd. induction l as [|tag l IH]; intros hd; [done|].
  simpl. rewrite IH. f_equal. unfold process_tag, child_cards. by rewrite Hh, Ht.
Qed.

Lemma calculate_ext self1 self2 :
  tag_hierarchy self1 = tag_hierarchy self2 →
  tag_to_cards self1 = tag_to_cards self2 →
  calculate_hierarchical_counts self1 = calculate_hierarchical_counts self2.
Proof.
  intros Hh Ht. unfold calculate_hierarchical_counts, sorted_tags, all_tags.
  rewrite Hh, Ht. by apply process_tags_ext.
Qed.

Lemma same_mapping_keys cbt1 cbt2 tag :
  same_mapping cbt1 cbt2 → tag ∈ dict_keys cbt1 ↔ tag ∈ dict_keys cbt2.
Proof. intros (_ & _ & Hk & _). by rewrite Hk. Qed.

(** Reordering the input does not change what the counter computes. *)
Lemma calculate_same_mapping cbt1 cbt2 :
  same_mapping cbt1 cbt2 →
  calculate_hierarchical_counts (build_hierarchy_from_cards __init__ cbt1)
  = calculate_hierarchical_counts (build_hierarchy_from_cards __init__ cbt2).
Proof.
  intros Hsame. pose proof Hsame as (Hnd1 & Hnd2 & Hkeys & Hcards).
  destruct (build_spec cbt1) as (He1 & Hd1 & _), (build_spec cbt2) as (He2 & Hd2 & _).
  apply calculate_ext.
  - apply hierarchy_ext.
    + intros q. rewrite Hd1, Hd2. by setoid_rewrite Hkeys.
    + intros p c. rewrite He1, He2. by setoid_rewrite Hkeys.
  - apply map_eq. intros tag. rewrite !built_lookup_cards by done.
    pose proof (same_mapping_keys _ _ tag Hsame).
    repeat case_decide; try tauto. f_equal. apply kept_ids_perm, Hcards.
Qed.

(** Amended C4. For two inputs that list the same tag-to-cards mapping in
    different orders (tags reordered, the card list of each tag permuted),
    the export yields the same number of records and, for every tag,
    records that agree on every scalar field and on [parent_tags], and whose
    list-valued fields [children_tags] and [unstudied_card_details] hold the
    same elements, possibly in a different order.  (The wall-clock
    [timestamp] is not part of the statement.) *)
Theorem export_order_independent (self : BaseExportService.t) (cbt1 cbt2 : CardsByTag)
    (records1 records2 : list BaseExportService.ExportRecord)
    (r1 : BaseExportService.ExportRecord) :
  same_mapping cbt1 cbt2 →
  BaseExportService.export_pipeline self cbt1 = Some records1 →
  BaseExportService.export_pipeline self cbt2 = Some records2 →
  r1 ∈ records1 →
  length records1 = length records2
  ∧ ∃ r2,
      r2 ∈ records2
      ∧ (∀ r, r ∈ records2 → BaseExportService.tag_name r = BaseExportService.tag_name r1 →
              r = r2)
      ∧ same_up_to_order r1 r2.
Proof.
  intros Hsame. unfold BaseExportService.export_pipeline.
  rewrite <-(calculate_same_mapping cbt1 cbt2 Hsame).
  set (hd := calculate_hierarchical_counts (build_hierarchy_from_cards __init__ cbt1)).
  intros H1 H2 Hr1. split.
  - apply length_mapM in H1, H2. rewrite <-H1, <-H2. do 2 f_equal.
    destruct Hsame as (_ & _ & Hk & _). by rewrite Hk.
  - destruct (create_export_data_elem _ _ _ _ _ H1 Hr1) as [Hrec1 Hin1].
    destruct (create_export_data_record self cbt2 hd records2
                (BaseExportService.tag_name r1) H2) as (r2 & Hr2 & Hrec2 & Huniq).
    { destruct Hin1 as [Hk|?]; [left|by right].
      by apply (same_mapping_keys cbt1 cbt2 _ Hsame). }
    exists r2. split_and!; [done..|].
    unfold BaseExportService.export_record in *.
    eapply tag_record_perm; [|done..]. by destruct Hsame as (_ & _ & _ & ?).
Qed.

Lemma reordered_same_mapping : same_mapping Reordered.first_order Reordered.second_order.
Proof.
  split_and!.
  - apply (bool_decide_unpack _). vm_compute. reflexivity.
  - apply (bool_decide_unpack _). vm_compute. reflexivity.
  - apply perm_swap.
  - intros tag. unfold Reordered.first_order, Reordered.second_order. cbn [dict_get].
    destruct (String.eqb_spec "A" tag) as [<-|]; [apply perm_swap|].
    by destruct (String.eqb "A::B" tag).
Defined.

Lemma export_order_independent_witness :
  same_mapping Reordered.first_order Reordered.second_order
  ∧ ∃ records1 records2 r1,
      BaseExportService.export_pipeline Reordered.service Reordered.first_order
        = Some records1
      ∧ BaseExportService.export_pipeline Reordered.service Reordered.second_order
        = Some records2
      ∧ r1 ∈ records1
      ∧ length records1 = length records2
      ∧ ∃ r2,
          r2 ∈ records2
          ∧ (∀ r, r ∈ records2 →
                  BaseExportService.tag_name r = BaseExportService.tag_name r1 → r = r2)
          ∧ same_up_to_order r1 r2.
Proof.
  split; [exact reordered_same_mapping|].
  eexists _, _, _.
  split; [vm_compute; reflexivity|]. split; [vm_compute; reflexivity|].
  split; [left|].
  eapply (export_order_independent Reordered.service _ _ _ _ _ reordered_same_mapping);
    [vm_compute; reflexivity|vm_compute; reflexivity|left].
Defined.

(** C4 as stated fails: the two inputs list the same mapping, but the
    records of the tag ["A"] differ in the list-valued field
    [unstudied_card_details], which follows the order of the card list. *)
Lemma order_dependent_counterexample :
  same_mapping Reordered.first_order Reordered.second_order
  ∧ ∃ records1 records2 r1 r2,
      BaseExportService.export_pipeline Reordered.service Reordered.first_order
        = Some records1
      ∧ BaseExportService.export_pipeline Reordered.service Reordered.second_order
        = Some records2
      ∧ r1 ∈ records1 ∧ BaseExportService.tag_name r1 = "A"
      ∧ r2 ∈ records2 ∧ BaseExportService.tag_name r2 = "A"
      ∧ BaseExportService.unstudied_card_details r1
        ≠ BaseExportService.unstudied_card_details r2.
Proof.
  split; [exact reordered_same_mapping|].
  eexists _, _, _, _.
  split; [vm_compute; reflexivity|]. split; [vm_compute; reflexivity|].
  split; [right; left|]. split; [reflexivity|].
  split; [right; left|]. split; [reflexivity|].
  simpl. intros Heq. discriminate Heq.
Qed.

End OrderFacts.


(** ** Paths and their ancestors *)

Section PathFacts.
Import HierarchicalTagCounter Forest.

(** Splitting a joined prefix of the parts gives the parts back. *)
Lemma split_join_take s k :
  (1 ≤ k ≤ length (PyStr.split s))%nat →
  PyStr.split (PyStr.join (take k (PyStr.split s))) = take k (PyStr.split s).
Proof.
  revert k. induction s as [| r IH | c rest Hn IH] using sep_ind; intros k Hk.
  - destruct k as [|[|k]]; simpl in *; [lia|done|lia].
  - rewrite split_sep in *. destruct k as [|[|k]]; [lia|done|].
    change (take (S (S k)) (EmptyString :: PyStr.split r))
      with (EmptyString :: take (S k) (PyStr.split r)).
    rewrite join_cons_nonempty.
    + simpl in Hk.
      change (EmptyString +:+ "::" +:+ ?x) with (String ":" (String ":" x)).
      rewrite split_sep, IH by lia. done.
    + pose proof (split_nonempty r). by destruct (PyStr.split r).
  - rewrite split_char in * by done. pose proof (split_nonempty rest).
    destruct (join_take_prefix rest k) as [t Ht]; [lia|].
    specialize (IH k).
    destruct (PyStr.split rest) as [|p ps]; [done|].
    destruct k as [|k]; [lia|]. simpl take in *.
    rewrite join_cons_char, split_char.
    + rewrite IH by (simpl in *; lia). done.
    + intros [r Hr]. apply Hn. injection Hr as -> Hr.
      change (PyStr.join (p :: take k ps) = String ":" r) in Hr.
      rewrite Hr in Ht. rewrite Ht. by exists (r +:+ t).
Qed.

Lemma parent_tags_unfold tag :
  _get_parent_tags_fast tag =
    (fun i => PyStr.join (take i (PyStr.split tag)))
      <$> seq 1 (length (PyStr.split tag) - 1).
Proof.
  unfold _get_parent_tags_fast.
  destruct (PyStr.contains "::" tag) eqn:Hc; simpl; [done|].
  destruct (decide (2 ≤ length (PyStr.split tag))%nat) as [Hl|Hl].
  - apply contains_sep in Hl. congruence.
  - pose proof (split_length_pos tag).
    by replace (length (PyStr.split tag) - 1)%nat with 0%nat by lia.
Qed.

Lemma length_parent_tags tag : length (_get_parent_tags_fast tag) = PyStr.count tag.
Proof. by rewrite parent_tags_unfold, length_fmap, length_seq, count_split. Qed.

Lemma lookup_parent_tags tag i p :
  _get_parent_tags_fast tag !! i = Some p ↔
  (i + 2 ≤ length (PyStr.split tag))%nat
  ∧ p = PyStr.join (take (i + 1) (PyStr.split tag)).
Proof.
  rewrite parent_tags_unfold, list_lookup_fmap, fmap_Some.
  setoid_rewrite lookup_seq. split.
  - intros (j & [-> Hj] & ->). split; [lia|]. do 2 f_equal. lia.
  - intros [Hi ->]. exists (1 + i)%nat. split; [split; lia|]. do 2 f_equal. lia.
Qed.

Lemma elem_of_parent_tags tag p :
  p ∈ _get_parent_tags_fast tag ↔
  ∃ k, (1 ≤ k)%nat ∧ (k + 1 ≤ length (PyStr.split tag))%nat
       ∧ p = PyStr.join (take k (PyStr.split tag)).
Proof.
  rewrite list_elem_of_lookup. setoid_rewrite lookup_parent_tags. split.
  - intros (i & Hi & ->). exists (i + 1)%nat. split_and!; [lia..|done].
  - intros (k & Hk1 & Hk2 & ->). exists (k - 1)%nat. split; [lia|].
    do 2 f_equal. lia.
Qed.

(** The ancestors of a prefix of a path are the shorter prefixes. *)
Lemma parent_tags_prefix tag k :
  (1 ≤ k ≤ length (PyStr.split tag))%nat →
  _get_parent_tags_fast (PyStr.join (take k (PyStr.split tag)))
  = take (k - 1) (_get_parent_tags_fast tag).
Proof.
  intros Hk. rewrite !parent_tags_unfold, split_join_take by done.
  rewrite length_take_le by lia. rewrite <-fmap_take, take_seq.
  replace ((k - 1) `min` (length (PyStr.split tag) - 1))%nat with (k - 1)%nat by lia.
  apply list_fmap_ext. intros i j Hj. apply lookup_seq in Hj as [-> Hi].
  rewrite take_take. do 2 f_equal. lia.
Qed.

End PathFacts.

(** ** The shape of the built hierarchy *)

Section HierarchyShape.
Import HierarchicalTagCounter Forest.

Lemma string_app_assoc (a b c : string) : (a +:+ b) +:+ c = a +:+ (b +:+ c).
Proof. induction a as [|x a IH]; [done|]. rewrite !append_cons. by rewrite IH. Qed.

Lemma join_app l1 l2 :
  l1 ≠ [] → l2 ≠ [] →
  PyStr.join (l1 ++ l2) = PyStr.join l1 +:+ "::" +:+ PyStr.join l2.
Proof.
  intros H1 H2. induction l1 as [|p l1 IH]; [done|].
  destruct l1 as [|q l1].
  - simpl. by destruct l2.
  - change ((p :: q :: l1) ++ l2) with (p :: (q :: l1) ++ l2).
    rewrite join_cons_nonempty by done. rewrite IH by done.
    rewrite (join_cons_nonempty p (q :: l1)) by done.
    by rewrite !string_app_assoc.
Qed.

(** A proper prefix of the parts is followed by the delimiter. *)
Lemma join_take_drop tag k :
  (1 ≤ k)%nat → (k + 1 ≤ length (PyStr.split tag))%nat →
  tag = PyStr.join (take k (PyStr.split tag)) +:+ "::"
        +:+ PyStr.join (drop k (PyStr.split tag)).
Proof.
  intros Hk1 Hk2. rewrite <-join_app.
  - by rewrite take_drop, join_split.
  - intros Ht. apply (f_equal length) in Ht. rewrite length_take in Ht. simpl in Ht. lia.
  - intros Hd. apply (f_equal length) in Hd. rewrite length_drop in Hd. simpl in Hd. lia.
Qed.

(** Every registered child lists its parent as its nearest ancestor. *)
Lemma edge_parent_tags (cbt : CardsByTag) p c :
  edge (build_hierarchy_from_cards __init__ cbt) p c →
  _get_parent_tags_fast c = _get_parent_tags_fast p ++ [p].
Proof.
  intros He. apply build_spec in He as (tag & _ & He).
  apply elem_of_path_edges in He as (i & Hi & -> & ->).
  rewrite !parent_tags_prefix by lia.
  replace (i + 2 - 1)%nat with (S i) by lia. replace (i + 1 - 1)%nat with i by lia.
  apply take_S_r. apply lookup_parent_tags. split; [lia|done].
Qed.

Lemma descendant_parent_tags (cbt : CardsByTag) a d :
  descendant (build_hierarchy_from_cards __init__ cbt) a d →
  ∃ l, _get_parent_tags_fast d = _get_parent_tags_fast a ++ a :: l.
Proof.
  induction 1 as [a d He|a b d He _ [l IH]].
  - exists []. by eapply edge_parent_tags.
  - exists (b :: l). rewrite IH, (edge_parent_tags _ _ _ He), <-app_assoc. done.
Qed.

(** The nodes are the non-empty prefixes of the input tags. *)
Lemma node_prefix (cbt : CardsByTag) tag :
  tag ∈ all_tags (build_hierarchy_from_cards __init__ cbt) ↔
  ∃ key k, key ∈ dict_keys cbt ∧ (1 ≤ k ≤ length (PyStr.split key))%nat
           ∧ tag = PyStr.join (take k (PyStr.split key)).
Proof.
  destruct (build_spec cbt) as (_ & Hdom & Hcards & _).
  unfold all_tags. rewrite elem_of_union, Hcards, elem_of_list_to_set, Hdom. split.
  - intros [Hkey|(key & Hkey & Hin)].
    + exists tag, (length (PyStr.split tag)). pose proof (split_length_pos tag).
      split; [done|]. split; [lia|]. by rewrite firstn_all, join_split.
    + apply list_elem_of_fmap in Hin as ([p c] & -> & Hin).
      apply elem_of_path_edges in Hin as (i & Hi & -> & _).
      exists key, (i + 1)%nat. split; [done|]. split; [lia|done].
  - intros (key & k & Hkey & Hk & ->).
    destruct (decide (k = length (PyStr.split key))) as [->|Hne].
    + left. by rewrite firstn_all, join_split.
    + right. exists key. split; [done|]. apply list_elem_of_fmap.
      exists (PyStr.join (take k (PyStr.split key)),
              PyStr.join (take (k + 1) (PyStr.split key))).
      split; [done|]. apply elem_of_path_edges. exists (k - 1)%nat.
      split; [lia|]. split; do 2 f_equal; lia.
Qed.

Lemma node_key_or_ancestor (cbt : CardsByTag) tag :
  tag ∈ all_tags (build_hierarchy_from_cards __init__ cbt) ↔
  tag ∈ dict_keys cbt ∨ ∃ key, key ∈ dict_keys cbt ∧ tag ∈ _get_parent_tags_fast key.
Proof.
  rewrite node_prefix. setoid_rewrite elem_of_parent_tags. split.
  - intros (key & k & Hkey & Hk & ->).
    destruct (decide (k = length (PyStr.split key))) as [->|Hne].
    + left. by rewrite firstn_all, join_split.
    + right. exists key. split; [done|]. exists k. split_and!; [lia..|done].
  - intros [Hkey|(key & Hkey & k & Hk1 & Hk2 & ->)].
    + exists tag, (length (PyStr.split tag)). pose proof (split_length_pos tag).
      split; [done|]. split; [lia|]. by rewrite firstn_all, join_split.
    + exists key, k. split; [done|]. split; [lia|done].
Qed.

(** Among the nodes, the ancestors listed by [_get_parent_tags_fast] are
    exactly the nodes of which the tag is a descendant. *)
Lemma ancestor_iff_descendant (cbt : CardsByTag) a d :
  d ∈ all_tags (build_hierarchy_from_cards __init__ cbt) →
  a ∈ _get_parent_tags_fast d ↔ descendant (build_hierarchy_from_cards __init__ cbt) a d.
Proof.
  intros (key & k & Hkey & Hk & ->)%node_prefix. split.
  - rewrite parent_tags_prefix by done.
    intros (i & Hi)%list_elem_of_lookup.
    apply lookup_take_Some in Hi as [Hi Hik].
    apply lookup_parent_tags in Hi as [Hi ->].
    pose proof (prefix_chain cbt key (i + 1) (k - (i + 1)) Hkey) as Hc.
    replace (i + 1 + (k - (i + 1)))%nat with k in Hc by lia. apply Hc; lia.
  - intros (l & ->)%descendant_parent_tags. set_solver.
Qed.

End HierarchyShape.

(** ** Closed forms for the computed hierarchy *)

Section ClosedForms.
Import HierarchicalTagCounter Forest.

(** Whatever reaches a rolled-up set comes from the direct set of the node
    or of one of its descendants. *)
Lemma process_prefix_sources self order :
  NoDup order →
  StronglySorted deeper_first order →
  (∀ p c, edge self p c → PyStr.count c = S (PyStr.count p)) →
  (∀ p c, edge self p c → c ∈ order) →
  ∀ pre post, order = pre ++ post →
  ∀ t info x,
    foldl (process_tag self) ∅ pre !! t = Some info →
    x ∈ all_unique_cards info →
    x ∈ direct_of self t ∨ ∃ d, descendant self t d ∧ x ∈ direct_of self d.
Proof.
  intros Hnd Hsorted Hdeeper Hclosed pre.
  induction pre as [|tag pre IH] using rev_ind; intros post Ho t info x.
  - simpl. by rewrite lookup_empty.
  - rewrite foldl_snoc, process_tag_unfold. rewrite <-app_assoc in Ho. simpl in Ho.
    destruct (decide (t = tag)) as [->|Hne].
    + rewrite lookup_insert_eq. intros [= <-]. simpl.
      rewrite rolled_up_elem.
      * intros [?|(child & ic & He & Hic & Hx)]; [by left|right].
        destruct (IH _ Ho _ _ _ Hic Hx) as [?|(d & Hd & ?)].
        -- exists child. split; [by apply tc_once|done].
        -- exists d. split; [by eapply tc_l|done].
      * intros child He. apply elem_of_dom. rewrite dom_process_tags.
        apply elem_of_union_r, elem_of_list_to_set.
        by eapply (children_before self order).
    + rewrite lookup_insert_ne by done. by apply (IH _ Ho).
Qed.

Lemma calculate_sources (cbt : CardsByTag) t info x :
  calculate_hierarchical_counts (build_hierarchy_from_cards __init__ cbt) !! t = Some info →
  x ∈ all_unique_cards info →
  x ∈ direct_of (build_hierarchy_from_cards __init__ cbt) t
  ∨ ∃ d, descendant (build_hierarchy_from_cards __init__ cbt) t d
         ∧ x ∈ direct_of (build_hierarchy_from_cards __init__ cbt) d.
Proof.
  apply (process_prefix_sources _ (sorted_tags (build_hierarchy_from_cards __init__ cbt)))
    with (post := []).
  - apply sorted_tags_NoDup.
  - apply sorted_tags_sorted.
  - apply built_edge_deeper.
  - intros p c He. apply elem_of_sorted_tags. by eapply built_edge_closed.
  - by rewrite app_nil_r.
Qed.

Lemma built_direct_elem (cbt : CardsByTag) tag x :
  NoDup (dict_keys cbt) →
  x ∈ direct_of (build_hierarchy_from_cards __init__ cbt) tag ↔
  ∃ cards card, (tag, cards) ∈ cbt ∧ card ∈ cards ∧ kept_id card = Some x.
Proof.
  intros Hnd. unfold direct_of. rewrite built_lookup_cards by done. split.
  - case_decide as Hkey; simpl; [|set_solver].
    intros (card & ? & ?)%kept_ids_elem.
    destruct (dict_get_elem_of cbt tag []) as [[_ ?]|Hin]; [done|].
    by exists (dict_get cbt tag []), card.
  - intros (cards & card & Hin & Hc & Hk).
    rewrite decide_True by (apply list_elem_of_fmap; by exists (tag, cards)).
    simpl. rewrite (dict_get_NoDup cbt tag cards) by done.
    apply kept_ids_elem. by exists card.
Qed.

Lemma rolled_up_sources (cards_by_tag : CardsByTag) (tag : string)
    (info : TagInfo) (x : Z) :
  NoDup (dict_keys cards_by_tag) →
  calculate_hierarchical_counts (build_hierarchy_from_cards __init__ cards_by_tag) !! tag
    = Some info →
  x ∈ all_unique_cards info ↔
  ∃ key cards card,
    (key, cards) ∈ cards_by_tag ∧ card ∈ cards ∧ kept_id card = Some x
    ∧ (key = tag ∨ tag ∈ _get_parent_tags_fast key).
Proof.
  intros Hnd Hinfo.
  pose proof (calculate_ok cards_by_tag) as Hok. simpl in Hok. split.
  - intros Hx. destruct (calculate_sources _ _ _ _ Hinfo Hx) as [Hd|(d & Hdesc & Hd)].
    + apply built_direct_elem in Hd as (cards & card & ? & ? & ?); [|done].
      exists tag, cards, card. split_and!; try done. by left.
    + apply built_direct_elem in Hd as (cards & card & ? & ? & ?); [|done].
      exists d, cards, card. split_and!; try done. right.
      apply descendant_parent_tags in Hdesc as [l ->]. set_solver.
  - intros (key & cards & card & Hin & Hc & Hk & Hrel).
    assert (x ∈ direct_of (build_hierarchy_from_cards __init__ cards_by_tag) key) as Hd.
    { apply built_direct_elem; [done|]. by exists cards, card. }
    destruct Hrel as [->|Hanc].
    + eapply direct_subset; [apply Hok|done|].
      by rewrite (ok_direct _ _ _ _ (Hok _ _ Hinfo)).
    + assert (key ∈ dict_keys cards_by_tag) as Hkey.
      { apply list_elem_of_fmap. by exists (key, cards). }
      pose proof (parent_tags_descendant _ _ _ Hkey Hanc) as Hdesc.
      destruct (descendant_entry _ _ Hok _ _ Hdesc) as [ik Hik]; [by eexists|].
      eapply descendant_subset; [apply Hok|done..|].
      eapply direct_subset; [apply Hok|done|].
      by rewrite (ok_direct _ _ _ _ (Hok _ _ Hik)).
Qed.

(** X1. The rolled-up set of a node holds exactly the truthy identifiers
    of the cards listed, in the input, under the node's own tag or under a
    tag that has the node among its ancestors. *)
Theorem rolled_up_closed_form (cards_by_tag : CardsByTag) (tag : string)
    (info : TagInfo) (x : Z) :
  NoDup (dict_keys cards_by_tag) →
  calculate_hierarchical_counts (build_hierarchy_from_cards __init__ cards_by_tag) !! tag
    = Some info →
  x ∈ all_unique_cards info ↔
  ∃ key cards card,
    (key, cards) ∈ cards_by_tag ∧ card ∈ cards ∧ kept_id card = Some x
    ∧ (key = tag ∨ tag ∈ _get_parent_tags_fast key).
Proof. apply rolled_up_sources. Qed.

Lemma rolled_up_closed_form_witness :
  NoDup (dict_keys Sample.cards_by_tag)
  ∧ ∃ info,
      calculate_hierarchical_counts (build_hierarchy_from_cards __init__ Sample.cards_by_tag)
        !! "A::B" = Some info
      ∧ (1 ∈ all_unique_cards info ↔
         ∃ key cards card,
           (key, cards) ∈ Sample.cards_by_tag ∧ card ∈ cards ∧ kept_id card = Some 1
           ∧ (key = "A::B" ∨ "A::B" ∈ _get_parent_tags_fast key)).
Proof.
  assert (NoDup (dict_keys Sample.cards_by_tag)) as Hnd
    by (apply (bool_decide_unpack _); vm_compute; reflexivity).
  split; [exact Hnd|]. eexists. split; [vm_compute; reflexivity|].
  apply (rolled_up_closed_form Sample.cards_by_tag "A::B" _ 1 Hnd).
  vm_compute. reflexivity.
Defined.

(** X2. The entries of [hierarchical_data] are the input tags and their
    ancestors, and nothing else. *)
Theorem nodes_closed_form (cards_by_tag : CardsByTag) (tag : string) :
  is_Some (calculate_hierarchical_counts
             (build_hierarchy_from_cards __init__ cards_by_tag) !! tag) ↔
  tag ∈ dict_keys cards_by_tag
  ∨ ∃ key, key ∈ dict_keys cards_by_tag ∧ tag ∈ _get_parent_tags_fast key.
Proof. by rewrite <-elem_of_dom, dom_calculate, node_key_or_ancestor. Qed.

(** X3. [_get_parent_tags_fast] lists, for a tag with [n] delimiters, its
    [n] ancestors from the root down: the [i]-th has [i] delimiters, is
    followed in the tag by the delimiter, and has the first [i] ancestors as
    its own ancestors. *)
Theorem parent_tags_shape (tag : string) :
  length (_get_parent_tags_fast tag) = PyStr.count tag
  ∧ ∀ i p, _get_parent_tags_fast tag !! i = Some p →
      PyStr.count p = i
      ∧ (∃ rest, tag = p +:+ "::" +:+ rest)
      ∧ _get_parent_tags_fast p = take i (_get_parent_tags_fast tag).
Proof.
  split; [apply length_parent_tags|].
  intros i p [Hi ->]%lookup_parent_tags. split_and!.
  - rewrite count_join_take by lia. lia.
  - eexists. apply join_take_drop; lia.
  - rewrite parent_tags_prefix by lia. f_equal. lia.
Qed.

(** X4. In the computed hierarchy [children_tags] and [parent_tags] agree:
    the children of a node, listed without repetition, are exactly the
    nodes whose ancestor list is the node's ancestor list followed by the
    node itself. *)
Theorem children_parents_agree (cards_by_tag : CardsByTag) (tag : string) (info : TagInfo) :
  calculate_hierarchical_counts (build_hierarchy_from_cards __init__ cards_by_tag) !! tag
    = Some info →
  parent_tags info = _get_parent_tags_fast tag
  ∧ NoDup (children_tags info)
  ∧ ∀ child,
      child ∈ children_tags info ↔
      ∃ info_c,
        calculate_hierarchical_counts
          (build_hierarchy_from_cards __init__ cards_by_tag) !! child = Some info_c
        ∧ parent_tags info_c = parent_tags info ++ [tag].
Proof.
  intros Hinfo. pose proof (calculate_ok cards_by_tag) as Hok. simpl in Hok.
  pose proof (Hok _ _ Hinfo) as Hn.
  rewrite (ok_parent_tags _ _ _ _ Hn), (ok_children_tags _ _ _ _ Hn).
  split_and!; [done|apply NoDup_elements|]. intros child.
  rewrite elem_of_elements. fold (edge (build_hierarchy_from_cards __init__ cards_by_tag)
                                        tag child). split.
  - intros He. destruct (ok_children _ _ _ _ Hn child He) as [ic Hic].
    exists ic. split; [done|].
    rewrite (ok_parent_tags _ _ _ _ (Hok _ _ Hic)). by eapply edge_parent_tags.
  - intros (ic & Hic & Hpt). rewrite (ok_parent_tags _ _ _ _ (Hok _ _ Hic)) in Hpt.
    assert (child ∈ all_tags (build_hierarchy_from_cards __init__ cards_by_tag)) as Hnode.
    { rewrite <-dom_calculate. apply elem_of_dom. by eexists. }
    apply node_prefix in Hnode as (key & k & Hkey & Hk & ->).
    rewrite parent_tags_prefix in Hpt by done.
    assert (take (k - 1) (_get_parent_tags_fast key) !! length (_get_parent_tags_fast tag)
            = Some tag) as Hl.
    { rewrite Hpt. by rewrite lookup_app_r, Nat.sub_diag. }
    pose proof (f_equal length Hpt) as Hlen.
    rewrite length_app, length_take, length_parent_tags in Hlen. simpl in Hlen.
    rewrite count_split in Hlen.
    apply lookup_take_Some in Hl as [Hl Hlt].
    apply lookup_parent_tags in Hl as [Hi Htag].
    apply build_spec. exists key. split; [done|].
    apply elem_of_path_edges. exists (length (_get_parent_tags_fast tag)).
    split; [lia|]. split; [done|]. do 2 f_equal. lia.
Qed.

Lemma children_parents_agree_witness :
  ∃ info,
    calculate_hierarchical_counts (build_hierarchy_from_cards __init__ Sample.cards_by_tag)
      !! "A" = Some info
    ∧ parent_tags info = _get_parent_tags_fast "A"
    ∧ NoDup (children_tags info)
    ∧ ∀ child,
        child ∈ children_tags info ↔
        ∃ info_c,
          calculate_hierarchical_counts
            (build_hierarchy_from_cards __init__ Sample.cards_by_tag) !! child = Some info_c
          ∧ parent_tags info_c = parent_tags info ++ ["A"].
Proof.
  eexists. split; [vm_compute; reflexivity|].
  apply (children_parents_agree Sample.cards_by_tag "A"). vm_compute. reflexivity.
Defined.

End ClosedForms.

(** ** The counter's indices, its guard and its statistics *)

Section CounterFacts.
Import HierarchicalTagCounter Forest CounterQueries.

Lemma add_card_fold_tags tag cards card_ids self :
  (∀ i t, t ∈ tags_of (foldl (add_card tag) (card_ids, self) cards).2 i ↔
          t ∈ tags_of self i ∨ (t = tag ∧ i ∈ kept_ids cards))
  ∧ dom (card_to_tags (foldl (add_card tag) (card_ids, self) cards).2)
    = dom (card_to_tags self) ∪ kept_ids cards.
Proof.
  revert card_ids self. induction cards as [|card cards IH]; intros card_ids self.
  - simpl. unfold kept_ids. simpl. split; [|set_solver]. intros i t. set_solver.
  - assert (kept_ids (card :: cards) =
            from_option singleton ∅ (kept_id card) ∪ kept_ids cards) as ->.
    { unfold kept_ids. simpl. destruct (kept_id card); simpl; set_solver. }
    simpl. unfold kept_id.
    destruct (id card) as [card_id|]; [destruct (Z.eqb card_id 0)|]; simpl.
    + destruct (IH card_ids self) as [IH1 IH2]. split; [|set_solver].
      intros i t. rewrite IH1. set_solver.
    + match goal with |- context [foldl _ (?ids, ?s) cards] =>
        destruct (IH ids s) as [IH1 IH2] end.
      split.
      * intros i t. rewrite IH1. unfold tags_of. simpl.
        destruct (decide (i = card_id)) as [->|Hne].
        -- rewrite lookup_insert_eq. simpl. set_solver.
        -- rewrite lookup_insert_ne by done. set_solver.
      * rewrite IH2. simpl. rewrite dom_insert_L. set_solver.
    + destruct (IH card_ids self) as [IH1 IH2]. split; [|set_solver].
      intros i t. rewrite IH1. set_solver.
Qed.

Lemma add_tag_tags self tag cards :
  (∀ i t, t ∈ tags_of (add_tag self (tag, cards)) i ↔
          t ∈ tags_of self i ∨ (t = tag ∧ i ∈ kept_ids cards))
  ∧ dom (card_to_tags (add_tag self (tag, cards))) = dom (card_to_tags self) ∪ kept_ids cards.
Proof.
  unfold add_tag. pose proof (add_card_fold_tags tag cards ∅ self) as Hfold.
  destruct (foldl (add_card tag) (∅, self) cards) as [card_ids self'].
  rewrite build_tag_hierarchy_edges.
  match goal with |- context [add_edges ?s ?l] =>
    destruct (add_edges_spec s l) as (_ & _ & _ & _ & Hc & _) end.
  unfold tags_of in *. rewrite Hc. exact Hfold.
Qed.

Lemma fold_add_tag_tags self (cbt : CardsByTag) :
  (∀ i t, t ∈ tags_of (foldl add_tag self cbt) i ↔
          t ∈ tags_of self i ∨ ∃ cards, (t, cards) ∈ cbt ∧ i ∈ kept_ids cards)
  ∧ dom (card_to_tags (foldl add_tag self cbt))
    = dom (card_to_tags self) ∪ ⋃ ((fun item => kept_ids item.2) <$> cbt).
Proof.
  induction cbt as [|[tag cards] cbt [IH1 IH2]] using rev_ind.
  - simpl. split; [|set_solver]. intros i t. set_solver.
  - rewrite foldl_snoc.
    destruct (add_tag_tags (foldl add_tag self cbt) tag cards) as [H1 H2]. split.
    + intros i t. rewrite H1, IH1. setoid_rewrite elem_of_app.
      setoid_rewrite list_elem_of_singleton. naive_solver.
    + rewrite H2, IH2, fmap_app, union_list_app_L. simpl. set_solver.
Qed.

Lemma built_tags_of (cbt : CardsByTag) i t :
  t ∈ tags_of (build_hierarchy_from_cards __init__ cbt) i ↔
  ∃ cards, (t, cards) ∈ cbt ∧ i ∈ kept_ids cards.
Proof.
  unfold build_hierarchy_from_cards. simpl.
  destruct (fold_add_tag_tags __init__ cbt) as [H1 _].
  unfold tags_of in *. simpl. rewrite H1.
  change (card_to_tags __init__) with (∅ : gmap Z (gset string)).
  rewrite lookup_empty. set_solver.
Qed.

(** X5. The two indices of the counter mirror each other: after the
    build, a tag is recorded for a card identifier exactly when the
    identifier is in the tag's direct set, and the identifiers with a
    recorded tag are the global unique-card set. *)
Theorem card_to_tags_mirrors_tag_to_cards (cards_by_tag : CardsByTag) (i : Z) (tag : string) :
  NoDup (dict_keys cards_by_tag) →
  (tag ∈ tags_of (build_hierarchy_from_cards __init__ cards_by_tag) i ↔
   i ∈ direct_of (build_hierarchy_from_cards __init__ cards_by_tag) tag)
  ∧ (is_Some (card_to_tags (build_hierarchy_from_cards __init__ cards_by_tag) !! i) ↔
     i ∈ unique_card_ids (build_hierarchy_from_cards __init__ cards_by_tag)).
Proof.
  intros Hnd. split.
  - rewrite built_tags_of, built_direct_elem by done.
    setoid_rewrite kept_ids_elem. naive_solver.
  - rewrite <-elem_of_dom. unfold build_hierarchy_from_cards. simpl.
    destruct (fold_add_tag_tags __init__ cards_by_tag) as [_ ->].
    destruct (fold_add_tag_spec __init__ cards_by_tag) as (_ & _ & _ & -> & _).
    change (card_to_tags __init__) with (∅ : gmap Z (gset string)).
    change (unique_card_ids __init__) with (∅ : gset Z). set_solver.
Qed.

Lemma card_to_tags_mirrors_tag_to_cards_witness :
  NoDup (dict_keys Sample.cards_by_tag)
  ∧ ("A::B" ∈ tags_of (build_hierarchy_from_cards __init__ Sample.cards_by_tag) 2 ↔
     2 ∈ direct_of (build_hierarchy_from_cards __init__ Sample.cards_by_tag) "A::B").
Proof.
  assert (NoDup (dict_keys Sample.cards_by_tag)) as Hnd
    by (apply (bool_decide_unpack _); vm_compute; reflexivity).
  split; [exact Hnd|].
  exact (proj1 (card_to_tags_mirrors_tag_to_cards Sample.cards_by_tag 2 "A::B" Hnd)).
Defined.

(** X6. The global unique-card set is the union of the direct sets, and
    also the union of the rolled-up sets: every unique card is counted by
    some node, and no node counts a card outside the set. *)
Theorem unique_cards_cover (cards_by_tag : CardsByTag) (i : Z) :
  NoDup (dict_keys cards_by_tag) →
  (i ∈ unique_card_ids (build_hierarchy_from_cards __init__ cards_by_tag) ↔
   ∃ tag, i ∈ direct_of (build_hierarchy_from_cards __init__ cards_by_tag) tag)
  ∧ (i ∈ unique_card_ids (build_hierarchy_from_cards __init__ cards_by_tag) ↔
     ∃ tag info,
       calculate_hierarchical_counts
         (build_hierarchy_from_cards __init__ cards_by_tag) !! tag = Some info
       ∧ i ∈ all_unique_cards info).
Proof.
  intros Hnd.
  assert (i ∈ unique_card_ids (build_hierarchy_from_cards __init__ cards_by_tag) ↔
          ∃ tag, i ∈ direct_of (build_hierarchy_from_cards __init__ cards_by_tag) tag) as Hd.
  { rewrite built_unique_ids. setoid_rewrite built_direct_elem; [|done]. naive_solver. }
  split; [done|]. split.
  - intros [tag Hi]%Hd.
    pose proof (calculate_ok cards_by_tag) as Hok. simpl in Hok.
    assert (is_Some (calculate_hierarchical_counts
                       (build_hierarchy_from_cards __init__ cards_by_tag) !! tag))
      as [info Hinfo].
    { apply elem_of_dom. rewrite dom_calculate. unfold all_tags. apply elem_of_union_l.
      apply elem_of_dom. unfold direct_of in Hi.
      destruct (tag_to_cards _ !! tag); [by eexists|]. simpl in Hi. set_solver. }
    exists tag, info. split; [done|].
    eapply direct_subset; [apply Hok|done|].
    by rewrite (ok_direct _ _ _ _ (Hok _ _ Hinfo)).
  - intros (tag & info & Hinfo & Hi). by eapply rolled_up_within_unique.
Qed.

Lemma unique_cards_cover_witness :
  NoDup (dict_keys Sample.cards_by_tag)
  ∧ (3 ∈ unique_card_ids (build_hierarchy_from_cards __init__ Sample.cards_by_tag) ↔
     ∃ tag, 3 ∈ direct_of (build_hierarchy_from_cards __init__ Sample.cards_by_tag) tag).
Proof.
  assert (NoDup (dict_keys Sample.cards_by_tag)) as Hnd
    by (apply (bool_decide_unpack _); vm_compute; reflexivity).
  split; [exact Hnd|]. exact (proj1 (unique_cards_cover Sample.cards_by_tag 3 Hnd)).
Defined.

(** X7. Once built, the counter ignores further input: a second
    [build_hierarchy_from_cards] leaves it as it is, whatever it is given,
    until [reset], after which a build starts from a fresh counter. *)
Theorem build_only_once (self : t) (first second : CardsByTag) :
  build_hierarchy_from_cards (build_hierarchy_from_cards self first) second
    = build_hierarchy_from_cards self first
  ∧ calculate_hierarchical_counts
      (build_hierarchy_from_cards (build_hierarchy_from_cards self first) second)
    = calculate_hierarchical_counts (build_hierarchy_from_cards self first)
  ∧ build_hierarchy_from_cards (reset (build_hierarchy_from_cards self first)) second
    = build_hierarchy_from_cards __init__ second.
Proof.
  assert (build_hierarchy_from_cards (build_hierarchy_from_cards self first) second
          = build_hierarchy_from_cards self first) as Hsame.
  { unfold build_hierarchy_from_cards at 1.
    assert (_hierarchy_built (build_hierarchy_from_cards self first) = true) as ->; [|done].
    unfold build_hierarchy_from_cards. by destruct (_hierarchy_built self) eqn:Hb. }
  split_and!; [done|by rewrite Hsame|done].
Qed.

Lemma max_fold_spec (l : list string) (m : Z) :
  let r := foldl (fun m tag => Z.max m (Z.of_nat (PyStr.count tag))) m l in
  m ≤ r
  ∧ (∀ k, k ∈ l → Z.of_nat (PyStr.count k) ≤ r)
  ∧ (r = m ∨ ∃ k, k ∈ l ∧ r = Z.of_nat (PyStr.count k)).
Proof.
  revert m. induction l as [|x l IH]; intros m; simpl.
  - split_and!; [lia| |by left]. intros k Hk. by apply not_elem_of_nil in Hk.
  - destruct (IH (Z.max m (Z.of_nat (PyStr.count x)))) as (Hge & Hall & Hatt).
    split_and!; [lia| |].
    + intros k [->|Hk]%elem_of_cons; [lia|by apply Hall].
    + destruct Hatt as [Hr|(k & Hk & Hr)].
      * destruct (Z.max_spec m (Z.of_nat (PyStr.count x))) as [[_ Hm]|[_ Hm]].
        -- right. exists x. split; [left|congruence].
        -- left. congruence.
      * right. exists k. split; [by right|done].
Qed.

Lemma max_count_ge keys k : k ∈ keys → Z.of_nat (PyStr.count k) ≤ max_count keys.
Proof.
  destruct keys as [|key keys]; [by intros ?%not_elem_of_nil|].
  unfold max_count.
  destruct (max_fold_spec keys (Z.of_nat (PyStr.count key))) as (Hge & Hall & _).
  intros [->|Hk]%elem_of_cons; [done|by apply Hall].
Qed.

Lemma max_count_attained keys :
  keys ≠ [] → ∃ k, k ∈ keys ∧ max_count keys = Z.of_nat (PyStr.count k).
Proof.
  destruct keys as [|key keys]; [done|]. intros _. unfold max_count.
  destruct (max_fold_spec keys (Z.of_nat (PyStr.count key))) as (_ & _ & [Hr|(k & Hk & Hr)]).
  - exists key. split; [left|done].
  - exists k. split; [by right|done].
Qed.

Lemma parent_tag_shallower tag p :
  p ∈ _get_parent_tags_fast tag → (PyStr.count p < PyStr.count tag)%nat.
Proof.
  intros (i & Hi)%list_elem_of_lookup.
  pose proof (lookup_lt_Some _ _ _ Hi) as Hlt. rewrite length_parent_tags in Hlt.
  apply lookup_parent_tags in Hi as [Hi ->]. rewrite count_join_take by lia. lia.
Qed.

(** X8. [get_tag_statistics] on a built counter: [total_tags] is the
    number of input tags; [max_depth], though computed from the input tags
    only, bounds the depth of every node of [hierarchical_data], is attained
    by an input tag, and is 0 for an empty input; the number of nodes lies
    between each of [total_tags], [hierarchical_tags] and their sum. *)
Theorem tag_statistics_summary (cards_by_tag : CardsByTag) :
  NoDup (dict_keys cards_by_tag) →
  total_tags (get_tag_statistics (build_hierarchy_from_cards __init__ cards_by_tag))
    = len (dict_keys cards_by_tag)
  ∧ (∀ tag,
       is_Some (hierarchical_data
                  (get_tag_statistics (build_hierarchy_from_cards __init__ cards_by_tag))
                !! tag) →
       Z.of_nat (PyStr.count tag)
       ≤ max_depth (get_tag_statistics (build_hierarchy_from_cards __init__ cards_by_tag)))
  ∧ (cards_by_tag ≠ [] →
     ∃ key, key ∈ dict_keys cards_by_tag
            ∧ max_depth (get_tag_statistics (build_hierarchy_from_cards __init__ cards_by_tag))
              = Z.of_nat (PyStr.count key))
  ∧ (cards_by_tag = [] →
     max_depth (get_tag_statistics (build_hierarchy_from_cards __init__ cards_by_tag)) = 0)
  ∧ total_tags (get_tag_statistics (build_hierarchy_from_cards __init__ cards_by_tag))
    ≤ Z.of_nat (size (hierarchical_data
                       (get_tag_statistics (build_hierarchy_from_cards __init__ cards_by_tag))))
  ∧ hierarchical_tags (get_tag_statistics (build_hierarchy_from_cards __init__ cards_by_tag))
    ≤ Z.of_nat (size (hierarchical_data
                       (get_tag_statistics (build_hierarchy_from_cards __init__ cards_by_tag))))
  ∧ Z.of_nat (size (hierarchical_data
                      (get_tag_statistics (build_hierarchy_from_cards __init__ cards_by_tag))))
    ≤ total_tags (get_tag_statistics (build_hierarchy_from_cards __init__ cards_by_tag))
      + hierarchical_tags
          (get_tag_statistics (build_hierarchy_from_cards __init__ cards_by_tag)).
Proof.
  intros Hnd. set (self := build_hierarchy_from_cards __init__ cards_by_tag).
  unfold get_tag_statistics.
  cbn [total_tags hierarchical_tags max_depth hierarchical_data].
  destruct (build_spec cards_by_tag) as (_ & _ & Hdom & _). fold self in Hdom.
  assert (∀ k, k ∈ elements (dom (tag_to_cards self)) ↔ k ∈ dict_keys cards_by_tag) as Hkeys.
  { intros k. by rewrite elem_of_elements, Hdom, elem_of_list_to_set. }
  assert (size (calculate_hierarchical_counts self)
          = size (dom (tag_to_cards self) ∪ dom (tag_hierarchy self))) as Hsize.
  { rewrite <-size_dom. unfold self. by rewrite dom_calculate. }
  unfold len_dict. rewrite Hsize, <-!size_dom. split_and!.
  - rewrite Hdom, size_list_to_set by done. done.
  - intros tag Hnode. apply elem_of_dom in Hnode. unfold self in Hnode.
    rewrite dom_calculate in Hnode.
    apply node_key_or_ancestor in Hnode as [Hkey|(key & Hkey & Hanc)].
    + apply max_count_ge. by apply Hkeys.
    + apply parent_tag_shallower in Hanc.
      pose proof (max_count_ge (elements (dom (tag_to_cards self))) key) as Hge.
      rewrite Hkeys in Hge. specialize (Hge Hkey). lia.
  - intros Hne. destruct (max_count_attained (elements (dom (tag_to_cards self))))
      as (k & Hk & Hmax).
    + destruct cards_by_tag as [|[key cards] rest]; [done|].
      intros Hnil. assert (key ∈ elements (dom (tag_to_cards self))) as Hin.
      { apply Hkeys. left. }
      rewrite Hnil in Hin. by apply not_elem_of_nil in Hin.
    + exists k. split; [by apply Hkeys|done].
  - intros ->. reflexivity.
  - apply inj_le, subseteq_size. set_solver.
  - apply inj_le, subseteq_size. set_solver.
  - rewrite size_union_alt.
    assert (size (dom (tag_hierarchy self) ∖ dom (tag_to_cards self))
            ≤ size (dom (tag_hierarchy self)))%nat by (apply subseteq_size; set_solver).
    lia.
Qed.

Lemma tag_statistics_summary_witness :
  NoDup (dict_keys Sample.cards_by_tag)
  ∧ total_tags (get_tag_statistics (build_hierarchy_from_cards __init__ Sample.cards_by_tag))
    = len (dict_keys Sample.cards_by_tag)
  ∧ max_depth (get_tag_statistics (build_hierarchy_from_cards __init__ Sample.cards_by_tag))
    = 2.
Proof.
  assert (NoDup (dict_keys Sample.cards_by_tag)) as Hnd
    by (apply (bool_decide_unpack _); vm_compute; reflexivity).
  split; [exact Hnd|].
  split; [exact (proj1 (tag_statistics_summary Sample.cards_by_tag Hnd))|].
  vm_compute. reflexivity.
Defined.

End CounterFacts.

(** ** Filtering cards by tag *)

Section FilterFacts.
Import BaseExportService ExportFilter.

Lemma any_pattern_in_spec patterns tag :
  any_pattern_in patterns tag = true ↔
  ∃ pattern, pattern ∈ patterns ∧ YieldSpec.substring pattern tag.
Proof.
  unfold any_pattern_in. rewrite existsb_exists.
  setoid_rewrite contains_spec. by setoid_rewrite list_elem_of_In.
Qed.

Lemma matches_criteria_spec tag criteria :
  _matches_criteria_fast tag criteria = true ↔ admitted criteria tag.
Proof.
  unfold _matches_criteria_fast, admitted.
  destruct criteria as [inc exc]. simpl.
  assert (match exc with [] => false | _ => any_pattern_in exc tag end
          = any_pattern_in exc tag) as -> by (by destruct exc).
  destruct (any_pattern_in exc tag) eqn:Hexc.
  - split; [done|]. intros [Hno _]. apply any_pattern_in_spec in Hexc as (p & ? & ?).
    by destruct (Hno p).
  - assert (∀ pattern, pattern ∈ exc → ¬ YieldSpec.substring pattern tag) as Hno.
    { intros p Hp Hs. assert (any_pattern_in exc tag = true); [|congruence].
      apply any_pattern_in_spec. by exists p. }
    destruct inc as [|p0 inc]; [by split; [split; [|left]|]|].
    destruct (any_pattern_in (p0 :: inc) tag) eqn:Hinc; simpl.
    + split; [|done]. intros _. split; [done|right]. by apply any_pattern_in_spec.
    + split; [done|]. intros [_ [?|Hex]]; [done|].
      apply any_pattern_in_spec in Hex. congruence.
Qed.

Lemma dict_append_keys (d : CardsByTag) tag card :
  dict_keys (dict_append d tag card)
  = (if decide (tag ∈ dict_keys d) then dict_keys d else dict_keys d ++ [tag]).
Proof.
  unfold dict_keys. induction d as [|[k0 v0] d IH].
  - by rewrite decide_False by apply not_elem_of_nil.
  - cbn [dict_append]. destruct (String.eqb_spec k0 tag) as [->|Hne].
    + by rewrite decide_True by left.
    + rewrite !fmap_cons, IH. cbn [fst]. case_decide as Hin.
      * by rewrite decide_True by (by right).
      * rewrite decide_False; [done|]. rewrite not_elem_of_cons. done.
Qed.

Lemma dict_append_get (d : CardsByTag) tag card k :
  dict_get (dict_append d tag card) k []
  = if decide (k = tag) then dict_get d k [] ++ [card] else dict_get d k [].
Proof.
  induction d as [|[k0 v0] d IH]; cbn [dict_append dict_get].
  - destruct (String.eqb_spec tag k) as [->|Hne].
    + by rewrite decide_True.
    + by rewrite decide_False by done.
  - destruct (String.eqb_spec k0 tag) as [->|Hne]; cbn [dict_get].
    + destruct (String.eqb_spec tag k) as [->|Hk].
      * by rewrite decide_True.
      * by rewrite decide_False by done.
    + destruct (String.eqb_spec k0 k) as [->|Hk]; [|apply IH].
      by rewrite decide_False by done.
Qed.

Lemma dict_append_spec (d : CardsByTag) tag card :
  dict_keys (dict_append d tag card)
    = (if decide (tag ∈ dict_keys d) then dict_keys d else dict_keys d ++ [tag])
  ∧ ∀ k, dict_get (dict_append d tag card) k []
         = if decide (k = tag) then dict_get d k [] ++ [card] else dict_get d k [].
Proof. split; [apply dict_append_keys|intros k; apply dict_append_get]. Qed.

Lemma dict_append_NoDup (d : CardsByTag) tag card :
  NoDup (dict_keys d) → NoDup (dict_keys (dict_append d tag card)).
Proof.
  intros Hnd. destruct (dict_append_spec d tag card) as [-> _].
  case_decide; [done|]. apply NoDup_app. split_and!; [done| |apply NoDup_singleton].
  intros x Hx ->%list_elem_of_singleton. done.
Qed.

Lemma carriers_cons tag card cards :
  carriers tag (card :: cards)
  = ((fun _ => card) <$> filter (fun t => t = tag) (tags card)) ++ carriers tag cards.
Proof. reflexivity. Qed.

Lemma carriers_app tag cards1 cards2 :
  carriers tag (cards1 ++ cards2) = carriers tag cards1 ++ carriers tag cards2.
Proof. unfold carriers. by rewrite fmap_app, concat_app. Qed.

(** The inner loop appends the card once for each admitted occurrence of a
    tag in its tag list. *)
Lemma add_tags_fold criteria card (ts : list string) (d : CardsByTag) :
  NoDup (dict_keys d) →
  let d' := foldl (fun d tag => if _matches_criteria_fast tag criteria
                                then dict_append d tag card else d) d ts in
  NoDup (dict_keys d')
  ∧ (∀ k, k ∈ dict_keys d' ↔
          k ∈ dict_keys d ∨ (k ∈ ts ∧ _matches_criteria_fast k criteria = true))
  ∧ ∀ k, dict_get d' k []
         = dict_get d k []
           ++ if _matches_criteria_fast k criteria
              then (fun _ => card) <$> filter (fun t => t = k) ts else [].
Proof.
  revert d. induction ts as [|t ts IH]; intros d Hnd; simpl.
  - split_and!; [done| |].
    + intros k. rewrite elem_of_nil. tauto.
    + intros k. by destruct (_matches_criteria_fast k criteria); rewrite app_nil_r.
  - destruct (_matches_criteria_fast t criteria) eqn:Ht.
    + destruct (IH (dict_append d t card)) as (Hnd' & Hk' & Hg');
        [by apply dict_append_NoDup|].
      destruct (dict_append_spec d t card) as [Hak Hag].
      split_and!; [done| |].
      * intros k. rewrite Hk', Hak, elem_of_cons.
        case_decide as Hin; [|rewrite elem_of_app, list_elem_of_singleton].
        -- split; [intros [?|[? ?]]; auto|].
           intros [?|[[->|?] ?]]; auto.
        -- split; [intros [[?| ->]|[? ?]]; auto|].
           intros [?|[[->|?] ?]]; auto.
      * intros k. rewrite Hg', Hag, filter_cons.
        destruct (decide (k = t)) as [->|Hne].
        -- rewrite Ht, decide_True by done. by rewrite <-app_assoc.
        -- rewrite decide_False by done. done.
    + destruct (IH d Hnd) as (Hnd' & Hk' & Hg'). split_and!; [done| |].
      * intros k. rewrite Hk', elem_of_cons.
        split; [intros [?|[? ?]]; auto|].
        intros [?|[[->|?] ?]]; [auto|congruence|auto].
      * intros k. rewrite Hg', filter_cons.
        destruct (decide (t = k)) as [->|Hne]; [by rewrite Ht|done].
Qed.

Lemma filter_fold criteria (cards : list Card) :
  NoDup (dict_keys (foldl (add_card_tags criteria) [] cards))
  ∧ (∀ k, k ∈ dict_keys (foldl (add_card_tags criteria) [] cards) ↔
          _matches_criteria_fast k criteria = true
          ∧ ∃ card, card ∈ cards ∧ k ∈ tags card)
  ∧ ∀ k, dict_get (foldl (add_card_tags criteria) [] cards) k []
         = if _matches_criteria_fast k criteria then carriers k cards else [].
Proof.
  induction cards as [|card cards (IHn & IHk & IHg)] using rev_ind.
  - simpl. split_and!; [apply NoDup_nil_2| |].
    + intros k. unfold dict_keys. simpl. rewrite elem_of_nil.
      split; [done|]. intros [_ (? & []%not_elem_of_nil & _)].
    + intros k. by destruct (_matches_criteria_fast k criteria).
  - rewrite foldl_snoc. unfold add_card_tags at 1 3 5.
    destruct (add_tags_fold criteria card (tags card)
                (foldl (add_card_tags criteria) [] cards) IHn) as (Hn & Hk & Hg).
    split_and!; [done| |].
    + intros k. rewrite Hk, IHk. setoid_rewrite elem_of_app.
      setoid_rewrite list_elem_of_singleton. naive_solver.
    + intros k. rewrite Hg, IHg, carriers_app.
      rewrite (carriers_cons k card []). unfold carriers at 3. simpl concat.
      rewrite app_nil_r. by destruct (_matches_criteria_fast k criteria).
Qed.

Lemma elem_of_carriers tag cards card :
  card ∈ carriers tag cards ↔ card ∈ cards ∧ tag ∈ tags card.
Proof.
  induction cards as [|c cards IH].
  - unfold carriers. simpl. rewrite !elem_of_nil. tauto.
  - rewrite carriers_cons, elem_of_app, IH, elem_of_cons, list_elem_of_fmap.
    setoid_rewrite list_elem_of_filter. split.
    + intros [(t & -> & -> & Ht)|[? ?]]; auto.
    + intros [[->|?] Ht]; [left; by exists tag|by right].
Qed.

Lemma filter_cards_facts (self : BaseExportService.t) (criteria : Criteria)
    (tag : string) :
  NoDup (dict_keys (_filter_cards_by_tag_fast self criteria))
  ∧ (tag ∈ dict_keys (_filter_cards_by_tag_fast self criteria) ↔
     admitted criteria tag ∧ ∃ card, card ∈ card_values self ∧ tag ∈ tags card)
  ∧ dict_get (_filter_cards_by_tag_fast self criteria) tag []
    = (if _matches_criteria_fast tag criteria then carriers tag (card_values self) else [])
  ∧ (∀ card, card ∈ dict_get (_filter_cards_by_tag_fast self criteria) tag [] ↔
             admitted criteria tag ∧ card ∈ card_values self ∧ tag ∈ tags card)
  ∧ (tag ∈ dict_keys (_filter_cards_by_tag_fast self criteria) ↔
     dict_get (_filter_cards_by_tag_fast self criteria) tag [] ≠ []).
Proof.
  unfold _filter_cards_by_tag_fast.
  destruct (filter_fold criteria (card_values self)) as (Hn & Hk & Hg).
  assert (∀ card, card ∈ dict_get (foldl (add_card_tags criteria) [] (card_values self)) tag []
                  ↔ admitted criteria tag ∧ card ∈ card_values self ∧ tag ∈ tags card)
    as Hmem.
  { intros card. rewrite Hg, <-matches_criteria_spec.
    destruct (_matches_criteria_fast tag criteria).
    - rewrite elem_of_carriers. tauto.
    - rewrite elem_of_nil. split; [done|]. by intros [? _]. }
  split_and!; [done| |apply Hg|done|].
  - by rewrite Hk, matches_criteria_spec.
  - rewrite Hk. split.
    + intros [Hm (card & Hc & Ht)] Hnil.
      assert (card ∈ dict_get (foldl (add_card_tags criteria) [] (card_values self)) tag [])
        as Hin by (apply Hmem; by rewrite <-matches_criteria_spec).
      rewrite Hnil in Hin. by apply not_elem_of_nil in Hin.
    + intros Hne.
      destruct (dict_get (foldl (add_card_tags criteria) [] (card_values self)) tag [])
        as [|card l] eqn:Hd; [done|].
      assert (card ∈ card :: l) as Hin by left.
      apply Hmem in Hin as (Hm & Hc & Ht). split; [by apply matches_criteria_spec|].
      by exists card.
Qed.

(** X9. [_filter_cards_by_tag_fast] returns a dict (each tag once) whose
    keys are the tags carried by some card and admitted by the criteria (no
    exclude pattern occurs in the tag and, if there are include patterns,
    one does); under each key it lists the cards carrying the tag, never an
    empty list; a tag containing an exclude pattern is never a key. *)
Theorem filter_cards_by_tag_spec (self : BaseExportService.t) (criteria : Criteria)
    (tag : string) :
  NoDup (dict_keys (_filter_cards_by_tag_fast self criteria))
  ∧ (tag ∈ dict_keys (_filter_cards_by_tag_fast self criteria) ↔
     admitted criteria tag ∧ ∃ card, card ∈ card_values self ∧ tag ∈ tags card)
  ∧ dict_get (_filter_cards_by_tag_fast self criteria) tag []
    = (if _matches_criteria_fast tag criteria then carriers tag (card_values self) else [])
  ∧ (∀ card, card ∈ dict_get (_filter_cards_by_tag_fast self criteria) tag [] ↔
             admitted criteria tag ∧ card ∈ card_values self ∧ tag ∈ tags card)
  ∧ (tag ∈ dict_keys (_filter_cards_by_tag_fast self criteria) ↔
     dict_get (_filter_cards_by_tag_fast self criteria) tag [] ≠ []).
Proof. apply filter_cards_facts. Qed.

End FilterFacts.

(** ** The export on a well-formed card store *)

Section StoreFacts.
Import HierarchicalTagCounter Forest BaseExportService ExportFilter.

Lemma elem_of_card_values self card :
  card ∈ card_values self ↔ ∃ i, cards_by_id self !! i = Some card.
Proof.
  unfold card_values. rewrite list_elem_of_fmap. split.
  - intros ([i c] & -> & Hin). exists i. by apply elem_of_map_to_list.
  - intros [i Hi]. exists (i, card). split; [done|]. by apply elem_of_map_to_list.
Qed.

Lemma store_kept_id self i card :
  store_ok self → cards_by_id self !! i = Some card → kept_id card = Some i.
Proof.
  intros Hok Hi. destruct (Hok i card Hi) as [Hid Hnz].
  unfold kept_id. rewrite Hid. by destruct (Z.eqb_spec i 0).
Qed.

(** The record computed for a tag, field by field. *)
Lemma tag_record_inv self tag cards hi r :
  tag_record self tag cards hi = Some r →
  ∃ ys yt yn yr tl ae ai un rd,
    yield_counts self tag cards hi = (ys, yt, yn, yr)
    ∧ averages self cards hi = Some (tl, ae, ai, un)
    ∧ review_data_of self cards hi = Some rd
    ∧ r = mkRec tag (service_name self) (len cards) un
            (count_if is_due (metric_cards self cards hi))
            (count_if is_new (metric_cards self cards hi))
            (count_if is_learning (metric_cards self cards hi))
            (count_if is_review (metric_cards self cards hi))
            (count_if is_mature (metric_cards self cards hi))
            (count_if suspended (metric_cards self cards hi))
            (unstudied_count self cards hi)
            yt yn yr ((fun level => ys !!! level) <$> levels)
            (from_option HTC.hierarchical_count (len cards) hi)
            (from_option HTC.children_count 0 hi)
            (from_option HTC.children_tags [] hi)
            (from_option HTC.parent_tags [] hi)
            ae ai tl rd
            (if Z.ltb 0 (len cards) then card_detail <$> filter is_new cards else [])
            "hierarchical_microservice".
Proof.
  unfold tag_record.
  destruct (yield_counts self tag cards hi) as [[[ys yt] yn] yr].
  destruct (averages self cards hi) as [[[[tl ae] ai] un]|]; [|done].
  destruct (review_data_of self cards hi) as [rd|]; [|done].
  simpl. intros [= <-]. by exists ys, yt, yn, yr, tl, ae, ai, un, rd.
Qed.

Lemma rolled_up_of_store self criteria tag info i :
  store_ok self →
  calculate_hierarchical_counts
    (build_hierarchy_from_cards __init__ (_filter_cards_by_tag_fast self criteria)) !! tag
    = Some info →
  i ∈ all_unique_cards info ↔
  ∃ card t, cards_by_id self !! i = Some card ∧ t ∈ tags card ∧ admitted criteria t
            ∧ (t = tag ∨ tag ∈ _get_parent_tags_fast t).
Proof.
  intros Hstore Hinfo.
  pose proof (filter_cards_facts self criteria) as Hf.
  rewrite (rolled_up_sources _ _ _ _ (proj1 (Hf tag)) Hinfo). split.
  - intros (key & cards & card & Hin & Hc & Hk & Hrel).
    destruct (Hf key) as (Hnd & _ & _ & Hmem & _).
    rewrite <-(dict_get_NoDup _ key cards []) in Hc by done.
    apply Hmem in Hc as (Hadm & [j Hj]%elem_of_card_values & Ht).
    rewrite (store_kept_id _ _ _ Hstore Hj) in Hk. injection Hk as ->.
    by exists card, key.
  - intros (card & t & Hi & Ht & Hadm & Hrel).
    destruct (Hf t) as (Hnd & _ & _ & Hmem & _).
    assert (card ∈ dict_get (_filter_cards_by_tag_fast self criteria) t []) as Hc.
    { apply Hmem. split_and!; [done| |done]. apply elem_of_card_values. by exists i. }
    exists t, (dict_get (_filter_cards_by_tag_fast self criteria) t []), card.
    split_and!; [|done|by eapply store_kept_id|done].
    destruct (dict_get_elem_of (_filter_cards_by_tag_fast self criteria) t [])
      as [[Hnil _]|?]; [|done].
    rewrite Hnil in Hc. by apply not_elem_of_nil in Hc.
Qed.

(** X10. On a store whose cards are keyed by their own non-zero
    identifiers, the filtered export gives every card to the rolled-up set
    of each of its admitted tags and of all their ancestors, and to no
    other node. *)
Theorem card_in_own_tags_and_ancestors (self : BaseExportService.t) (criteria : Criteria)
    (tag : string) (info : TagInfo) (i : Z) :
  store_ok self →
  calculate_hierarchical_counts
    (build_hierarchy_from_cards __init__ (_filter_cards_by_tag_fast self criteria)) !! tag
    = Some info →
  i ∈ all_unique_cards info ↔
  ∃ card t, cards_by_id self !! i = Some card ∧ t ∈ tags card ∧ admitted criteria t
            ∧ (t = tag ∨ tag ∈ _get_parent_tags_fast t).
Proof. apply rolled_up_of_store. Qed.

Lemma sample_store_ok : store_ok Sample.service.
Proof.
  unfold store_ok.
  change (map_Forall (fun i card => id card = Some i ∧ i ≠ 0) (cards_by_id Sample.service)).
  apply (bool_decide_unpack _). vm_compute. reflexivity.
Defined.

Lemma card_in_own_tags_and_ancestors_witness :
  store_ok Sample.service
  ∧ ∃ info,
      calculate_hierarchical_counts
        (build_hierarchy_from_cards __init__
           (_filter_cards_by_tag_fast Sample.service all_tags_criteria)) !! "A" = Some info
      ∧ (3 ∈ all_unique_cards info ↔
         ∃ card t, cards_by_id Sample.service !! 3 = Some card ∧ t ∈ tags card
                   ∧ admitted all_tags_criteria t
                   ∧ (t = "A" ∨ "A" ∈ _get_parent_tags_fast t)).
Proof.
  split; [exact sample_store_ok|]. eexists. split; [vm_compute; reflexivity|].
  apply (card_in_own_tags_and_ancestors Sample.service all_tags_criteria "A" _ 3
           sample_store_ok).
  vm_compute. reflexivity.
Defined.

End StoreFacts.

(** ** The unified exporter end to end *)

Section UnifiedFacts.
Import Sink TagData ExportFilter ExportServiceFactory UnifiedCardExporter.



(** The run of the exporter once its output file opens. *)
Lemma unified_export_opened self w fs fs1 :
  gzip_open fs (path_join (exports_dir self) (unified_filename w)) = Some fs1 →
  ∃ all_unique_cards,
    count_unique_cards ∅
      (_get_hierarchical_export_data w (instantiate AllTagsExportService) "AllTags")
    = Some all_unique_cards
    ∧ _create_direct_unified_export self w fs
      = (mkResult (path_join (exports_dir self) (unified_filename w))
           (len (_get_hierarchical_export_data w (instantiate AllTagsExportService)
                   "AllTags"))
           (HTC.len_set all_unique_cards) 0 true,
         foldl (fun fs item =>
                  write fs (path_join (exports_dir self) (unified_filename w)) item)
               fs1
               (_get_hierarchical_export_data w (instantiate AllTagsExportService)
                  "AllTags")).
Proof.
  intros Hopen. unfold _create_direct_unified_export.
  change (create_service "all_tags") with (Returned (instantiate AllTagsExportService)).
  cbv beta iota zeta.
  destruct (hierarchical_export_data_ok w (instantiate AllTagsExportService) "AllTags")
    as [Hser Hcount].
  destruct (Hcount ∅) as [all_unique_cards Hunique]. exists all_unique_cards.
  split; [done|]. rewrite Hunique, Hopen. by rewrite write_all_complete.
Qed.


(** The records of a run whose loader succeeds are those of the export
    steps of the all-tags service. *)
Lemma hierarchical_export_data_loaded w cards_by_id revlog_by_card :
  collection w = Returned (cards_by_id, revlog_by_card) →
  ∃ records,
    export_steps (BaseExportService.mk cards_by_id revlog_by_card "All Tags Export")
      all_tags_criteria = Some records
    ∧ _get_hierarchical_export_data w (instantiate AllTagsExportService) "AllTags"
      = imap (fun i r => unified_record (utcnow w i) "AllTags" r) records.
Proof.
  intros Hcol.
  unfold _get_hierarchical_export_data, _load_all_data_optimized, export_steps,
    BaseExportService.export_pipeline.
  rewrite Hcol. cbn [instantiate class state tag_counter get_service_name
                     get_filter_criteria AllTagsExportService BaseExportService.service_name].
  destruct (create_export_data_total
              (BaseExportService.mk cards_by_id revlog_by_card "All Tags Export")
              (_filter_cards_by_tag_fast
                 (BaseExportService.mk cards_by_id revlog_by_card "All Tags Export")
                 all_tags_criteria)
              (HierarchicalTagCounter.calculate_hierarchical_counts
                 (HierarchicalTagCounter.build_hierarchy_from_cards
                    HierarchicalTagCounter.__init__
                    (_filter_cards_by_tag_fast
                       (BaseExportService.mk cards_by_id revlog_by_card "All Tags Export")
                       all_tags_criteria))))
    as (records & Hrecords & _).
  exists records. split; [exact Hrecords|].
  rewrite Hrecords. by destruct (Z.ltb 0 _).
Qed.





(** *** What [unique_cards] counts *)

Lemma hash_card_ids (l : list BaseExportService.CardDetail) :
  mapM hash_key ((fun d => optional_int (BaseExportService.cd_card_id d)) <$> l)
  = Some ((fun d => from_option KInt KNone (BaseExportService.cd_card_id d)) <$> l).
Proof.
  apply mapM_Some. induction l as [|d l IH]; simpl; constructor; [|done].
  by destruct (BaseExportService.cd_card_id d).
Qed.

Lemma add_record_cards_unified timestamp step_name r all_unique_cards :
  add_record_cards all_unique_cards (unified_record timestamp step_name r)
  = Some (all_unique_cards
          ∪ list_to_set ((fun d => from_option KInt KNone (BaseExportService.cd_card_id d))
                         <$> BaseExportService.unstudied_card_details r)).
Proof.
  unfold add_record_cards, detail_ids.
  change (dict_find (unified_record timestamp step_name r) "unstudied_card_details")
    with (Some (VList (card_detail_dict <$> BaseExportService.unstudied_card_details r))).
  change (dict_find (unified_record timestamp step_name r) "all_card_details")
    with (@None PyVal).
  cbn [iterate mbind option_bind]. rewrite card_ids_of_details. cbn [mbind option_bind].
  rewrite app_nil_r, hash_card_ids. reflexivity.
Qed.

Lemma count_unique_cards_unified (timestamps : nat → string) step_name
    (records : list BaseExportService.ExportRecord) all_unique_cards :
  ∃ final,
    count_unique_cards all_unique_cards
      (imap (fun i r => unified_record (timestamps i) step_name r) records) = Some final
    ∧ ∀ k, k ∈ final ↔
           k ∈ all_unique_cards
           ∨ ∃ r d, r ∈ records ∧ d ∈ BaseExportService.unstudied_card_details r
                    ∧ k = from_option KInt KNone (BaseExportService.cd_card_id d).
Proof.
  revert timestamps all_unique_cards.
  induction records as [|r records IH]; intros timestamps acc.
  - exists acc. split; [done|]. intros k. split; [by left|].
    intros [?|(r & d & Hr & _)]; [done|]. by apply elem_of_nil in Hr.
  - rewrite imap_cons. cbn [count_unique_cards]. rewrite add_record_cards_unified.
    cbn [mbind option_bind].
    destruct (IH (timestamps ∘ S)
                 (acc ∪ list_to_set
                          ((fun d => from_option KInt KNone (BaseExportService.cd_card_id d))
                           <$> BaseExportService.unstudied_card_details r)))
      as (final & Hfinal & Hmem).
    exists final. split; [exact Hfinal|]. intros k. rewrite Hmem, elem_of_union,
      elem_of_list_to_set, list_elem_of_fmap. split.
    + intros [[?|(d & -> & Hd)]|(r' & d & Hr' & Hd & ->)].
      * by left.
      * right. exists r, d. split; [left|done].
      * right. exists r', d. split; [by right|done].
    + intros [?|(r' & d & [->|Hr']%elem_of_cons & Hd & ->)].
      * by left; left.
      * left; right. by exists d.
      * right. by exists r', d.
Qed.

(** The card details of a record of the export steps. *)
Lemma export_steps_details self criteria records r d :
  export_steps self criteria = Some records → r ∈ records →
  d ∈ BaseExportService.unstudied_card_details r ↔
  ∃ card, card ∈ card_values self ∧ BaseExportService.tag_name r ∈ tags card
          ∧ admitted criteria (BaseExportService.tag_name r)
          ∧ reps card = 0 ∧ d = BaseExportService.card_detail card.
Proof.
  unfold export_steps. intros Hsteps Hr.
  destruct (pipeline_entry _ _ _ _ Hsteps Hr) as (info & _ & Hrec).
  unfold BaseExportService.export_record in Hrec.
  apply tag_record_inv in Hrec as (? & ? & ? & ? & ? & ? & ? & ? & ? & _ & _ & _ & Hfields).
  destruct (filter_cards_facts self criteria (BaseExportService.tag_name r))
    as (_ & _ & _ & Hmem & _).
  set (cards := dict_get (_filter_cards_by_tag_fast self criteria)
                  (BaseExportService.tag_name r) []) in *.
  assert (BaseExportService.unstudied_card_details r
          = BaseExportService.card_detail <$> filter BaseExportService.is_new cards) as ->.
  { rewrite Hfields at 1. cbn [BaseExportService.unstudied_card_details].
    destruct (Z.ltb_spec 0 (len cards)) as [|Hle]; [done|].
    assert (cards = []) as -> by (apply len_zero; pose proof (len_nonneg cards); lia).
    done. }
  rewrite list_elem_of_fmap. setoid_rewrite list_elem_of_filter.
  unfold BaseExportService.is_new. split.
  - intros (card & -> & Hnew & Hin). apply Hmem in Hin as (Hadm & Hin & Htag).
    exists card. split_and!; try done. by apply Z.eqb_eq, Is_true_true.
  - intros (card & Hin & Htag & Hadm & Hnew & ->). exists card. split; [done|]. split.
    + apply Is_true_true. by apply Z.eqb_eq.
    + by apply Hmem.
Qed.

(** Every tag carried by a card has its record. *)
Lemma export_steps_record self criteria records tag card :
  export_steps self criteria = Some records →
  card ∈ card_values self → tag ∈ tags card → admitted criteria tag →
  ∃ r, r ∈ records ∧ BaseExportService.tag_name r = tag.
Proof.
  unfold export_steps, BaseExportService.export_pipeline. intros Hsteps Hcard Htag Hadm.
  destruct (filter_cards_facts self criteria tag) as (_ & Hkey & _).
  destruct (create_export_data_record _ _ _ _ tag Hsteps) as (r & Hr & Hrec & _).
  { left. apply Hkey. split; [done|]. by exists card. }
  exists r. split; [done|].
  destruct (export_record_fields self (_filter_cards_by_tag_fast self criteria)
              (HierarchicalTagCounter.calculate_hierarchical_counts
                 (HierarchicalTagCounter.build_hierarchy_from_cards
                    HierarchicalTagCounter.__init__
                    (_filter_cards_by_tag_fast self criteria))) tag)
    as (r' & Hr' & Hname & _).
  congruence.
Qed.

Lemma admitted_all_tags tag : admitted all_tags_criteria tag.
Proof. split; [intros pattern Hp; by apply elem_of_nil in Hp|by left]. Qed.

(** X13. [unique_cards] of a successful unified export is not the number
    of cards of the collection: on a store that keeps each card under its
    own identifier, it is the number of unstudied cards ([reps = 0]) that
    carry at least one tag. *)
Theorem unique_cards_counts_unstudied (self : UnifiedCardExporter.t) (w : World)
    (fs : FileSystem) (cards_by_id : gmap Z Card) (revlog_by_card : gmap Z (list RevLog)) :
  collection w = Returned (cards_by_id, revlog_by_card) →
  store_ok (BaseExportService.mk cards_by_id revlog_by_card "All Tags Export") →
  is_Some (gzip_open fs (path_join (exports_dir self) (unified_filename w))) →
  success (_create_direct_unified_export self w fs).1 = true
  ∧ unique_cards (_create_direct_unified_export self w fs).1
    = Z.of_nat (size (unstudied_tagged cards_by_id)).
Proof.
  intros Hcol Hstore [fs1 Hopen].
  destruct (unified_export_opened self w fs fs1 Hopen) as (unique & Hunique & ->).
  split; [done|]. cbn [fst unique_cards].
  destruct (hierarchical_export_data_loaded w cards_by_id revlog_by_card Hcol)
    as (records & Hrecords & Hdata).
  rewrite Hdata in Hunique.
  destruct (count_unique_cards_unified (utcnow w) "AllTags" records ∅)
    as (final & Hfinal & Hmem).
  assert (final = unique) as -> by congruence. clear Hfinal Hunique Hdata.
  set (service := BaseExportService.mk cards_by_id revlog_by_card "All Tags Export") in *.
  assert (unique = list_to_set (KInt <$> (map_to_list (unstudied_tagged cards_by_id)).*1))
    as ->.
  { apply set_eq. intros k.
    rewrite Hmem, elem_of_list_to_set, list_elem_of_fmap. split.
    - intros [Hk|(r & d & Hr & Hd & ->)]; [by apply elem_of_empty in Hk|].
      apply (export_steps_details _ _ _ _ _ Hrecords Hr)
        in Hd as (card & [i Hi]%elem_of_card_values & Htag & _ & Hnew & ->).
      destruct (Hstore i card Hi) as [Hid _].
      exists i. cbn [BaseExportService.card_detail BaseExportService.cd_card_id].
      rewrite Hid. split; [done|].
      apply list_elem_of_fmap. exists (i, card). split; [done|].
      apply elem_of_map_to_list, map_lookup_filter_Some. split; [exact Hi|].
      split; [exact Hnew|]. simpl. intros Hnil. rewrite Hnil in Htag.
      by apply elem_of_nil in Htag.
    - intros (i & -> & ([j card] & Hj & Hin)%list_elem_of_fmap). simpl in Hj. subst j.
      apply elem_of_map_to_list, map_lookup_filter_Some in Hin as [Hi [Hnew Htags]].
      simpl in Hnew, Htags. right.
      destruct (tags card) as [|tag rest] eqn:Hcard_tags; [done|].
      assert (card ∈ card_values service) as Hcard by (apply elem_of_card_values; by exists i).
      assert (tag ∈ tags card) as Htag by (rewrite Hcard_tags; left).
      destruct (export_steps_record _ _ _ tag card Hrecords Hcard Htag
                  (admitted_all_tags tag)) as (r & Hr & Hname).
      exists r, (BaseExportService.card_detail card). split; [done|]. split.
      + apply (export_steps_details _ _ _ _ _ Hrecords Hr). exists card.
        rewrite Hname. split_and!; try done. apply admitted_all_tags.
      + cbn [BaseExportService.card_detail BaseExportService.cd_card_id].
        destruct (Hstore i card Hi) as [-> _]. done. }
  unfold HierarchicalTagCounter.len_set. f_equal.
  rewrite size_list_to_set.
  - by rewrite length_fmap, length_fmap, length_map_to_list.
  - apply NoDup_fmap_2; [by intros ?? [= ->]|]. apply NoDup_fst_map_to_list.
Qed.

Lemma unique_cards_counts_unstudied_witness :
  unique_cards (_create_direct_unified_export UnifiedSample.exporter UnifiedSample.world
                  empty_fs).1 = 1
  ∧ size (BaseExportService.cards_by_id Sample.service) = 3%nat.
Proof.
  split; [|vm_compute; reflexivity].
  destruct (unique_cards_counts_unstudied UnifiedSample.exporter UnifiedSample.world
              empty_fs (BaseExportService.cards_by_id Sample.service)
              (BaseExportService.revlog_by_card Sample.service)) as [_ ->].
  - reflexivity.
  - exact sample_store_ok.
  - vm_compute. by eexists.
  - vm_compute. reflexivity.
Defined.

End UnifiedFacts.
